(** * eegos: wire framing, session lifecycle and RPC dispatch

    A shallow embedding of the [network] and [rpc] packages.

    Conventions of the embedding:
    - a [uint16] is a [Z] with the wrap-around written out ([mod 65536]);
      a [uint8] / wire byte is a [Byte.byte];
    - a Go slice of bytes is a [list byte] (the [nil] slice and the empty
      slice are both the empty list);
    - a Go channel is its FIFO content together with its [closed] flag:
      a send appends, and panics on a closed channel; [close] panics on a
      closed channel.  A send that blocks on a full channel is recorded
      at the point where it completes;
    - the waiters of the RPC client are unbuffered channels: a send on
      one is handed to the call that receives from it, and parks its
      goroutine for good when no call receives;
    - goroutines that run beside an operation are given as the list of
      the steps they take, in the order in which the steps take effect;
    - a Go map is a [gmap];
    - a panic is the [Panicked] outcome of the [Outcome] monad;
    - calls to the logger only write diagnostics and are left out. *)

From Stdlib Require Import ZArith Lia List Strings.Byte String Ascii.
From stdpp Require Import gmap strings list.

Set Default Goal Selector "!".
Set Warnings "-register-all".

(** ** Outcomes: normal return or panic *)

Inductive Outcome (A : Type) : Type :=
| Done (a : A)
| Panicked (msg : string).
Arguments Done {A} a.
Arguments Panicked {A} msg.

#[global] Instance Outcome_ret : MRet Outcome := fun A a => Done a.

#[global] Instance Outcome_bind : MBind Outcome := fun A B f m =>
  match m with
  | Done a => f a
  | Panicked msg => Panicked msg
  end.

(** ** Channels *)

Record Chan (A : Type) : Type := mkChan {
  ch_buf : list A;
  ch_closed : bool
}.
Arguments mkChan {A} ch_buf ch_closed.
Arguments ch_buf {A} c.
Arguments ch_closed {A} c.

(** [make(chan A, n)] *)
Definition chan_make {A} : Chan A := mkChan [] false.

(** [ch <- x] *)
Definition chan_send {A} (ch : Chan A) (x : A) : Outcome (Chan A) :=
  if ch_closed ch then Panicked "send on closed channel"
  else Done (mkChan (ch_buf ch ++ [x]) false).

(** [close(ch)] *)
Definition chan_close {A} (ch : Chan A) : Outcome (Chan A) :=
  if ch_closed ch then Panicked "close of closed channel"
  else Done (mkChan (ch_buf ch) true).

(** [v, ok := <-ch] when it does not block. *)
Inductive Recv (A : Type) : Type :=
| RecvValue (x : A) (rest : Chan A)
| RecvClosed
| RecvEmpty.
Arguments RecvValue {A} x rest.
Arguments RecvClosed {A}.
Arguments RecvEmpty {A}.

Definition chan_recv {A} (ch : Chan A) : Recv A :=
  match ch_buf ch with
  | x :: rest => RecvValue x (mkChan rest (ch_closed ch))
  | [] => if ch_closed ch then RecvClosed else RecvEmpty
  end.

(** ** Machine integers and bytes *)

Module Wire.
Local Open Scope Z_scope.

(** Conversion of an integer to [uint8], as a wire byte. *)
Definition uint8 (z : Z) : byte :=
  match Byte.of_N (Z.to_N (z mod 256)) with
  | Some b => b
  | None => x00
  end.

(** Widening of a byte to an integer. *)
Definition byte_to_Z (b : byte) : Z := Z.of_N (Byte.to_N b).

(** Conversion of an integer to [uint16]. *)
Definition uint16 (z : Z) : Z := z mod 65536.

End Wire.

(** ** Package [util] *)

Module Util.
Local Open Scope Z_scope.

(** [Counter.GetNum] on a counter whose field [Num] is [num]: the field is
    incremented (a [uint16], so it wraps) and its new value returned.  The
    result is the returned number and the new field. *)
Definition GetNum (num : Z) : Z * Z :=
  let num := Wire.uint16 (num + 1) in
  (num, num).

(** The numbers returned by [n] calls in a row, and the field after them. *)
Fixpoint GetNum_times (n : nat) (num : Z) : list Z * Z :=
  match n with
  | O => ([], num)
  | S n =>
    let '(x, num) := GetNum num in
    let '(xs, num) := GetNum_times n num in
    (x :: xs, num)
  end.

End Util.

(** ** Package [network] *)

Module Network.
Import Wire.
Local Open Scope Z_scope.

(** Connection states ([iota] constants 0..3). *)
Inductive State : Type := NEW_CONNECTION | WORKING | CLOSING | CLOSED.

Definition state_num (st : State) : Z :=
  match st with
  | NEW_CONNECTION => 0
  | WORKING => 1
  | CLOSING => 2
  | CLOSED => 3
  end.

Definition state_eqb (a b : State) : bool := state_num a =? state_num b.

(** Packet kinds ([iota] constants 0..3, carried in one byte). *)
Definition PKG_TYPE : byte := x00.
Definition HEARTBEAT : byte := x01.
Definition HEARTBEAT_RET : byte := x02.
Definition DATA : byte := x03.

(** [type Data struct] *)
Record Data : Type := mkData {
  dType : byte;
  head : Z;
  body : list byte
}.

(** [type Session struct].  Of the connection the model keeps what the
    operations below use: the bytes the peer has sent and that are still to
    be read ([conn_in]).  The message callback belongs to the handler. *)
Record Session : Type := mkSession {
  fd : Z;
  conn_in : list byte;
  inData : Chan Data;
  outData : Chan (list byte);
  cClose : Chan bool;
  state : State
}.

Definition set_state (s : Session) (st : State) : Session :=
  mkSession (fd s) (conn_in s) (inData s) (outData s) (cClose s) st.

Definition set_inData (s : Session) (c : Chan Data) : Session :=
  mkSession (fd s) (conn_in s) c (outData s) (cClose s) (state s).

Definition set_outData (s : Session) (c : Chan (list byte)) : Session :=
  mkSession (fd s) (conn_in s) (inData s) c (cClose s) (state s).

Definition set_cClose (s : Session) (c : Chan bool) : Session :=
  mkSession (fd s) (conn_in s) (inData s) (outData s) c (state s).

Definition set_conn_in (s : Session) (bs : list byte) : Session :=
  mkSession (fd s) bs (inData s) (outData s) (cClose s) (state s).

(** [CreateSession]: [n] is the value drawn from the session counter and
    [input] the bytes the peer will send. *)
Definition CreateSession (n : Z) (input : list byte) : Session :=
  mkSession n input chan_make chan_make chan_make NEW_CONNECTION.

(** [Session.Start] (the two pumps it launches are separate tasks). *)
Definition Start (this : Session) : Session := set_state this WORKING.

(** [Session.Close] *)
Definition Close (this : Session) : Session := set_state this CLOSING.

(** [Session.Release] *)
Definition Release (this : Session) : Outcome Session :=
  (c1 ← chan_close (inData this);
   let this := set_inData this c1 in
   c2 ← chan_close (outData this);
   let this := set_outData this c2 in
   c3 ← chan_close (cClose this);
   let this := set_cClose this c3 in
   Done (set_state this CLOSED)).

(** [Session.pack] *)
Definition pack (head : Z) (dType : byte) (body : list byte) : list byte :=
  let length := Z.of_nat (List.length body) in
  let '(length, body) :=
    if 65535 <? length then (0, []) else (length, body) in
  [uint8 length; uint8 (Z.shiftr length 8); dType;
   uint8 head; uint8 (Z.shiftr head 8)] ++ body.

(** [io.ReadFull] on the remaining input of a connection: exactly [n]
    bytes, or [io.EOF] when nothing could be read, or
    [io.ErrUnexpectedEOF] when the input ends part-way. *)
Inductive ReadError : Type := EOF | ErrUnexpectedEOF.

Definition ReadFull (conn : list byte) (n : nat)
  : ReadError + (list byte * list byte) :=
  match n with
  | O => inr ([], conn)
  | _ =>
    match conn with
    | [] => inl EOF
    | _ => if (List.length conn <? n)%nat then inl ErrUnexpectedEOF
           else inr (take n conn, drop n conn)
    end
  end.

(** [Session.Reader]: the result is the returned error ([None] for
    [nil]) and the session after the call. *)
Definition Reader (this : Session) : Outcome (option ReadError * Session) :=
  match ReadFull (conn_in this) 5 with
  | inl err => Done (Some err, set_conn_in this [])
  | inr (b, rest) =>
    let this := set_conn_in this rest in
    let b0 := byte_to_Z (nth 0 b x00) in
    let b1 := byte_to_Z (nth 1 b x00) in
    let b3 := byte_to_Z (nth 3 b x00) in
    let b4 := byte_to_Z (nth 4 b x00) in
    let pkgLen := uint16 (b0 + uint16 (Z.shiftl b1 8)) in
    let pkg_dType := nth 2 b x00 in
    let pkg_head := uint16 (b3 + uint16 (Z.shiftl b4 8)) in
    if 0 <? pkgLen then
      match ReadFull (conn_in this) (Z.to_nat pkgLen) with
      | inl err => Done (Some err, set_conn_in this [])
      | inr (pkg_body, rest) =>
        let this := set_conn_in this rest in
        (c ← chan_send (inData this) (mkData pkg_dType pkg_head pkg_body);
         Done (None, set_inData this c))
      end
    else
      (c ← chan_send (inData this) (mkData pkg_dType pkg_head []);
       Done (None, set_inData this c))
  end.

(** [Session.doWrite].  A [nil] payload is replaced by the empty slice,
    which is the same list here. *)
Definition doWrite (this : Session) (head : Z) (dType : byte)
    (data : list byte) : Outcome Session :=
  if negb (state_eqb (state this) WORKING) then Done this
  else
    let data := match data with [] => [] | _ => data end in
    let pkg := pack head dType data in
    (c ← chan_send (outData this) pkg;
     Done (set_outData this c)).

(** The channels of a session are open until it is released. *)
Definition open_until_closed (s : Session) : Prop :=
  state s <> CLOSED ->
  ch_closed (inData s) = false /\ ch_closed (outData s) = false
  /\ ch_closed (cClose s) = false.

(** The three lifecycle operations, and the states a session goes
    through when a sequence of them is applied (a panic ends the run). *)
Inductive Op : Type := OpStart | OpClose | OpRelease.

Definition apply_op (s : Session) (o : Op) : Outcome Session :=
  match o with
  | OpStart => Done (Start s)
  | OpClose => Done (Close s)
  | OpRelease => Release s
  end.

Fixpoint run_ops (s : Session) (ops : list Op) : list State :=
  match ops with
  | [] => []
  | o :: rest =>
    match apply_op s o with
    | Done s' => state s' :: run_ops s' rest
    | Panicked _ => []
    end
  end.

(** A trace of states that never steps back along
    NEW, WORKING, CLOSING, CLOSED, starting from [st]. *)
Fixpoint forward_from (st : State) (trace : list State) : bool :=
  match trace with
  | [] => true
  | x :: rest => (state_num st <=? state_num x) && forward_from x rest
  end.

(** The place of an operation in the lifecycle, and sequences that apply
    the operations in lifecycle order. *)
Definition op_rank (o : Op) : Z :=
  match o with
  | OpStart => 1
  | OpClose => 2
  | OpRelease => 3
  end.

Fixpoint in_lifecycle_order (k : Z) (ops : list Op) : bool :=
  match ops with
  | [] => true
  | o :: rest => (k <=? op_rank o) && in_lifecycle_order (op_rank o) rest
  end.

(** What one pass of a dispatch loop hands to other tasks: the [go]
    statements it executes and the handler calls it makes. *)
Inductive Spawn : Type :=
| GoDoWrite (head : Z) (dType : byte) (data : list byte)
| GoHeartbeat (fd sessionID : Z)
| GoMsgHandle (fd sessionID : Z) (body : list byte)
| CallClose (fd : Z).

(** [TcpConn.Write] *)
Definition Write (s : Session) (sID : Z) (buff : list byte)
  : Outcome Session :=
  doWrite s sID DATA buff.

(** [TcpConn.Close]: the call of the handler's [Close], then the release
    of the session. *)
Definition TcpConn_Close (s : Session) : list Spawn * Outcome Session :=
  ([CallClose (fd s)], Release s).

(** The [select] of [TcpServer.processInData] has two cases. *)
Inductive SelectCase : Type := CaseInData | CaseClose.

(** One pass of the loop body of [TcpServer.processInData], for the
    [select] case that fires ([None] when the chosen case has nothing to
    receive).  The result is what the pass started or called, then the
    session it leaves and whether the loop goes on. *)
Definition processInData_pass (s : Session) (c : SelectCase)
  : option (list Spawn * Outcome (Session * bool)) :=
  match c with
  | CaseInData =>
    match chan_recv (inData s) with
    | RecvEmpty => None
    | RecvClosed => Some ([], Done (s, true))
    | RecvValue data rest =>
      let s := set_inData s rest in
      if Byte.eqb (dType data) HEARTBEAT then
        if negb (state_eqb (state s) WORKING) then Some ([], Done (s, true))
        else Some ([GoDoWrite (head data) HEARTBEAT_RET [];
                    GoHeartbeat (fd s) (head data)], Done (s, true))
      else if Byte.eqb (dType data) DATA then
        Some ([GoMsgHandle (fd s) (head data) (body data)], Done (s, true))
      else Some ([], Done (s, true))
    end
  | CaseClose =>
    let closing (s : Session) :=
      let '(calls, r) := TcpConn_Close s in
      Some (calls, s' ← r; Done (s', false)) in
    match chan_recv (cClose s) with
    | RecvEmpty => None
    | RecvClosed => closing s
    | RecvValue _ rest => closing (set_cClose s rest)
    end
  end.

(** The write side of a connection: the bytes written to it so far and
    whether [Close] was called on it.  A write after [Close] fails and
    writes nothing (the pumps ignore the error). *)
Record Conn : Type := mkConn {
  written : list byte;
  closed : bool
}.

Definition conn_Write (c : Conn) (pkg : list byte) : Conn :=
  if closed c then c else mkConn (written c ++ pkg) false.

Definition conn_Close (c : Conn) : Conn := mkConn (written c) true.

(** What is left of the input once [Reader] has read one whole frame
    from it. *)
Definition frame_rest (conn : list byte) : list byte :=
  match ReadFull conn 5 with
  | inl _ => []
  | inr (b, rest) =>
    let pkgLen :=
      uint16 (byte_to_Z (nth 0 b x00)
              + uint16 (Z.shiftl (byte_to_Z (nth 1 b x00)) 8)) in
    if 0 <? pkgLen then
      match ReadFull rest (Z.to_nat pkgLen) with
      | inl _ => []
      | inr (_, rest') => rest'
      end
    else rest
  end.

(** The loop of [Session.handleRead]: [Reader] is called while the state
    is WORKING, until it returns an error.  The result is the session when
    the loop is left and whether it is left by a panic of [Reader] (the
    send on a closed inbound queue, the frame being read already).  [None]
    when the fuel runs out. *)
Fixpoint handleRead_loop (fuel : nat) (this : Session)
  : option (Session * bool) :=
  match fuel with
  | O => None
  | S fuel =>
    if negb (state_eqb (state this) WORKING) then Some (this, false)
    else
      match Reader this with
      | Done (Some _, this') => Some (this', false)
      | Done (None, this') => handleRead_loop fuel this'
      | Panicked _ =>
        Some (set_conn_in this (frame_rest (conn_in this)), true)
      end
  end.

(** [Session.handleRead]: the loop, then the deferred function, which
    closes the connection, sends on [cClose] and recovers a panic of the
    loop.  Every pass of the loop that goes on reads at least the 5 bytes
    of a header, so the length of the input bounds the passes. *)
Definition handleRead (this : Session) (c : Conn)
  : option (Outcome (Session * Conn)) :=
  match handleRead_loop (S (List.length (conn_in this))) this with
  | None => None
  | Some (this, _) =>
    let c := conn_Close c in
    Some (cs ← chan_send (cClose this) true;
          Done (set_cClose this cs, c))
  end.

(** How [Session.handleWrite] stops when no other task acts on the
    session: it leaves its loop, or waits on the empty outbound queue, or
    goes round on the closed outbound queue for as long as the state is
    WORKING. *)
Inductive PumpStop : Type := Exited | Blocked | Spinning.

(** The loop of [Session.handleWrite] and the [Close] that follows it. *)
Fixpoint handleWrite_loop (fuel : nat) (this : Session) (c : Conn)
  : option (PumpStop * Session * Conn) :=
  match fuel with
  | O => None
  | S fuel =>
    if negb (state_eqb (state this) WORKING)
    then Some (Exited, this, conn_Close c)
    else
      match chan_recv (outData this) with
      | RecvValue pkg rest =>
        handleWrite_loop fuel (set_outData this rest) (conn_Write c pkg)
      | RecvClosed => Some (Spinning, this, c)
      | RecvEmpty => Some (Blocked, this, c)
      end
  end.

(** [Session.handleWrite]: each pass that goes on takes one frame off the
    outbound queue, so the length of the queue bounds the passes. *)
Definition handleWrite (this : Session) (c : Conn)
  : option (PumpStop * Session * Conn) :=
  handleWrite_loop (S (List.length (ch_buf (outData this)))) this c.

(** A sequence of [doWrite] calls, one per packet. *)
Fixpoint doWrite_all (this : Session) (pkgs : list Data) : Outcome Session :=
  match pkgs with
  | [] => Done this
  | d :: rest =>
    this' ← doWrite this (head d) (dType d) (body d);
    doWrite_all this' rest
  end.

(** The body that [pack] puts on the wire for a payload. *)
Definition sent_body (payload : list byte) : list byte :=
  if 65535 <? Z.of_nat (List.length payload) then [] else payload.

(** The body length that the first two bytes of the input announce, as
    [Reader] computes it. *)
Definition announced (conn : list byte) : Z :=
  uint16 (byte_to_Z (nth 0 conn x00)
          + uint16 (Z.shiftl (byte_to_Z (nth 1 conn x00)) 8)).

(** The bytes of a sequence of packets, each framed by [pack], and the
    packet that the frame of a packet carries. *)
Fixpoint wire (pkgs : list Data) : list byte :=
  match pkgs with
  | [] => []
  | d :: rest => pack (head d) (dType d) (body d) ++ wire rest
  end.

Definition received (d : Data) : Data :=
  mkData (dType d) (head d) (sent_body (body d)).

(** [TcpConn.NewSession] *)
Definition NewSession (n : Z) (input : list byte) : Session :=
  Start (CreateSession n input).

End Network.

(** ** JSON values, as [encoding/json] decodes them into [interface{}] *)

Module Json.
Local Open Scope Z_scope.

(** The dynamic values of a decoded document: [nil], [bool], [float64]
    (carried here as an integer: the numbers of the model are the
    integer-valued ones), [string], [[]interface{}] and
    [map[string]interface{}]. *)
Inductive JValue : Type :=
| JNull
| JBool (b : bool)
| JNum (n : Z)
| JStr (s : string)
| JArr (l : list JValue)
| JObj (l : list (string * JValue)).

(** The signatures of [json.Unmarshal(body, &args)] with
    [args []interface{}] ([None] is a non-nil error) and of
    [json.Marshal(v)] with [v []interface{}]. *)
Definition Unmarshal : Type := list byte -> option (list JValue).
Definition Marshal : Type := list JValue -> option (list byte).

(** *** A decoder and an encoder for a subset of JSON

    The operations of the [rpc] package take the decoder and the encoder
    as arguments.  The two below cover documents made of [null], [true],
    [false], integers, strings of printable ASCII characters without
    escapes, and arrays; they supply concrete inputs.  Documents outside
    this subset (objects, escapes, fractions, exponents) are reported as
    errors by them. *)

(** The double quote (code 34), and a string between double quotes. *)
Definition dquote : ascii := "034".

Definition quoted (s : string) : string :=
  String dquote (s ++ String dquote EmptyString).

Definition is_ws (c : ascii) : bool :=
  Ascii.eqb c " " || Ascii.eqb c "009" || Ascii.eqb c "010" || Ascii.eqb c "013".

Definition is_digit (c : ascii) : bool :=
  let n := N_of_ascii c in ((48 <=? n) && (n <=? 57))%N.

Definition digit_val (c : ascii) : Z := Z.of_N (N_of_ascii c) - 48.

Definition is_plain_char (c : ascii) : bool :=
  let n := N_of_ascii c in
  ((32 <=? n) && (n <=? 126))%N
  && negb (Ascii.eqb c dquote) && negb (Ascii.eqb c "\")
  && negb (Ascii.eqb c "<") && negb (Ascii.eqb c ">") && negb (Ascii.eqb c "&").

Fixpoint skip_ws (l : list ascii) : list ascii :=
  match l with
  | c :: r => if is_ws c then skip_ws r else l
  | [] => []
  end.

(** The characters of a string literal after its opening quote. *)
Fixpoint parse_string_tail (l : list ascii) : option (string * list ascii) :=
  match l with
  | [] => None
  | c :: r =>
    if Ascii.eqb c dquote then Some (EmptyString, r)
    else if is_plain_char c || Ascii.eqb c "<" || Ascii.eqb c ">"
            || Ascii.eqb c "&" then
      match parse_string_tail r with
      | Some (s, r') => Some (String c s, r')
      | None => None
      end
    else None
  end.

Fixpoint parse_digits (acc : Z) (l : list ascii) : Z * list ascii :=
  match l with
  | c :: r => if is_digit c then parse_digits (10 * acc + digit_val c) r
              else (acc, l)
  | [] => (acc, [])
  end.

(** An unsigned integer literal: no leading zero, and not continued by a
    fraction or an exponent. *)
Definition parse_nat_literal (l : list ascii) : option (Z * list ascii) :=
  match l with
  | c :: r =>
    if negb (is_digit c) then None
    else
      let '(n, rest) := parse_digits 0 l in
      let ok_start :=
        negb (Ascii.eqb c "0") ||
        match r with d :: _ => negb (is_digit d) | [] => true end in
      let ok_end :=
        match rest with
        | d :: _ => negb (Ascii.eqb d "." || Ascii.eqb d "e" || Ascii.eqb d "E")
        | [] => true
        end in
      if ok_start && ok_end then Some (n, rest) else None
  | [] => None
  end.

Fixpoint parse_value (fuel : nat) (l : list ascii)
  : option (JValue * list ascii) :=
  match fuel with
  | O => None
  | S fuel =>
    match skip_ws l with
    | "n" :: "u" :: "l" :: "l" :: r => Some (JNull, r)
    | "t" :: "r" :: "u" :: "e" :: r => Some (JBool true, r)
    | "f" :: "a" :: "l" :: "s" :: "e" :: r => Some (JBool false, r)
    | "034" :: r =>
      match parse_string_tail r with
      | Some (s, r') => Some (JStr s, r')
      | None => None
      end
    | "-" :: r =>
      match parse_nat_literal r with
      | Some (n, r') => Some (JNum (- n), r')
      | None => None
      end
    | "[" :: r =>
      match skip_ws r with
      | "]" :: r' => Some (JArr [], r')
      | _ =>
        match parse_elements fuel r with
        | Some (vs, r') => Some (JArr vs, r')
        | None => None
        end
      end
    | l' =>
      match parse_nat_literal l' with
      | Some (n, r') => Some (JNum n, r')
      | None => None
      end
    end
  end%char
with parse_elements (fuel : nat) (l : list ascii)
  : option (list JValue * list ascii) :=
  match fuel with
  | O => None
  | S fuel =>
    match parse_value fuel l with
    | Some (v, r) =>
      match skip_ws r with
      | "," :: r' =>
        match parse_elements fuel r' with
        | Some (vs, r'') => Some (v :: vs, r'')
        | None => None
        end
      | "]" :: r' => Some ([v], r')
      | _ => None
      end
    | None => None
    end
  end%char.

Definition ascii_of_bytes (bs : list byte) : list ascii :=
  map ascii_of_byte bs.

Definition bytes_of_string (s : string) : list byte :=
  list_byte_of_string s.

(** Decoding into a slice of [interface{}]: an array gives its elements,
    [null] gives the empty slice, anything else is an error. *)
Definition unmarshal_subset : Unmarshal := fun body =>
  let l := ascii_of_bytes body in
  match parse_value (2 * S (List.length l)) l with
  | Some (v, rest) =>
    match skip_ws rest with
    | [] =>
      match v with
      | JArr vs => Some vs
      | JNull => Some []
      | _ => None
      end
    | _ => None
    end
  | None => None
  end.

Fixpoint digits_of_pos (fuel : nat) (n : Z) (acc : string) : string :=
  match fuel with
  | O => acc
  | S fuel =>
    let acc := String (ascii_of_N (Z.to_N (48 + n mod 10))) acc in
    if n / 10 =? 0 then acc else digits_of_pos fuel (n / 10) acc
  end.

Definition print_int (n : Z) : string :=
  if n <? 0 then String "-" (digits_of_pos (S (Z.to_nat (Z.log2 (- n)))) (- n) EmptyString)
  else digits_of_pos (S (Z.to_nat (Z.log2 n))) n EmptyString.

Fixpoint all_plain (s : string) : bool :=
  match s with
  | EmptyString => true
  | String c r => is_plain_char c && all_plain r
  end.

Fixpoint print_value (v : JValue) : option string :=
  match v with
  | JNull => Some "null"%string
  | JBool true => Some "true"%string
  | JBool false => Some "false"%string
  | JNum n => Some (print_int n)
  | JStr s =>
    if all_plain s then Some (quoted s)
    else None
  | JArr l =>
    let fix print_list (l : list JValue) : option string :=
      match l with
      | [] => Some EmptyString
      | [x] => print_value x
      | x :: r =>
        match print_value x, print_list r with
        | Some a, Some b => Some (a ++ String "," b)%string
        | _, _ => None
        end
      end in
    match print_list l with
    | Some inner => Some (String "[" (inner ++ String "]" EmptyString))%string
    | None => None
    end
  | JObj _ => None
  end.

Definition marshal_subset : Marshal := fun v =>
  match print_value (JArr v) with
  | Some s => Some (bytes_of_string s)
  | None => None
  end.

End Json.

(** ** The part of [reflect] the dispatcher uses *)

Module Reflect.
Import Json.

(** Declared parameter types, up to what [Value.Convert] distinguishes
    when the source is a decoded JSON value: the integer kinds, the float
    kinds, [string], [bool], [[]byte], [[]rune], [[]interface{}],
    [map[string]interface{}], the empty interface, and [TOther] for a
    type none of the decoded values converts to (struct, pointer, channel,
    function, complex, non-empty interface, other slices and maps). *)
Inductive GoType : Type :=
| TBool | TInt | TUint | TFloat | TString
| TBytes | TRunes | TSliceAny | TMapStringAny | TAny | TOther.

(** A [reflect.Value]: its type and the value it carries. *)
Record RValue : Type := mkRValue { rv_type : GoType; rv_val : JValue }.

(** [reflect.ValueOf(a).Convert(t)]; [None] stands for the panic
    of [Convert] (the value cannot be converted, or [a] is [nil] and
    [ValueOf] gave the zero [Value]). *)
Definition Convert (a : JValue) (t : GoType) : option RValue :=
  let ok := Some (mkRValue t a) in
  match a, t with
  | JNull, _ => None
  | _, TAny => ok
  | JNum _, (TInt | TUint | TFloat) => ok
  | JStr _, (TString | TBytes | TRunes) => ok
  | JBool _, TBool => ok
  | JArr _, TSliceAny => ok
  | JObj _, TMapStringAny => ok
  | _, _ => None
  end.

End Reflect.

(** ** Package [rpc]: the server *)

Module RpcServer.
Import Json Reflect.
Local Open Scope Z_scope.

(** [type methodType struct]: [method] is the call of the method through
    [method.Func.Call], receiver included; it gives the returned values. *)
Record methodType : Type := mkMethod {
  method : list RValue -> Outcome (list JValue);
  args : list GoType
}.

(** [type Service struct] *)
Record Service : Type := mkService {
  name : string;
  methods : gmap string methodType
}.

(** [type Server struct] *)
Record Server : Type := mkServer {
  serviceMap : gmap string Service;
  sessions : gmap Z Network.Session
}.

(** [strings.LastIndex(s, ".")]: the byte index of the last dot, or -1. *)
Fixpoint last_dot_from (i : Z) (s : string) (found : Z) : Z :=
  match s with
  | EmptyString => found
  | String c r => last_dot_from (i + 1) r (if Ascii.eqb c "." then i else found)
  end.

Definition LastIndex_dot (s : string) : Z := last_dot_from 0 s (-1).

(** The slices [s[:j]] and [s[i:]] of a string, for indices in range. *)
Definition slice_to (s : string) (j : Z) : string :=
  substring 0 (Z.to_nat j) s.

Definition slice_from (s : string) (i : Z) : string :=
  substring (Z.to_nat i) (String.length s - Z.to_nat i) s.

(** [Server.Connect] *)
Definition Connect (this : Server) (fd : Z) (session : Network.Session)
  : Server :=
  mkServer (serviceMap this) (<[fd := session]> (sessions this)).

(** The loop of [Server.Message] that fills [callArgs[i+1]] from
    [args[i+1]], from index [i] on. *)
Fixpoint convert_args (tys : list GoType) (args : list JValue) (i : nat)
  : Outcome (list RValue) :=
  match tys with
  | [] => Done []
  | t :: tys' =>
    match args !! S i with
    | None => Panicked "index out of range"
    | Some a =>
      match Convert a t with
      | None => Panicked "reflect.Value.Convert"
      | Some v =>
        rest ← convert_args tys' args (S i);
        Done (v :: rest)
      end
    end
  end.

(** [Server.RunFunc]: the [nil] result is the empty list. *)
Definition RunFunc (m : methodType) (args : list RValue)
  : Outcome (list JValue) :=
  method m args.

(** What reflection shows of a method of a receiver: its name, the types
    of its parameters after the receiver, and its call. *)
Record Method : Type := mkReflectMethod {
  Name : string;
  In : list GoType;
  Func : list RValue -> Outcome (list JValue)
}.

(** What reflection shows of a receiver: the name of its type (of the
    type it points to), and its methods in the order of [Type.Method]. *)
Record Receiver : Type := mkReceiver {
  TypeName : string;
  Methods : list Method
}.

(** The loop of [Server.Register] over the methods: each one is stored
    under its name, with its parameter types. *)
Definition method_table (ms : list Method) : gmap string methodType :=
  foldl (fun tbl m => <[Name m := mkMethod (Func m) (In m)]> tbl) ∅ ms.

(** [Server.Register] *)
Definition Register (this : Server) (rcvr : Receiver) : Server :=
  mkServer
    (<[TypeName rcvr :=
         mkService (TypeName rcvr) (method_table (Methods rcvr))]>
       (serviceMap this))
    (sessions this).

Section Message.
Variable json_Unmarshal : Unmarshal.
Variable json_Marshal : Marshal.

(** The reply through [tcpServer.Write] on the session found under [fd]. *)
Definition reply (this : Server) (fd : Z) (s : Network.Session)
    (sessionID : Z) (buff : list byte) : Outcome Server :=
  s' ← Network.Write s sessionID buff;
  Done (mkServer (serviceMap this) (<[fd := s']> (sessions this))).

(** [Server.Message] *)
Definition Message (this : Server) (fd sessionID : Z) (body : list byte)
  : Outcome Server :=
  match sessions this !! fd with
  | None => Done this
  | Some s =>
    match json_Unmarshal body with
    | None => Done this
    | Some [] => Done this
    | Some ((JStr info :: _) as args) =>
      let dot := LastIndex_dot info in
      if dot <? 0 then Done this
      else
        let serviceName := slice_to info dot in
        let methodName := slice_from info (dot + 1) in
        match serviceMap this !! serviceName with
        | None => Done this
        | Some sInfo =>
          match methods sInfo !! methodName with
          | None => Done this
          | Some mInfo =>
            callArgs ← convert_args (RpcServer.args mInfo) args 0;
            ret ← RunFunc mInfo callArgs;
            match ret with
            | [] => reply this fd s sessionID []
            | _ =>
              match json_Marshal ret with
              | None => Done this
              | Some retBody => reply this fd s sessionID retBody
              end
            end
          end
        end
    | Some (_ :: _) =>
      Panicked "interface conversion: interface {} is not string"
    end
  end.

End Message.

End RpcServer.

(** ** Package [rpc]: the client *)

Module RpcClient.
Import Json.
Local Open Scope Z_scope.

(** [type Client struct].  The waiters are channels on the heap
    [chans], named by their address; [callRet] maps a correlation id to
    the address of its waiter, and [next_chan] is the next address that
    [make] hands out.  [msgCounter] is the counter of the TCP client.

    The waiters are unbuffered ([make(chan []interface{})]): a send on one
    completes only when a goroutine is receiving from it.  [receivers]
    are the waiters from which the call that made them is receiving (its
    goroutine is in the [select] of [Call]).  [senders] are the
    goroutines of [Message] that are parked at their send because nobody
    receives, each with its waiter and the value it holds.  [ch_buf] of a
    waiter holds what a completed send has handed to the receiver, until
    [Call] returns it. *)
Record Client : Type := mkClient {
  callRet : gmap Z nat;
  chans : gmap nat (Chan (list JValue));
  next_chan : nat;
  msgCounter : Z;
  session : option Network.Session;
  receivers : gset nat;
  senders : list (nat * list JValue)
}.

(** The channel at an address: one that was never written is as [make]
    left it. *)
Definition chan_at (this : Client) (w : nat) : Chan (list JValue) :=
  default chan_make (chans this !! w).

Definition set_chan (this : Client) (w : nat) (c : Chan (list JValue))
  : Client :=
  mkClient (callRet this) (<[w := c]> (chans this)) (next_chan this)
           (msgCounter this) (session this) (receivers this) (senders this).

Definition set_callRet (this : Client) (m : gmap Z nat) : Client :=
  mkClient m (chans this) (next_chan this) (msgCounter this) (session this)
           (receivers this) (senders this).

Definition set_receivers (this : Client) (r : gset nat) : Client :=
  mkClient (callRet this) (chans this) (next_chan this) (msgCounter this)
           (session this) r (senders this).

Definition set_senders (this : Client) (l : list (nat * list JValue))
  : Client :=
  mkClient (callRet this) (chans this) (next_chan this) (msgCounter this)
           (session this) (receivers this) l.

(** [NewClient] *)
Definition NewClient : Client := mkClient ∅ ∅ 0 0 None ∅ [].

(** [Client.Connect] *)
Definition Connect (this : Client) (s : Network.Session) : Client :=
  mkClient (callRet this) (chans this) (next_chan this) (msgCounter this)
           (Some s) (receivers this) (senders this).

(** [TcpClient.GetSessionID], that is [Counter.GetNum] on [msgCounter]:
    the incremented counter, wrapping at 16 bits. *)
Definition GetSessionID (this : Client) : Z * Client :=
  let num := Wire.uint16 (msgCounter this + 1) in
  (num, mkClient (callRet this) (chans this) (next_chan this) num
                 (session this) (receivers this) (senders this)).

(** [make(chan []interface{})] *)
Definition make_chan (this : Client) : nat * Client :=
  (next_chan this,
   mkClient (callRet this) (chans this) (S (next_chan this))
            (msgCounter this) (session this) (receivers this)
            (senders this)).

(** [tcpClient.Write(this.session, sessionID, body)] *)
Definition Write (this : Client) (sID : Z) (buff : list byte)
  : Outcome Client :=
  match session this with
  | None => Panicked "invalid memory address or nil pointer dereference"
  | Some s =>
    s' ← Network.Write s sID buff;
    Done (mkClient (callRet this) (chans this) (next_chan this)
                   (msgCounter this) (Some s') (receivers this)
                   (senders this))
  end.

(** The shape of the pending-call table in a running client: every
    registered waiter was handed out by [make] and is still open, no two
    correlation ids share a waiter, and no channel lives at an address
    that [make] has not handed out yet. *)
Definition well_formed (this : Client) : Prop :=
  (forall id w, callRet this !! id = Some w ->
     (w < next_chan this)%nat /\ ch_closed (chan_at this w) = false)
  /\ (forall id1 id2 w,
       callRet this !! id1 = Some w -> callRet this !! id2 = Some w ->
       id1 = id2)
  /\ (forall w, (next_chan this <= w)%nat -> chans this !! w = None).

(** The loop of [Client.Close] over the entries of the table: each entry
    is deleted and its waiter closed. *)
Fixpoint close_waiters (entries : list (Z * nat)) (this : Client)
  : Outcome Client :=
  match entries with
  | [] => Done this
  | (sessionID, waitRet) :: rest =>
    let this := set_callRet this (delete sessionID (callRet this)) in
    c ← chan_close (chan_at this waitRet);
    close_waiters rest (set_chan this waitRet c)
  end.

(** [Client.Close]: the table is ranged over in the order of its list of
    entries (Go leaves the order open). *)
Definition Close (this : Client) : Outcome Client :=
  close_waiters (map_to_list (callRet this)) this.

(** The two loops that [TcpClient.Dial] starts with [go]. *)
Inductive Loop : Type := ProcessInData | Heartbeat.

(** [Client.Dial], that is [TcpClient.Dial]: [conn] is what [net.Dial]
    gave ([None] for an error, else the bytes the server will send) and
    [n] the number drawn from the session counter.  On an error the client
    is left without session and nothing is started; else the session is
    attached and the two loops are started. *)
Definition Dial (this : Client) (conn : option (list byte)) (n : Z)
  : list Loop * Client :=
  match conn with
  | None => ([], this)
  | Some input =>
    ([ProcessInData; Heartbeat], Connect this (Network.NewSession n input))
  end.

(** [TcpClient.WriteData]: a fresh id, then the write. *)
Definition WriteData (this : Client) (buff : list byte)
  : Outcome (Z * Client) :=
  let '(sessionID, this) := GetSessionID this in
  match session this with
  | None => Panicked "invalid memory address or nil pointer dereference"
  | Some s =>
    s' ← Network.doWrite s sessionID Network.DATA buff;
    Done (sessionID,
          mkClient (callRet this) (chans this) (next_chan this)
                   (msgCounter this) (Some s') (receivers this)
                   (senders this))
  end.

(** The fields of [TcpClient] that its [Close] touches: the open flag
    and the channel of heartbeat acknowledgements. *)
Record TcpSide : Type := mkTcpSide {
  isOpen : bool;
  cHeartbeat : Chan Z
}.

(** [NewTcpClient], for these fields. *)
Definition NewTcpClient : TcpSide := mkTcpSide true chan_make.

(** One pass of the loop of [TcpClient.heartbeat], from the test of the
    open flag to the start of the write, the timer having fired: the loop
    draws the next id from [msgCounter], the counter that [GetSessionID]
    draws from, and starts the write of a HEARTBEAT frame with this id.
    [None] when the flag is down and the loop ends. *)
Definition heartbeat_pass (t : TcpSide) (this : Client)
  : option (list Network.Spawn * Client) :=
  if isOpen t then
    let '(sessionID, this) := GetSessionID this in
    Some ([Network.GoDoWrite sessionID Network.HEARTBEAT []], this)
  else None.

(** [k] passes of the heartbeat loop in a row: what they started and the
    client they leave. *)
Fixpoint heartbeat_passes (k : nat) (t : TcpSide) (this : Client)
  : list Network.Spawn * Client :=
  match k with
  | O => ([], this)
  | S k =>
    match heartbeat_pass t this with
    | Some (started, this) =>
      let '(more, this) := heartbeat_passes k t this in
      (started ++ more, this)
    | None => ([], this)
    end
  end.



(** [waitRet <- args] on a waiter.  On a closed channel it panics.  When
    the call is receiving, the value is handed over and the send is
    complete ([true]): the [select] of the call has fired and the call
    receives no more.  When nobody receives, the goroutine is parked at
    the send ([false]) and stays there. *)
Definition send (this : Client) (waitRet : nat) (args : list JValue)
  : Outcome (Client * bool) :=
  c ← chan_send (chan_at this waitRet) args;
  if decide (waitRet ∈ receivers this) then
    Done (set_receivers (set_chan this waitRet c)
            (receivers this ∖ {[waitRet]}), true)
  else Done (set_senders this (senders this ++ [(waitRet, args)]), false).

(** A goroutine parked at a send panics when its channel is closed. *)
Definition wake_senders (this : Client) : Outcome Client :=
  if existsb (fun p => ch_closed (chan_at this p.1)) (senders this)
  then Panicked "send on closed channel"
  else Done this.

(** What [Call] leaves when its [select] is over: it receives no more. *)
Definition leave (this : Client) (waitRet : nat) : Client :=
  set_receivers this (receivers this ∖ {[waitRet]}).

Section Operations.
Variable json_Unmarshal : Unmarshal.
Variable json_Marshal : Marshal.

(** [Client.Message], as the goroutine that the dispatch loop starts for
    a DATA frame: it runs to its return, or to its send when nobody
    receives from the waiter; the goroutine is then in [senders], and
    neither the [delete] nor the [close] has run. *)
Definition Message (this : Client) (fd sessionID : Z) (body : list byte)
  : Outcome Client :=
  match callRet this !! sessionID with
  | None => Done this
  | Some waitRet =>
    match json_Unmarshal body with
    | None => Done this
    | Some args =>
      '(this, sent) ← send this waitRet args;
      if sent : bool then
        let this := set_callRet this (delete sessionID (callRet this)) in
        c ← chan_close (chan_at this waitRet);
        Done (set_chan this waitRet c)
      else Done this
    end
  end.

(** The same in two steps, for the goroutines that run beside a call.
    [Message_send] is [Message] down to its send (lines 49 to 71): the
    result tells whether the send is complete and the goroutine goes on.
    [Message_rest] is what follows a complete send (lines 73 to 77). *)
Definition Message_send (this : Client) (fd sessionID : Z)
    (body : list byte) : Outcome (Client * bool) :=
  match callRet this !! sessionID with
  | None => Done (this, false)
  | Some waitRet =>
    match json_Unmarshal body with
    | None => Done (this, false)
    | Some args => send this waitRet args
    end
  end.

Definition Message_rest (this : Client) (sessionID : Z) (waitRet : nat)
  : Outcome Client :=
  let this := set_callRet this (delete sessionID (callRet this)) in
  c ← chan_close (chan_at this waitRet);
  Done (set_chan this waitRet c).

(** The steps that other goroutines take while a call waits: a DATA
    frame arrives and its goroutine runs [Message] down to the send; a
    goroutine of [Message] whose send on [waitRet] is complete runs on to
    its end; the connection closes and the connection manager calls
    [Close]. *)
Inductive Event : Type :=
| EvFrame (sessionID : Z) (body : list byte)
| EvFinish (sessionID : Z) (waitRet : nat)
| EvClose.

(** The client after a sequence of such steps.  A step that closes a
    channel wakes the goroutines parked on it, which panic; a panic in any
    goroutine ends the program. *)
Fixpoint react (this : Client) (fd : Z) (events : list Event)
  : Outcome Client :=
  match events with
  | [] => Done this
  | EvFrame sessionID body :: rest =>
    r ← Message_send this fd sessionID body;
    react r.1 fd rest
  | EvFinish sessionID waitRet :: rest =>
    this' ← Message_rest this sessionID waitRet;
    this' ← wake_senders this';
    react this' fd rest
  | EvClose :: rest =>
    this' ← Close this;
    this' ← wake_senders this';
    react this' fd rest
  end.

(** [Client.Call] down to its [select] (lines 103 to 129): the id and
    the waiter of the call, registered in the table, and the request
    written; [None] when the arguments do not encode and [Call] returns
    nil at once.  From here on the call receives from its waiter. *)
Definition Call_request (this : Client) (v : list JValue)
  : Outcome (option (Z * nat) * Client) :=
  let '(sessionID, this) := GetSessionID this in
  let '(waitRet, this) := make_chan this in
  match json_Marshal v with
  | None => Done (None, this)
  | Some body =>
    let this := set_callRet this (<[sessionID := waitRet]> (callRet this)) in
    this ← Write this sessionID body;
    Done (Some (sessionID, waitRet),
          set_receivers this ({[waitRet]} ∪ receivers this))
  end.

(** The [select] of [Call] (lines 131 to 145) on the client as the other
    goroutines have left it: the receive case when a value was handed
    over or the waiter is closed, the 3-second timer otherwise.  The
    result is the returned slice ([nil] is the empty list) and the client
    when [Call] returns. *)
Definition Call_select (this : Client) (waitRet : nat)
  : list JValue * Client :=
  match chan_recv (chan_at this waitRet) with
  | RecvValue ret rest => (ret, leave (set_chan this waitRet rest) waitRet)
  | RecvClosed => ([], leave this waitRet)
  | RecvEmpty => ([], leave this waitRet)
  end.

(** [Client.Call].  [events] are the steps of the other goroutines from
    the moment the request is written until [Call] returns. *)
Definition Call (this : Client) (v : list JValue) (fd : Z)
    (events : list Event) : Outcome (list JValue * Client) :=
  r ← Call_request this v;
  match r with
  | (None, this) => Done ([], this)
  | (Some (_, waitRet), this) =>
    this ← react this fd events;
    Done (Call_select this waitRet)
  end.

(** [Client.Send] *)
Definition Send (this : Client) (v : list JValue) : Outcome Client :=
  match json_Marshal v with
  | None => Done this
  | Some body =>
    r ← WriteData this body;
    Done r.2
  end.

End Operations.

End RpcClient.

(** ** Package [cluster] *)

Module Cluster.
Import Json.
Local Open Scope Z_scope.

Section Operations.
Variable json_Unmarshal : Unmarshal.
Variable json_Marshal : Marshal.

(** [cluster.Connect] on the table [cClient] (the nil map is the empty
    one); [conn] and [n] are as in [Client.Dial]. *)
Definition Connect (cClient : gmap string RpcClient.Client)
    (serverName : string) (conn : option (list byte)) (n : Z)
  : gmap string RpcClient.Client :=
  match cClient !! serverName with
  | Some _ => cClient
  | None =>
    <[serverName := (RpcClient.Dial RpcClient.NewClient conn n).2]> cClient
  end.

(** [cluster.Call]: the result of the call and the table, in which the
    client has changed; [events] are as in [Client.Call]. *)
Definition Call (cClient : gmap string RpcClient.Client)
    (serverName : string) (v : list JValue) (fd : Z)
    (events : list RpcClient.Event)
  : Outcome (list JValue * gmap string RpcClient.Client) :=
  match cClient !! serverName with
  | None => Panicked ("cannot find server:" +:+ serverName)
  | Some client =>
    r ← RpcClient.Call json_Unmarshal json_Marshal client v fd events;
    Done (r.1, <[serverName := r.2]> cClient)
  end.

(** [cluster.Send] *)
Definition Send (cClient : gmap string RpcClient.Client)
    (serverName : string) (v : list JValue)
  : Outcome (gmap string RpcClient.Client) :=
  match cClient !! serverName with
  | None => Panicked ("cannot find server:" +:+ serverName)
  | Some client =>
    client' ← RpcClient.Send json_Marshal client v;
    Done (<[serverName := client']> cClient)
  end.

End Operations.

End Cluster.

(** ** Concrete sessions, servers and clients used in the examples *)

Module Samples.
Import Json Reflect.
Local Open Scope Z_scope.

(** A session as [NewSession] leaves it: created, then started. *)
Definition working_session : Network.Session :=
  Network.Start (Network.CreateSession 1 []).

(** A session that was created and not started. *)
Definition new_session : Network.Session := Network.CreateSession 2 [].

(** A started session with one HEARTBEAT packet, of correlation id 300,
    waiting on its inbound queue. *)
Definition heartbeat_session : Network.Session :=
  Network.set_inData working_session
    (mkChan [Network.mkData Network.HEARTBEAT 300 []] false).

(** A receiver [Math] with one method [Add(a int, b int) int]. *)
Definition Math_Add : list RValue -> Outcome (list JValue) := fun vs =>
  match vs with
  | [mkRValue _ (JNum a); mkRValue _ (JNum b)] => Done [JNum (a + b)]
  | _ => Panicked "reflect: Call with wrong arguments"
  end.

Definition Math_service : RpcServer.Service :=
  RpcServer.mkService "Math"
    {[ "Add"%string := RpcServer.mkMethod Math_Add [TInt; TInt] ]}.

(** A server with [Math] registered and one connected session. *)
Definition math_server : RpcServer.Server :=
  RpcServer.Connect
    (RpcServer.mkServer {[ "Math"%string := Math_service ]} ∅)
    1 working_session.

(** The receiver [Math] as reflection shows it, and a server on which it
    was registered with [Register]. *)
Definition Math_receiver : RpcServer.Receiver :=
  RpcServer.mkReceiver "Math"
    [RpcServer.mkReflectMethod "Add" [TInt; TInt] Math_Add;
     RpcServer.mkReflectMethod "Ping" [] (fun _ => Done [])].

Definition registered_server : RpcServer.Server :=
  RpcServer.Connect
    (RpcServer.Register (RpcServer.mkServer ∅ ∅) Math_receiver)
    1 working_session.

(** Call envelopes. *)
Definition good_call : list byte :=
  bytes_of_string ("[" ++ quoted "Math.Add" ++ ",3,4]").
Definition string_for_int_call : list byte :=
  bytes_of_string ("[" ++ quoted "Math.Add" ++ "," ++ quoted "x" ++ ",4]").
Definition not_json : list byte := bytes_of_string "{".
Definition ping_call : list byte :=
  bytes_of_string ("[" ++ quoted "Math.Ping" ++ "]").
Definition short_call : list byte :=
  bytes_of_string ("[" ++ quoted "Math.Add" ++ ",3]").
Definition long_call : list byte :=
  bytes_of_string ("[" ++ quoted "Math.Add" ++ ",3,4,true,null]").

(** A connected client with one pending call under correlation id 7,
    which receives from its waiter. *)
Definition pending_client : RpcClient.Client :=
  RpcClient.mkClient {[ 7 := 0%nat ]} ∅ 1 7 (Some working_session)
    {[ 0%nat ]} [].

(** The same client once the call under id 7 has timed out: the entry is
    still in the table and nobody receives from its waiter. *)
Definition timed_out_client : RpcClient.Client :=
  RpcClient.mkClient {[ 7 := 0%nat ]} ∅ 1 7 (Some working_session) ∅ [].

(** A session that was released and then started again: its state is
    WORKING and its channels are closed. *)
Definition restarted_session : Network.Session :=
  match Network.Release working_session with
  | Done s => Network.Start s
  | Panicked _ => working_session
  end.

(** A connected client with no pending call. *)
Definition idle_client : RpcClient.Client :=
  RpcClient.Connect RpcClient.NewClient working_session.

End Samples.

(** * Properties *)

(** ** Bytes and 16-bit fields *)

Section WireFacts.
Import Wire.
Local Open Scope Z_scope.

Lemma byte_to_Z_range (b : byte) : 0 <= byte_to_Z b < 256.
Proof.
  unfold byte_to_Z. pose proof (Byte.to_N_bounded b). lia.
Qed.

Lemma byte_to_Z_uint8 (z : Z) : byte_to_Z (uint8 z) = z mod 256.
Proof.
  unfold byte_to_Z, uint8.
  assert (Hr : 0 <= z mod 256 < 256) by (apply Z.mod_pos_bound; lia).
  destruct (Byte.of_N (Z.to_N (z mod 256))) as [b|] eqn:E.
  - apply Byte.to_of_N in E. rewrite E. lia.
  - apply Byte.of_N_None_iff in E. lia.
Qed.

(** The two bytes written for a 16-bit field, low byte first. *)
Lemma le16_bytes (x : Z) :
  0 <= x < 65536 ->
  byte_to_Z (uint8 x) + 256 * byte_to_Z (uint8 (Z.shiftr x 8)) = x.
Proof.
  intros Hx. rewrite !byte_to_Z_uint8, Z.shiftr_div_pow2 by lia.
  change (2 ^ 8) with 256.
  assert (0 <= x / 256 < 256).
  { split; [apply Z.div_pos; lia | apply Z.div_lt_upper_bound; lia]. }
  rewrite (Z.mod_small (x / 256)) by lia.
  pose proof (Z.div_mod x 256). lia.
Qed.

(** Reading the field back the way [Reader] does. *)
Lemma le16_read (x : Z) :
  0 <= x < 65536 ->
  uint16 (byte_to_Z (uint8 x)
          + uint16 (Z.shiftl (byte_to_Z (uint8 (Z.shiftr x 8))) 8)) = x.
Proof.
  intros Hx. pose proof (le16_bytes x Hx) as Hb.
  pose proof (byte_to_Z_range (uint8 x)).
  pose proof (byte_to_Z_range (uint8 (Z.shiftr x 8))).
  unfold uint16. rewrite Z.shiftl_mul_pow2 by lia. change (2 ^ 8) with 256.
  rewrite (Z.mod_small (_ * 256)) by lia.
  rewrite Z.mod_small by lia. lia.
Qed.

End WireFacts.

(** ** Framing *)

Section FramingFacts.
Import Wire Network.
Local Open Scope Z_scope.

Lemma state_eqb_eq (a b : State) : state_eqb a b = true <-> a = b.
Proof.
  unfold state_eqb. rewrite Z.eqb_eq.
  destruct a, b; simpl; split; intros H; try reflexivity; discriminate.
Qed.

(** The frame of a body that fits the 16-bit length. *)
Lemma pack_fits (id : Z) (kind : byte) (payload : list byte) :
  Z.of_nat (length payload) <= 65535 ->
  pack id kind payload =
  [uint8 (Z.of_nat (length payload));
   uint8 (Z.shiftr (Z.of_nat (length payload)) 8);
   kind; uint8 id; uint8 (Z.shiftr id 8)] ++ payload.
Proof.
  intros Hlen. unfold pack.
  destruct (65535 <? Z.of_nat (length payload)) eqn:E; [|reflexivity].
  apply Z.ltb_lt in E. lia.
Qed.

Lemma ReadFull_all (bs : list byte) :
  bs <> [] -> ReadFull bs (length bs) = inr (bs, []).
Proof.
  intros Hne. unfold ReadFull.
  destruct bs as [|b bs']; [congruence|].
  cbn [length]. rewrite Nat.ltb_irrefl.
  change (S (length bs')) with (length (b :: bs')).
  rewrite firstn_all, skipn_all. reflexivity.
Qed.

(** C2. Round trip of a frame: for a correlation id of 16 bits, any kind
    and any body of 0 to 65535 bytes, [pack] gives a 5-byte header (length
    in two bytes, low byte first; kind; correlation id in two bytes, low
    byte first) followed by the body, and [Reader] over these bytes puts
    on the inbound queue a packet with the same kind, id and body, with no
    error and nothing left to read. *)
Theorem pack_Reader_roundtrip (s : Session) (id : Z) (kind : byte)
    (payload : list byte) :
  0 <= id < 65536 ->
  Z.of_nat (length payload) <= 65535 ->
  ch_closed (inData s) = false ->
  (exists l0 l1 i0 i1,
      pack id kind payload = [l0; l1; kind; i0; i1] ++ payload
      /\ byte_to_Z l0 + 256 * byte_to_Z l1 = Z.of_nat (length payload)
      /\ byte_to_Z i0 + 256 * byte_to_Z i1 = id)
  /\ Reader (set_conn_in s (pack id kind payload)) =
     Done (None,
           set_inData (set_conn_in s [])
             (mkChan (ch_buf (inData s) ++ [mkData kind id payload]) false)).
Proof.
  intros Hid Hlen Hopen.
  assert (Hl : 0 <= Z.of_nat (length payload) < 65536) by lia.
  rewrite pack_fits by assumption. split.
  - do 4 eexists. split; [reflexivity|].
    split; apply le16_bytes; assumption.
  - unfold Reader. cbn [conn_in set_conn_in ReadFull app length].
    unfold Nat.ltb. cbn [Nat.leb firstn skipn nth].
    rewrite (le16_read _ Hl), (le16_read _ Hid).
    change (drop 0 payload) with payload.
    destruct payload as [|p ps].
    + cbn. unfold chan_send. rewrite Hopen. reflexivity.
    + destruct (0 <? Z.of_nat (length (p :: ps))) eqn:E0.
      2:{ apply Z.ltb_ge in E0. cbn [length] in E0. lia. }
      rewrite Nat2Z.id, ReadFull_all by discriminate.
      unfold chan_send. cbn. rewrite Hopen. reflexivity.
Qed.

Lemma pack_Reader_roundtrip_witness :
  Reader (set_conn_in Samples.new_session (pack 258 DATA [x0a; x0b])) =
  Done (None,
        set_inData (set_conn_in Samples.new_session [])
          (mkChan [mkData DATA 258 [x0a; x0b]] false)).
Proof.
  apply (pack_Reader_roundtrip Samples.new_session 258 DATA [x0a; x0b]).
  - lia.
  - simpl. lia.
  - reflexivity.
Defined.

(** C6. A body of more than 65535 bytes is not sent: whatever the id and
    the kind, [pack] gives the frame of the empty body, whose two length
    bytes are zero and whose header is followed by nothing. *)
Theorem pack_oversized_body (id : Z) (kind : byte) (payload : list byte) :
  65535 < Z.of_nat (length payload) ->
  pack id kind payload = [x00; x00; kind; uint8 id; uint8 (Z.shiftr id 8)]
  /\ pack id kind payload = pack id kind [].
Proof.
  intros Hbig. unfold pack.
  apply Z.ltb_lt in Hbig. rewrite Hbig. split; reflexivity.
Qed.

Lemma pack_oversized_body_witness :
  pack 7 DATA (replicate (Z.to_nat 65536) x2a) = [x00; x00; DATA; x07; x00]
  /\ pack 7 DATA (replicate (Z.to_nat 65536) x2a) = pack 7 DATA [].
Proof.
  apply (pack_oversized_body 7 DATA (replicate (Z.to_nat 65536) x2a)).
  rewrite length_replicate. lia.
Defined.

End FramingFacts.

(** ** Session: writes and lifecycle *)

Section SessionFacts.
Import Wire Network.
Local Open Scope Z_scope.

Lemma state_eqb_neq (a b : State) : state_eqb a b = false <-> a <> b.
Proof.
  rewrite <- state_eqb_eq. destruct (state_eqb a b); split; intros H;
    try reflexivity; try discriminate; congruence.
Qed.

Lemma doWrite_not_working (s : Session) (id : Z) (kind : byte)
    (payload : list byte) :
  state s <> WORKING -> doWrite s id kind payload = Done s.
Proof.
  intros Hst. unfold doWrite.
  apply state_eqb_neq in Hst. rewrite Hst. reflexivity.
Qed.

Lemma doWrite_working (s : Session) (id : Z) (kind : byte)
    (payload : list byte) :
  state s = WORKING ->
  ch_closed (outData s) = false ->
  doWrite s id kind payload =
  Done (set_outData s
          (mkChan (ch_buf (outData s) ++ [pack id kind payload]) false)).
Proof.
  intros Hst Hopen. unfold doWrite.
  apply state_eqb_eq in Hst. rewrite Hst. cbn [negb].
  replace (match payload with [] => [] | _ :: _ => payload end)
    with payload by (destruct payload; reflexivity).
  unfold chan_send. rewrite Hopen. reflexivity.
Qed.

(** Sessions keep their channels open until [Release]: this holds at
    creation and along every operation applied in lifecycle order, and
    [doWrite] keeps it. *)
Lemma CreateSession_open (n : Z) (input : list byte) :
  open_until_closed (CreateSession n input).
Proof. intros _. repeat split. Qed.

Lemma apply_op_open (s s' : Session) (o : Op) :
  open_until_closed s ->
  state_num (state s) <= op_rank o ->
  apply_op s o = Done s' ->
  open_until_closed s'.
Proof.
  intros Hopen Hrank Hop. destruct o; cbn in Hop.
  - injection Hop as <-. intros _. apply Hopen.
    intros Hst. rewrite Hst in Hrank. cbn in Hrank. lia.
  - injection Hop as <-. intros _. apply Hopen.
    intros Hst. rewrite Hst in Hrank. cbn in Hrank. lia.
  - unfold Release, chan_close in Hop.
    destruct (ch_closed (inData s)); [discriminate|]. cbn in Hop.
    destruct (ch_closed (outData s)); [discriminate|]. cbn in Hop.
    destruct (ch_closed (cClose s)); [discriminate|]. cbn in Hop.
    injection Hop as <-. intros Hst. cbn in Hst. congruence.
Qed.

Lemma doWrite_open (s s' : Session) (id : Z) (kind : byte)
    (payload : list byte) :
  open_until_closed s ->
  doWrite s id kind payload = Done s' ->
  open_until_closed s'.
Proof.
  intros Hopen Hw. unfold doWrite in Hw.
  destruct (negb _); [injection Hw as <-; exact Hopen|].
  unfold chan_send in Hw. destruct (ch_closed (outData s)) eqn:E;
    [discriminate|].
  cbn in Hw. injection Hw as <-. intros Hst. cbn in *.
  destruct (Hopen Hst) as (Hi & _ & Hc). auto.
Qed.

(** C7, as the code has it.  [doWrite] on a session that is not in state
    WORKING drops the frame: the session, and with it the outbound queue,
    is unchanged.  On a session in state WORKING whose outbound queue has
    not been closed (the session was not released), [doWrite] appends the
    frame that [pack] builds to the outbound queue and changes nothing
    else. *)
Theorem doWrite_state_guard (s : Session) (id : Z) (kind : byte)
    (payload : list byte) :
  (state s <> WORKING -> doWrite s id kind payload = Done s)
  /\ (state s = WORKING ->
      ch_closed (outData s) = false ->
      doWrite s id kind payload =
      Done (set_outData s
              (mkChan (ch_buf (outData s) ++ [pack id kind payload]) false))).
Proof.
  split.
  - apply doWrite_not_working.
  - apply doWrite_working.
Qed.

Lemma doWrite_state_guard_witness :
  doWrite (Close Samples.working_session) 5 DATA [x01] =
    Done (Close Samples.working_session)
  /\ doWrite Samples.working_session 5 DATA [x01] =
     Done (set_outData Samples.working_session
             (mkChan [pack 5 DATA [x01]] false)).
Proof.
  split.
  - apply (proj1 (doWrite_state_guard (Close Samples.working_session)
                    5 DATA [x01])).
    simpl. discriminate.
  - apply (proj2 (doWrite_state_guard Samples.working_session 5 DATA [x01]));
      reflexivity.
Defined.

(** C7 as stated fails: [Release] closes the outbound queue and [Start]
    does not look at what came before, so a session that was released and
    started again is in state WORKING, and [doWrite] on it panics on the
    closed queue instead of enqueuing the frame. *)
Lemma doWrite_working_released_panics :
  run_ops Samples.new_session [OpStart; OpRelease; OpStart] =
    [WORKING; CLOSED; WORKING]
  /\ state Samples.restarted_session = WORKING
  /\ ch_closed (outData Samples.restarted_session) = true
  /\ doWrite Samples.restarted_session 5 DATA [x01]
     = Panicked "send on closed channel".
Proof. repeat split. Qed.

Lemma Release_closes (s s' : Session) :
  Release s = Done s' ->
  ch_closed (inData s') = true /\ state s' = CLOSED.
Proof.
  unfold Release, chan_close.
  destruct (ch_closed (inData s)); [discriminate|]. cbn.
  destruct (ch_closed (outData s)); [discriminate|]. cbn.
  destruct (ch_closed (cClose s)); [discriminate|]. cbn.
  intros H. injection H as <-. split; reflexivity.
Qed.

(** C4. Releasing a session twice is fatal: when a call of [Release] has
    returned, a second call on the same session panics (it closes a
    channel that is already closed) and does not return. *)
Theorem Release_twice_panics (s s' : Session) :
  Release s = Done s' ->
  Release s' = Panicked "close of closed channel".
Proof.
  intros H. apply Release_closes in H as [Hc _].
  unfold Release, chan_close. rewrite Hc. reflexivity.
Qed.

Lemma Release_twice_panics_witness :
  exists s', Release Samples.working_session = Done s'
             /\ Release s' = Panicked "close of closed channel".
Proof.
  eexists. split.
  - reflexivity.
  - apply (Release_twice_panics Samples.working_session). reflexivity.
Defined.

(** Each operation that returns leaves the session in the state of its
    own place in the lifecycle, whatever the state before. *)
Lemma apply_op_state (s s' : Session) (o : Op) :
  apply_op s o = Done s' -> state_num (state s') = op_rank o.
Proof.
  destruct o; cbn.
  - intros H. injection H as <-. reflexivity.
  - intros H. injection H as <-. reflexivity.
  - intros H. apply Release_closes in H as [_ ->]. reflexivity.
Qed.

Lemma run_ops_forward (ops : list Op) (s : Session) (k : Z) :
  state_num (state s) <= k ->
  in_lifecycle_order k ops = true ->
  forward_from (state s) (run_ops s ops) = true.
Proof.
  revert s k. induction ops as [|o rest IH]; intros s k Hk Hord.
  - reflexivity.
  - cbn [in_lifecycle_order] in Hord.
    apply andb_true_iff in Hord as [Hko Hrest]. apply Z.leb_le in Hko.
    cbn [run_ops]. destruct (apply_op s o) as [s1|msg] eqn:E.
    + pose proof (apply_op_state _ _ _ E) as Hs1.
      cbn [forward_from]. apply andb_true_iff. split.
      * apply Z.leb_le. lia.
      * apply (IH s1 (op_rank o)); [lia | assumption].
    + reflexivity.
Qed.

(** C3, as the code has it.  [Start], [Close] and [Release] assign
    WORKING, CLOSING and CLOSED without looking at the current state.
    Starting from a new session, every sequence of these operations that
    applies them in lifecycle order (no [Start] after a [Close] or a
    [Release], no [Close] after a [Release]) only moves the state forward
    along NEW, WORKING, CLOSING, CLOSED. *)
Theorem lifecycle_order_forward (s : Session) (ops : list Op) :
  state s = NEW_CONNECTION ->
  in_lifecycle_order 0 ops = true ->
  forward_from (state s) (run_ops s ops) = true.
Proof.
  intros Hnew Hord. apply (run_ops_forward ops s 0); [|assumption].
  rewrite Hnew. simpl. lia.
Qed.

Lemma lifecycle_order_forward_witness :
  run_ops Samples.new_session [OpStart; OpClose; OpClose; OpRelease] =
    [WORKING; CLOSING; CLOSING; CLOSED]
  /\ forward_from (state Samples.new_session)
       (run_ops Samples.new_session [OpStart; OpClose; OpClose; OpRelease])
     = true.
Proof.
  split.
  - reflexivity.
  - apply (lifecycle_order_forward Samples.new_session
             [OpStart; OpClose; OpClose; OpRelease]); reflexivity.
Defined.

(** C3 as stated fails: [Start] after [Close] takes a session from
    CLOSING back to WORKING. *)
Lemma lifecycle_backward_example :
  run_ops Samples.new_session [OpStart; OpClose; OpStart] =
    [WORKING; CLOSING; WORKING]
  /\ forward_from (state Samples.new_session)
       (run_ops Samples.new_session [OpStart; OpClose; OpStart]) = false.
Proof. split; reflexivity. Qed.

(** C8, as the code has it.  When the dispatch loop of the server
    receives a HEARTBEAT packet on a session in state WORKING, it starts a
    [doWrite] of a HEARTBEAT_RET frame with the correlation id of the
    packet; when the outbound queue has not been closed, that write puts
    on it the 5-byte frame with kind HEARTBEAT_RET and the same id.  When
    the session is not in state WORKING the pass starts nothing. *)
Theorem heartbeat_reply_same_id (s : Session) (data : Data)
    (rest : list Data) :
  ch_buf (inData s) = data :: rest ->
  dType data = HEARTBEAT ->
  let s1 := set_inData s (mkChan rest (ch_closed (inData s))) in
  (state s = WORKING ->
   processInData_pass s CaseInData =
     Some ([GoDoWrite (head data) HEARTBEAT_RET [];
            GoHeartbeat (fd s) (head data)], Done (s1, true))
   /\ (ch_closed (outData s) = false ->
       0 <= head data < 65536 ->
       exists lo hi,
         doWrite s1 (head data) HEARTBEAT_RET [] =
           Done (set_outData s1
                   (mkChan (ch_buf (outData s)
                            ++ [[x00; x00; HEARTBEAT_RET; lo; hi]]) false))
         /\ byte_to_Z lo + 256 * byte_to_Z hi = head data))
  /\ (state s <> WORKING ->
      processInData_pass s CaseInData = Some ([], Done (s1, true))).
Proof.
  intros Hbuf Hkind s1. split.
  - intros Hst. split.
    + unfold processInData_pass, chan_recv. rewrite Hbuf, Hkind.
      cbn [Byte.eqb set_inData state]. rewrite Hst. reflexivity.
    + intros Hopen Hid.
      exists (uint8 (head data)), (uint8 (Z.shiftr (head data) 8)).
      split; [|apply le16_bytes; assumption].
      rewrite (doWrite_working s1 (head data) HEARTBEAT_RET [])
        by assumption.
      reflexivity.
  - intros Hst. unfold processInData_pass, chan_recv. rewrite Hbuf, Hkind.
    apply state_eqb_neq in Hst.
    cbn [Byte.eqb set_inData state]. rewrite Hst. reflexivity.
Qed.

Lemma heartbeat_reply_same_id_witness :
  (processInData_pass Samples.heartbeat_session CaseInData =
     Some ([GoDoWrite 300 HEARTBEAT_RET []; GoHeartbeat 1 300],
           Done (Samples.working_session, true))
   /\ exists lo hi,
        doWrite Samples.working_session 300 HEARTBEAT_RET [] =
          Done (set_outData Samples.working_session
                  (mkChan [[x00; x00; HEARTBEAT_RET; lo; hi]] false))
        /\ byte_to_Z lo + 256 * byte_to_Z hi = 300)
  /\ processInData_pass (Close Samples.heartbeat_session) CaseInData =
     Some ([], Done (Close Samples.working_session, true)).
Proof.
  split.
  - destruct (proj1 (heartbeat_reply_same_id Samples.heartbeat_session
                       (mkData HEARTBEAT 300 []) [] eq_refl eq_refl)
                eq_refl) as [Hpass Hwrite].
    split; [exact Hpass|]. apply Hwrite.
    + reflexivity.
    + simpl. lia.
  - apply (proj2 (heartbeat_reply_same_id (Close Samples.heartbeat_session)
                    (mkData HEARTBEAT 300 []) [] eq_refl eq_refl)).
    simpl. discriminate.
Defined.

(** C8 as stated fails: on a session in state WORKING whose outbound
    queue is closed (it was released and started again, the packet still
    waiting on its inbound queue), the pass starts the write of the
    acknowledgement, and that write panics: no reply is queued. *)
Lemma heartbeat_reply_lost_example :
  exists s1 s2,
    Release Samples.heartbeat_session = Done s1
    /\ state (Start s1) = WORKING
    /\ processInData_pass (Start s1) CaseInData =
       Some ([GoDoWrite 300 HEARTBEAT_RET []; GoHeartbeat 1 300],
             Done (s2, true))
    /\ doWrite s2 300 HEARTBEAT_RET [] = Panicked "send on closed channel".
Proof. do 2 eexists. repeat split. Qed.

End SessionFacts.

(** ** RPC server: the five failure modes of [Message] *)

Section ServerFacts.
Import Json Reflect RpcServer.
Local Open Scope Z_scope.

Variable json_Unmarshal : Unmarshal.
Variable json_Marshal : Marshal.

(** A body that does not decode is dropped: nothing is sent and the
    server is unchanged. *)
Lemma Message_malformed_json_dropped (this : Server) (fd sessionID : Z)
    (body : list byte) :
  json_Unmarshal body = None ->
  RpcServer.Message json_Unmarshal json_Marshal this fd sessionID body =
    Done this.
Proof.
  intros Hb. unfold RpcServer.Message.
  destruct (sessions this !! fd); [|reflexivity]. rewrite Hb. reflexivity.
Qed.

(** A first element without a dot is dropped. *)
Lemma Message_no_separator_dropped (this : Server) (fd sessionID : Z)
    (body : list byte) (info : string) (rest : list JValue) :
  json_Unmarshal body = Some (JStr info :: rest) ->
  LastIndex_dot info < 0 ->
  RpcServer.Message json_Unmarshal json_Marshal this fd sessionID body =
    Done this.
Proof.
  intros Hb Hdot. unfold RpcServer.Message.
  destruct (sessions this !! fd); [|reflexivity]. rewrite Hb.
  apply Z.ltb_lt in Hdot. rewrite Hdot. reflexivity.
Qed.

(** A service that is not registered: the frame is dropped. *)
Lemma Message_unknown_service_dropped (this : Server) (fd sessionID : Z)
    (body : list byte) (info : string) (rest : list JValue) :
  json_Unmarshal body = Some (JStr info :: rest) ->
  serviceMap this !! slice_to info (LastIndex_dot info) = None ->
  RpcServer.Message json_Unmarshal json_Marshal this fd sessionID body =
    Done this.
Proof.
  intros Hb Hsvc. unfold RpcServer.Message.
  destruct (sessions this !! fd); [|reflexivity]. rewrite Hb.
  destruct (LastIndex_dot info <? 0); [reflexivity|].
  rewrite Hsvc. reflexivity.
Qed.

(** A method that the service does not have: the frame is dropped. *)
Lemma Message_unknown_method_dropped (this : Server) (fd sessionID : Z)
    (body : list byte) (info : string) (rest : list JValue)
    (sInfo : Service) :
  json_Unmarshal body = Some (JStr info :: rest) ->
  serviceMap this !! slice_to info (LastIndex_dot info) = Some sInfo ->
  methods sInfo !! slice_from info (LastIndex_dot info + 1) = None ->
  RpcServer.Message json_Unmarshal json_Marshal this fd sessionID body =
    Done this.
Proof.
  intros Hb Hsvc Hm. unfold RpcServer.Message.
  destruct (sessions this !! fd); [|reflexivity]. rewrite Hb.
  destruct (LastIndex_dot info <? 0); [reflexivity|].
  rewrite Hsvc.
  rewrite Hm. reflexivity.
Qed.

(** An argument that does not convert to the declared type of the first
    parameter: [Message] does not drop the frame, it panics. *)
Lemma Message_unconvertible_first_argument (this : Server)
    (fd sessionID : Z) (body : list byte) (info : string) (a : JValue)
    (rest : list JValue) (s : Network.Session) (sInfo : Service)
    (mInfo : methodType) (t : GoType) (tys : list GoType) :
  sessions this !! fd = Some s ->
  json_Unmarshal body = Some (JStr info :: a :: rest) ->
  0 <= LastIndex_dot info ->
  serviceMap this !! slice_to info (LastIndex_dot info) = Some sInfo ->
  methods sInfo !! slice_from info (LastIndex_dot info + 1) = Some mInfo ->
  args mInfo = t :: tys ->
  Convert a t = None ->
  RpcServer.Message json_Unmarshal json_Marshal this fd sessionID body =
    Panicked "reflect.Value.Convert".
Proof.
  intros Hs Hb Hdot Hsvc Hm Hargs Hconv. unfold RpcServer.Message.
  rewrite Hs, Hb.
  destruct (LastIndex_dot info <? 0) eqn:E; [apply Z.ltb_lt in E; lia|].
  rewrite Hsvc.
  rewrite Hm.
  rewrite Hargs. cbn. rewrite Hconv. reflexivity.
Qed.

End ServerFacts.

Section ServerExamples.
Import Json Reflect.
Local Open Scope Z_scope.

(** The sample server answers a well-formed call: the reply frame
    carries the correlation id of the call and the encoded result. *)
Example Message_good_call :
  exists srv,
    RpcServer.Message unmarshal_subset marshal_subset Samples.math_server
      1 9 Samples.good_call = Done srv
    /\ (ch_buf ∘ Network.outData) <$> (RpcServer.sessions srv !! 1) =
       Some [Network.pack 9 Network.DATA (bytes_of_string "[7]")].
Proof. eexists. split; vm_compute; reflexivity. Qed.

(** C1 at a failing input.  [Math.Add] is registered with two [int]
    parameters and the envelope [["Math.Add","x",4]] arrives: the string
    does not convert to [int], and [Message] panics instead of dropping
    the frame. *)
Theorem Message_unconvertible_argument_panics :
  RpcServer.Message unmarshal_subset marshal_subset Samples.math_server
    1 9 Samples.string_for_int_call = Panicked "reflect.Value.Convert".
Proof. vm_compute. reflexivity. Qed.

End ServerExamples.

(** ** RPC client: correlation of responses and the timeout of a call *)

Section ClientFacts.
Import Json RpcClient.
Local Open Scope Z_scope.

Variable json_Unmarshal : Unmarshal.
Variable json_Marshal : Marshal.

Lemma chan_at_set_chan_eq (this : Client) (w : nat)
    (c : Chan (list JValue)) :
  chan_at (set_chan this w c) w = c.
Proof. unfold chan_at, set_chan. cbn. rewrite lookup_insert_eq. reflexivity. Qed.

Lemma chan_at_set_chan_ne (this : Client) (w w' : nat)
    (c : Chan (list JValue)) :
  w' <> w -> chan_at (set_chan this w c) w' = chan_at this w'.
Proof.
  intros Hne. unfold chan_at, set_chan. cbn.
  rewrite lookup_insert_ne by congruence. reflexivity.
Qed.

(** C10. A response whose correlation id has no entry in the
    pending-call table is ignored: [Message] returns and the client (its
    table, every waiter, its session) is exactly as before. *)
Theorem Message_unmatched_ignored (this : Client) (fd sessionID : Z)
    (body : list byte) :
  callRet this !! sessionID = None ->
  RpcClient.Message json_Unmarshal this fd sessionID body = Done this.
Proof.
  intros Hnone. unfold RpcClient.Message. rewrite Hnone. reflexivity.
Qed.

(** The send on an open waiter: handed over when the call receives,
    parked otherwise. *)
Lemma send_receiving (this : Client) (w : nat) (args : list JValue) :
  ch_closed (chan_at this w) = false ->
  w ∈ receivers this ->
  send this w args =
  Done (set_receivers
          (set_chan this w (mkChan (ch_buf (chan_at this w) ++ [args]) false))
          (receivers this ∖ {[w]}), true).
Proof.
  intros Hopen Hrecv. unfold send, chan_send. rewrite Hopen.
  cbn [mbind Outcome_bind]. destruct (decide (w ∈ receivers this));
    [reflexivity|contradiction].
Qed.

Lemma send_parked (this : Client) (w : nat) (args : list JValue) :
  ch_closed (chan_at this w) = false ->
  w ∉ receivers this ->
  send this w args =
  Done (set_senders this (senders this ++ [(w, args)]), false).
Proof.
  intros Hopen Hrecv. unfold send, chan_send. rewrite Hopen.
  cbn [mbind Outcome_bind]. destruct (decide (w ∈ receivers this));
    [contradiction|reflexivity].
Qed.

(** [Message] is [Message_send], then [Message_rest] when the send is
    complete. *)
Lemma Message_two_steps (this : Client) (fd sessionID : Z)
    (body : list byte) (w : nat) :
  callRet this !! sessionID = Some w ->
  RpcClient.Message json_Unmarshal this fd sessionID body =
  '(this1, sent) ← Message_send json_Unmarshal this fd sessionID body;
  if sent : bool then Message_rest this1 sessionID w else Done this1.
Proof.
  intros Hw. unfold RpcClient.Message, Message_send. rewrite Hw.
  destruct (json_Unmarshal body) as [args|]; [|reflexivity].
  destruct (send this w args) as [[this1 [|]]|msg]; reflexivity.
Qed.

(** What [Message] does with a response that matches an open waiter from
    which the call receives, and whose body decodes. *)
Lemma Message_matched (this : Client) (fd sessionID : Z) (body : list byte)
    (w : nat) (args : list JValue) :
  callRet this !! sessionID = Some w ->
  json_Unmarshal body = Some args ->
  ch_closed (chan_at this w) = false ->
  w ∈ receivers this ->
  RpcClient.Message json_Unmarshal this fd sessionID body =
  Done (set_chan
          (set_callRet
             (set_receivers
                (set_chan this w
                   (mkChan (ch_buf (chan_at this w) ++ [args]) false))
                (receivers this ∖ {[w]}))
             (delete sessionID (callRet this)))
          w (mkChan (ch_buf (chan_at this w) ++ [args]) true)).
Proof.
  intros Hw Hb Hopen Hrecv. unfold RpcClient.Message. rewrite Hw, Hb.
  rewrite send_receiving by assumption. cbn [mbind Outcome_bind].
  replace (chan_at (set_callRet _ _) w)
    with (mkChan (ch_buf (chan_at this w) ++ [args]) false).
  - reflexivity.
  - unfold chan_at, set_callRet, set_receivers, set_chan. cbn.
    rewrite lookup_insert_eq. reflexivity.
Qed.

(** What it does when nobody receives from the waiter: the goroutine is
    parked at its send; the entry stays and the waiter stays open. *)
Lemma Message_parked (this : Client) (fd sessionID : Z) (body : list byte)
    (w : nat) (args : list JValue) :
  callRet this !! sessionID = Some w ->
  json_Unmarshal body = Some args ->
  ch_closed (chan_at this w) = false ->
  w ∉ receivers this ->
  RpcClient.Message json_Unmarshal this fd sessionID body =
  Done (set_senders this (senders this ++ [(w, args)])).
Proof.
  intros Hw Hb Hopen Hrecv. unfold RpcClient.Message. rewrite Hw, Hb.
  rewrite send_parked by assumption. reflexivity.
Qed.

(** C9, as the code has it.  A response frame with correlation id
    [sessionID] whose body decodes as a JSON array, arriving while the
    call registered under [sessionID] receives from its waiter, is
    delivered to that waiter and to no other channel; the entry of
    [sessionID], and no other entry, leaves the table; that waiter is
    closed; and [Message] returns without parking. *)
Theorem Message_matched_delivers (this : Client) (fd sessionID : Z)
    (body : list byte) (w : nat) (args : list JValue) :
  callRet this !! sessionID = Some w ->
  json_Unmarshal body = Some args ->
  ch_closed (chan_at this w) = false ->
  w ∈ receivers this ->
  exists this',
    RpcClient.Message json_Unmarshal this fd sessionID body = Done this'
    /\ callRet this' = delete sessionID (callRet this)
    /\ chan_at this' w = mkChan (ch_buf (chan_at this w) ++ [args]) true
    /\ (forall w', w' <> w -> chan_at this' w' = chan_at this w')
    /\ senders this' = senders this
    /\ session this' = session this.
Proof.
  intros Hw Hb Hopen Hrecv. eexists. split.
  - apply Message_matched; eassumption.
  - split; [reflexivity|]. split.
    + apply chan_at_set_chan_eq.
    + split; [|split; reflexivity]. intros w' Hne.
      rewrite chan_at_set_chan_ne by assumption.
      unfold chan_at at 1. cbn [chans set_callRet set_receivers].
      fold (chan_at (set_chan this w
              (mkChan (ch_buf (chan_at this w) ++ [args]) false)) w').
      apply chan_at_set_chan_ne. assumption.
Qed.

(** [Message] keeps a well-formed table well formed.  A frame that
    carries another correlation id, or whose body does not decode, leaves
    a registered call alone. *)
Lemma Message_well_formed (this : Client) (fd sessionID : Z)
    (body : list byte) :
  well_formed this ->
  exists this',
    RpcClient.Message json_Unmarshal this fd sessionID body = Done this'
    /\ well_formed this'
    /\ next_chan this' = next_chan this
    /\ (forall id0 w0,
         callRet this !! id0 = Some w0 ->
         sessionID <> id0 \/ json_Unmarshal body = None ->
         callRet this' !! id0 = Some w0
         /\ chan_at this' w0 = chan_at this w0).
Proof.
  intros Hwf.
  destruct (callRet this !! sessionID) as [w|] eqn:Hw.
  2:{ exists this. split; [|auto].
      unfold RpcClient.Message. rewrite Hw. reflexivity. }
  destruct (json_Unmarshal body) as [args|] eqn:Hb.
  2:{ exists this. split; [|auto].
      unfold RpcClient.Message. rewrite Hw, Hb. reflexivity. }
  destruct Hwf as (Hlt & Hinj & Hfresh).
  destruct (Hlt _ _ Hw) as [Hwlt Hopen].
  destruct (decide (w ∈ receivers this)) as [Hrecv|Hrecv].
  2:{ eexists. split; [apply Message_parked; eassumption|].
      split; [split; [|split]; assumption|]. split; [reflexivity|].
      intros id0 w0 H0 _. split; [exact H0|reflexivity]. }
  eexists. split; [apply Message_matched; eassumption|].
  split; [|split; [reflexivity|]].
  - split; [|split].
    + intros id' w' Hl. cbn [callRet set_chan set_callRet] in Hl.
      apply lookup_delete_Some in Hl as [Hid' Hl].
      destruct (Hlt _ _ Hl) as [Hlt' Hopen']. split; [exact Hlt'|].
      assert (w' <> w).
      { intros ->. apply Hid'. eapply Hinj; eassumption. }
      unfold chan_at. cbn [chans set_chan set_callRet set_receivers].
      rewrite !lookup_insert_ne by congruence. exact Hopen'.
    + intros id1 id2 w' H1 H2. cbn [callRet set_chan set_callRet] in H1, H2.
      apply lookup_delete_Some in H1 as [_ H1].
      apply lookup_delete_Some in H2 as [_ H2].
      eapply Hinj; eassumption.
    + intros w' Hge.
      cbn [next_chan chans set_chan set_callRet set_receivers] in *.
      rewrite !lookup_insert_ne by lia. apply Hfresh. exact Hge.
  - intros id0 w0 H0 [Hne|Hne]; [|discriminate].
    assert (Hw0 : w0 <> w).
    { intros ->. apply Hne. eapply Hinj; eassumption. }
    split.
    + cbn [callRet set_chan set_callRet].
      rewrite lookup_delete_ne by assumption. exact H0.
    + unfold chan_at. cbn [chans set_chan set_callRet set_receivers].
      rewrite !lookup_insert_ne by congruence. reflexivity.
Qed.

(** The table of a new client is well formed, and connecting keeps it so. *)
Lemma NewClient_well_formed (s : Network.Session) :
  well_formed NewClient /\ well_formed (Connect NewClient s).
Proof.
  split; (split; [|split]); cbn.
  all: try (intros ? ? H; rewrite lookup_empty in H; discriminate).
  all: try (intros ? ? ? H; rewrite lookup_empty in H; discriminate).
  all: intros ? _; apply lookup_empty.
Qed.

(** The first half of [Call]: when the arguments encode and the session
    takes the write (it is not WORKING and drops the frame, or its
    outbound queue is open), the call is registered under the next id of
    the counter with a fresh waiter, from which it receives. *)
Lemma Call_request_registers (this : Client) (v : list JValue)
    (body : list byte) (s : Network.Session) :
  session this = Some s ->
  Network.state s <> Network.WORKING
  \/ ch_closed (Network.outData s) = false ->
  json_Marshal v = Some body ->
  exists s',
    Network.Write s (Wire.uint16 (msgCounter this + 1)) body = Done s'
    /\ Call_request json_Marshal this v =
       Done (Some (Wire.uint16 (msgCounter this + 1), next_chan this),
             mkClient (<[Wire.uint16 (msgCounter this + 1) := next_chan this]>
                         (callRet this))
                      (chans this) (S (next_chan this))
                      (Wire.uint16 (msgCounter this + 1)) (Some s')
                      ({[next_chan this]} ∪ receivers this) (senders this)).
Proof.
  intros Hs Hok Hbody.
  assert (Hwrite : exists s',
    Network.Write s (Wire.uint16 (msgCounter this + 1)) body = Done s').
  { unfold Network.Write. destruct Hok as [Hst|Hopen].
    - exists s. apply doWrite_not_working. exact Hst.
    - unfold Network.doWrite. destruct (negb _); [eexists; reflexivity|].
      unfold chan_send. rewrite Hopen. eexists. reflexivity. }
  destruct Hwrite as [s' Hs']. exists s'. split; [exact Hs'|].
  unfold Call_request, GetSessionID, make_chan. cbn [next_chan].
  rewrite Hbody.
  unfold RpcClient.Write. cbn [session set_callRet]. rewrite Hs.
  rewrite Hs'. reflexivity.
Qed.

(** Registering a fresh waiter keeps the table well formed. *)
Lemma register_well_formed (this : Client) (id : Z)
    (s' : option Network.Session) (r : gset nat)
    (l : list (nat * list JValue)) :
  well_formed this ->
  well_formed
    (mkClient (<[id := next_chan this]> (callRet this)) (chans this)
              (S (next_chan this)) id s' r l).
Proof.
  intros (Hlt & Hinj & Hfresh). split; [|split].
  - intros id' w' Hl. cbn [callRet next_chan] in *.
    unfold chan_at. cbn [chans].
    apply lookup_insert_Some in Hl as [[<- <-]|[Hne Hl]].
    + split; [lia|]. rewrite (Hfresh (next_chan this)) by lia. reflexivity.
    + destruct (Hlt _ _ Hl) as [Hlt' Hopen']. split; [lia|exact Hopen'].
  - intros id1 id2 w' H1 H2. cbn [callRet] in *.
    apply lookup_insert_Some in H1 as [[<- <-]|[Hne1 H1]];
      apply lookup_insert_Some in H2 as [[<- Hw2]|[Hne2 H2]].
    + reflexivity.
    + destruct (Hlt _ _ H2) as [Hlt2 _]. lia.
    + destruct (Hlt _ _ H1) as [Hlt1 _]. lia.
    + eapply Hinj; eassumption.
  - intros w' Hge. cbn [chans next_chan] in *. apply Hfresh. lia.
Qed.

Lemma react_app (l1 l2 : list Event) (this : Client) (fd : Z) :
  react json_Unmarshal this fd (l1 ++ l2)
  = this' ← react json_Unmarshal this fd l1;
    react json_Unmarshal this' fd l2.
Proof.
  revert this. induction l1 as [|e l1 IH]; intros this; [reflexivity|].
  cbn [react app]. destruct e as [id body|id w|].
  - destruct (Message_send json_Unmarshal this fd id body)
      as [r|msg]; [|reflexivity].
    cbn [mbind Outcome_bind]. apply IH.
  - destruct (Message_rest this id w) as [this1|msg]; [|reflexivity].
    cbn [mbind Outcome_bind].
    destruct (wake_senders this1) as [this2|msg]; [|reflexivity].
    cbn [mbind Outcome_bind]. apply IH.
  - destruct (Close this) as [this1|msg]; [|reflexivity].
    cbn [mbind Outcome_bind].
    destruct (wake_senders this1) as [this2|msg]; [|reflexivity].
    cbn [mbind Outcome_bind]. apply IH.
Qed.

Lemma wake_senders_Done (this this' : Client) :
  wake_senders this = Done this' -> this' = this.
Proof.
  unfold wake_senders. destruct (existsb _ _); [discriminate|].
  intros H. injection H as <-. reflexivity.
Qed.

(** The steps of the other goroutines leave a registered call alone, as
    long as no frame both carries its correlation id and decodes, no
    goroutine of [Message] that is still to finish holds its id or its
    waiter, and the connection stays open. *)
Lemma react_keeps (events : list Event) (this this' : Client) (fd id0 : Z)
    (w0 : nat) :
  (forall id1 id2 w,
     callRet this !! id1 = Some w -> callRet this !! id2 = Some w ->
     id1 = id2) ->
  callRet this !! id0 = Some w0 ->
  (forall id b, EvFrame id b ∈ events ->
     id <> id0 \/ json_Unmarshal b = None) ->
  (forall id w, EvFinish id w ∈ events -> id <> id0 /\ w <> w0) ->
  EvClose ∉ events ->
  react json_Unmarshal this fd events = Done this' ->
  callRet this' !! id0 = Some w0
  /\ chan_at this' w0 = chan_at this w0
  /\ (w0 ∈ receivers this' <-> w0 ∈ receivers this)
  /\ (forall id1 id2 w,
        callRet this' !! id1 = Some w -> callRet this' !! id2 = Some w ->
        id1 = id2)
  /\ session this' = session this.
Proof.
  revert this. induction events as [|e events IH];
    intros this Hinj H0 Hfr Hfi Hcl Hrun.
  - cbn in Hrun. injection Hrun as <-. repeat split; auto.
  - assert (Hfr' : forall id b, EvFrame id b ∈ events ->
                     id <> id0 \/ json_Unmarshal b = None).
    { intros id b Hin. apply Hfr. right. exact Hin. }
    assert (Hfi' : forall id w, EvFinish id w ∈ events ->
                     id <> id0 /\ w <> w0).
    { intros id w Hin. apply Hfi. right. exact Hin. }
    assert (Hcl' : EvClose ∉ events).
    { intros Hin. apply Hcl. right. exact Hin. }
    destruct e as [id body|id w|].
    + cbn [react] in Hrun.
      destruct (Message_send json_Unmarshal this fd id body)
        as [[this1 sent]|msg] eqn:Hm; [|discriminate].
      cbn [mbind Outcome_bind fst] in Hrun.
      assert (Hstep : callRet this1 = callRet this
                      /\ chan_at this1 w0 = chan_at this w0
                      /\ (w0 ∈ receivers this1 <-> w0 ∈ receivers this)
                      /\ session this1 = session this).
      { unfold Message_send in Hm.
        destruct (callRet this !! id) as [w|] eqn:Hw.
        2:{ injection Hm as <- _. repeat split; auto. }
        destruct (json_Unmarshal body) as [args|] eqn:Hb.
        2:{ injection Hm as <- _. repeat split; auto. }
        assert (Hne : w <> w0).
        { intros ->. destruct (Hfr id body) as [Hid|Hid];
            [left | | congruence].
          apply Hid. eapply Hinj; eassumption. }
        unfold send, chan_send in Hm.
        destruct (ch_closed (chan_at this w)); [discriminate|].
        cbn [mbind Outcome_bind] in Hm.
        destruct (decide (w ∈ receivers this)); injection Hm as <- _.
        - split; [reflexivity|]. split.
          + unfold chan_at. cbn [chans set_receivers set_chan].
            rewrite lookup_insert_ne by congruence. reflexivity.
          + split; [|reflexivity]. cbn [receivers set_receivers set_chan].
            rewrite elem_of_difference, elem_of_singleton.
            split; [tauto|]. intros Hin. split; [exact Hin|congruence].
        - repeat split; auto. }
      destruct Hstep as (Ht & Hc & Hr & Hs).
      destruct (IH this1) as (A & B & C & D & E); try assumption.
      * rewrite Ht. exact Hinj.
      * rewrite Ht. exact H0.
      * split; [exact A|]. split; [congruence|]. split; [tauto|].
        split; [exact D|congruence].
    + cbn [react] in Hrun.
      destruct (Message_rest this id w) as [this1|msg] eqn:Hm;
        [|discriminate].
      cbn [mbind Outcome_bind] in Hrun.
      destruct (wake_senders this1) as [this2|msg] eqn:Hwk; [|discriminate].
      apply wake_senders_Done in Hwk. subst this2.
      cbn [mbind Outcome_bind] in Hrun.
      destruct (Hfi id w) as [Hid Hw0]; [left|].
      unfold Message_rest, chan_close in Hm.
      destruct (ch_closed _); [discriminate|].
      cbn [mbind Outcome_bind] in Hm. injection Hm as <-.
      match type of Hrun with
      | react _ ?c _ _ = _ =>
        destruct (IH c) as (A & B & C & D & E); try assumption
      end.
      * intros id1 id2 w1 H1 H2. cbn [callRet set_chan set_callRet] in H1, H2.
        apply lookup_delete_Some in H1 as [_ H1].
        apply lookup_delete_Some in H2 as [_ H2]. eapply Hinj; eassumption.
      * cbn [callRet set_chan set_callRet].
        rewrite lookup_delete_ne by congruence. exact H0.
      * split; [exact A|]. split.
        -- rewrite B. unfold chan_at. cbn [chans set_chan set_callRet].
           rewrite lookup_insert_ne by congruence. reflexivity.
        -- split; [exact C|]. split; [exact D|exact E].
    + exfalso. apply Hcl. left.
Qed.

(** Arrivals of frames alone never panic on a table whose registered
    waiters are open: each goroutine of [Message] returns, hands its value
    over, or parks. *)
Lemma react_frames_return (events : list Event) (this : Client) (fd : Z) :
  (forall id w, callRet this !! id = Some w ->
     ch_closed (chan_at this w) = false) ->
  (forall e, e ∈ events -> exists id b, e = EvFrame id b) ->
  exists this',
    react json_Unmarshal this fd events = Done this'
    /\ callRet this' = callRet this.
Proof.
  revert this. induction events as [|e events IH]; intros this Hopen Hfr.
  - exists this. split; reflexivity.
  - destruct (Hfr e) as (id & b & ->); [left|].
    assert (Hstep : exists this1 sent,
              Message_send json_Unmarshal this fd id b = Done (this1, sent)
              /\ callRet this1 = callRet this
              /\ (forall id w, callRet this1 !! id = Some w ->
                    ch_closed (chan_at this1 w) = false)).
    { unfold Message_send.
      destruct (callRet this !! id) as [w|] eqn:Hw;
        [|exists this, false; auto].
      destruct (json_Unmarshal b) as [args|]; [|exists this, false; auto].
      pose proof (Hopen _ _ Hw) as Hwo.
      destruct (decide (w ∈ receivers this)) as [Hr|Hr].
      - rewrite send_receiving by assumption. do 2 eexists.
        split; [reflexivity|]. split; [reflexivity|].
        intros id' w' Hl. cbn [callRet set_receivers set_chan] in Hl.
        unfold chan_at. cbn [chans set_receivers set_chan].
        destruct (decide (w' = w)) as [->|Hne].
        + rewrite lookup_insert_eq. reflexivity.
        + rewrite lookup_insert_ne by congruence. apply (Hopen _ _ Hl).
      - rewrite send_parked by assumption. do 2 eexists.
        split; [reflexivity|]. split; [reflexivity|]. exact Hopen. }
    destruct Hstep as (this1 & sent & Hm & Ht & Hopen1).
    destruct (IH this1 Hopen1) as (this' & Hrun & Ht').
    { intros e He. apply Hfr. right. exact He. }
    exists this'. cbn [react]. rewrite Hm. cbn [mbind Outcome_bind fst].
    split; [exact Hrun|congruence].
Qed.

(** C5, as the code has it.  A call whose request is encoded and taken
    by the session is registered under the next id of the counter.  When,
    until it returns, no arriving frame both carries its correlation id
    and decodes, no goroutine of [Message] that is still to finish holds
    its id or its waiter, the connection is not closed, and no other
    goroutine panics (which would end the program), the [select] takes
    the timeout case: [Call] returns the empty result, and the entry it
    registered is still in the pending-call table when it returns.
    Nothing panics when the other goroutines only bring frames. *)
Theorem Call_timeout_keeps_entry (this : Client) (v : list JValue)
    (fd : Z) (events : list Event) (body : list byte)
    (s : Network.Session) :
  well_formed this ->
  session this = Some s ->
  Network.state s <> Network.WORKING
  \/ ch_closed (Network.outData s) = false ->
  json_Marshal v = Some body ->
  (forall id b, EvFrame id b ∈ events ->
     id <> Wire.uint16 (msgCounter this + 1) \/ json_Unmarshal b = None) ->
  (forall id w, EvFinish id w ∈ events ->
     id <> Wire.uint16 (msgCounter this + 1) /\ w <> next_chan this) ->
  EvClose ∉ events ->
  exists this1,
    Call_request json_Marshal this v =
      Done (Some (Wire.uint16 (msgCounter this + 1), next_chan this), this1)
    /\ callRet this1 !! Wire.uint16 (msgCounter this + 1)
       = Some (next_chan this)
    /\ (forall this2,
          react json_Unmarshal this1 fd events = Done this2 ->
          exists this',
            Call json_Unmarshal json_Marshal this v fd events
            = Done ([], this')
            /\ callRet this' !! Wire.uint16 (msgCounter this + 1)
               = Some (next_chan this))
    /\ ((forall e, e ∈ events -> exists id b, e = EvFrame id b) ->
        exists this2, react json_Unmarshal this1 fd events = Done this2).
Proof.
  intros Hwf Hs Hok Hbody Hfr Hfi Hcl.
  destruct (Call_request_registers this v body s Hs Hok Hbody)
    as (s' & _ & Hreq).
  set (id := Wire.uint16 (msgCounter this + 1)) in *.
  set (w := next_chan this) in *.
  pose proof (register_well_formed this id (Some s')
                ({[w]} ∪ receivers this) (senders this) Hwf) as Hwf1.
  fold w in Hwf1. destruct Hwf1 as (Hlt1 & Hinj1 & _).
  eexists. split; [exact Hreq|]. split; [apply lookup_insert_eq|].
  split.
  2:{ intros Honly.
      destruct (react_frames_return events _ fd
                  (fun id0 w0 Hl => proj2 (Hlt1 id0 w0 Hl)) Honly)
        as (this2 & Hrun & _).
      exists this2. exact Hrun. }
  intros this2 Hrun.
  destruct (react_keeps events _ this2 fd id w Hinj1) as (H2 & Hch & _);
    try assumption.
  { apply lookup_insert_eq. }
  unfold Call. rewrite Hreq. cbn [mbind Outcome_bind]. rewrite Hrun.
  cbn [mbind Outcome_bind]. unfold Call_select. rewrite Hch.
  unfold chan_at at 1. cbn [chans].
  destruct Hwf as (_ & _ & Hfresh).
  rewrite (Hfresh w) by (subst w; lia). cbn.
  eexists. split; [reflexivity|exact H2].
Qed.

End ClientFacts.

Section ClientExamples.
Import Json RpcClient.
Local Open Scope Z_scope.

Lemma Message_unmatched_ignored_witness :
  RpcClient.Message unmarshal_subset Samples.pending_client 1 8
    (bytes_of_string "[7]") = Done Samples.pending_client.
Proof.
  apply (Message_unmatched_ignored unmarshal_subset Samples.pending_client
           1 8 (bytes_of_string "[7]")).
  reflexivity.
Defined.

Lemma Message_matched_delivers_witness :
  exists this',
    RpcClient.Message unmarshal_subset Samples.pending_client 1 7
      (bytes_of_string "[7]") = Done this'
    /\ callRet this' = delete 7 (callRet Samples.pending_client)
    /\ chan_at this' 0 = mkChan [[JNum 7]] true
    /\ (forall w', w' <> 0%nat ->
        chan_at this' w' = chan_at Samples.pending_client w')
    /\ senders this' = senders Samples.pending_client
    /\ session this' = session Samples.pending_client.
Proof.
  apply (Message_matched_delivers unmarshal_subset Samples.pending_client
           1 7 (bytes_of_string "[7]") 0 [JNum 7]); reflexivity.
Defined.

(** C9 as stated fails: a frame with the correlation id of a pending call
    and a body that is not JSON is dropped; the waiter receives nothing
    and stays open, and the entry stays in the table. *)
Lemma Message_undecodable_body_not_delivered :
  callRet Samples.pending_client !! 7 = Some 0%nat
  /\ RpcClient.Message unmarshal_subset Samples.pending_client 1 7
       Samples.not_json = Done Samples.pending_client
  /\ chan_at Samples.pending_client 0 = mkChan [] false.
Proof. split; [|split]; reflexivity. Qed.

(** The acknowledgement of a method without results has an empty body,
    which is not a JSON document either: it resolves no call. *)
Example Message_empty_body_not_delivered :
  RpcClient.Message unmarshal_subset Samples.pending_client 1 7 []
  = Done Samples.pending_client.
Proof. reflexivity. Qed.

(** It fails too when the response comes after the call has timed out:
    the entry is still registered, nobody receives from the waiter, and the
    goroutine of [Message] stays parked at its send; the entry is not
    removed and the waiter is not closed. *)
Example Message_after_timeout_parks :
  exists this',
    RpcClient.Message unmarshal_subset Samples.timed_out_client 1 7
      (bytes_of_string "[7]") = Done this'
    /\ senders this' = [(0%nat, [JNum 7])]
    /\ callRet this' !! 7 = Some 0%nat
    /\ chan_at this' 0 = mkChan [] false.
Proof. eexists. repeat split. Qed.

Lemma Call_timeout_keeps_entry_witness :
  exists this',
    Call unmarshal_subset marshal_subset Samples.pending_client
      [JStr "Math.Add"; JNum 3; JNum 4] 1
      [EvFrame 5 (bytes_of_string "[7]"); EvFrame 8 Samples.not_json;
       EvFrame 7 (bytes_of_string "[1]"); EvFinish 7 0]
    = Done ([], this')
    /\ callRet this' !! Wire.uint16 (msgCounter Samples.pending_client + 1)
       = Some (next_chan Samples.pending_client).
Proof.
  destruct (Call_timeout_keeps_entry unmarshal_subset marshal_subset
              Samples.pending_client [JStr "Math.Add"; JNum 3; JNum 4] 1
              [EvFrame 5 (bytes_of_string "[7]"); EvFrame 8 Samples.not_json;
               EvFrame 7 (bytes_of_string "[1]"); EvFinish 7 0]
              Samples.good_call Samples.working_session)
    as (this1 & Hreq & _ & Hrun & _).
  - split; [|split].
    + intros id w Hl. cbn in Hl.
      apply lookup_singleton_Some in Hl as [_ <-].
      split; [cbn; lia|reflexivity].
    + intros id1 id2 w H1 H2. cbn in H1, H2.
      apply lookup_singleton_Some in H1 as [<- _].
      apply lookup_singleton_Some in H2 as [<- _]. reflexivity.
    + intros w _. apply lookup_empty.
  - reflexivity.
  - right. reflexivity.
  - reflexivity.
  - intros id b Hin. repeat (apply elem_of_cons in Hin as [Heq|Hin]);
      try discriminate; try (apply elem_of_nil in Hin; contradiction).
    + injection Heq as -> ->. left. discriminate.
    + injection Heq as -> ->. right. reflexivity.
    + injection Heq as -> ->. left. discriminate.
  - intros id w Hin. repeat (apply elem_of_cons in Hin as [Heq|Hin]);
      try discriminate; try (apply elem_of_nil in Hin; contradiction).
    injection Heq as -> ->. split; discriminate.
  - intros Hin. repeat (apply elem_of_cons in Hin as [Heq|Hin]);
      try discriminate. apply elem_of_nil in Hin. contradiction.
  - assert (Hreq' : Call_request marshal_subset Samples.pending_client
                      [JStr "Math.Add"; JNum 3; JNum 4]
                    = Done (Some (8, 1%nat),
                            mkClient {[ 8 := 1%nat; 7 := 0%nat ]} ∅ 2 8
                              (Some (Network.set_outData
                                       Samples.working_session
                                       (mkChan [Network.pack 8 Network.DATA
                                                  Samples.good_call] false)))
                              ({[1%nat]} ∪ {[0%nat]}) []))
      by reflexivity.
    rewrite Hreq' in Hreq. injection Hreq as <-.
    eapply Hrun. reflexivity.
Defined.

(** C5 as stated fails: when the connection closes while the call waits,
    no response has arrived, [Call] returns the empty result, and its entry
    is no longer in the table. *)
Lemma Call_closed_entry_removed :
  exists this',
    Call unmarshal_subset marshal_subset Samples.idle_client
      [JStr "Math.Add"; JNum 3; JNum 4] 1 [EvClose]
    = Done ([], this')
    /\ callRet this' !! 1 = None
    /\ callRet this' = ∅.
Proof. eexists. repeat split. Qed.

(** A call that is answered: the response with the id of the call
    resolves it.  The entry is still there when the value is handed over,
    and is gone once the goroutine of [Message] has run on. *)
Example Call_answered :
  (exists this',
     Call unmarshal_subset marshal_subset Samples.idle_client
       [JStr "Math.Add"; JNum 3; JNum 4] 1 [EvFrame 1 (bytes_of_string "[7]")]
     = Done ([JNum 7], this')
     /\ callRet this' !! 1 = Some 0%nat)
  /\ (exists this',
        Call unmarshal_subset marshal_subset Samples.idle_client
          [JStr "Math.Add"; JNum 3; JNum 4] 1
          [EvFrame 1 (bytes_of_string "[7]"); EvFinish 1 0]
        = Done ([JNum 7], this')
        /\ callRet this' !! 1 = None).
Proof. split; eexists; split; reflexivity. Qed.

End ClientExamples.

(** * Further properties of the code *)

(** ** The 16-bit counter *)

Section CounterFacts.
Import Wire Util.
Local Open Scope Z_scope.

Lemma GetNum_times_S (n : nat) (num : Z) :
  (GetNum_times (S n) num).1
  = uint16 (num + 1) :: (GetNum_times n (uint16 (num + 1))).1.
Proof.
  cbn [GetNum_times]. unfold GetNum.
  destruct (GetNum_times n (uint16 (num + 1))). reflexivity.
Qed.

Lemma GetNum_times_lookup (n : nat) (num : Z) (i : nat) :
  (i < n)%nat ->
  (GetNum_times n num).1 !! i = Some ((num + Z.of_nat i + 1) mod 65536).
Proof.
  revert num i. induction n as [|n IH]; intros num i Hi; [lia|].
  rewrite GetNum_times_S. destruct i as [|i].
  - cbn. unfold uint16. do 2 f_equal. lia.
  - cbn [lookup list_lookup]. rewrite IH by lia. f_equal. unfold uint16.
    Z.to_euclidean_division_equations. lia.
Qed.

(** The id drawn for a call is the next number of the counter. *)
Lemma GetSessionID_GetNum (this : RpcClient.Client) :
  (RpcClient.GetSessionID this).1 = (GetNum (RpcClient.msgCounter this)).1
  /\ RpcClient.msgCounter (RpcClient.GetSessionID this).2
     = (GetNum (RpcClient.msgCounter this)).2.
Proof. split; reflexivity. Qed.

(** X1. Successive calls of [GetNum] count modulo 65536: the call number
    [i] (from 0) on a counter at [num] returns [(num + i + 1) mod 65536],
    a 16-bit number; after 65535 comes 0. *)
Theorem GetNum_counts_mod_65536 (n : nat) (num : Z) (i : nat) :
  (i < n)%nat ->
  exists x,
    (GetNum_times n num).1 !! i = Some x
    /\ x = (num + Z.of_nat i + 1) mod 65536
    /\ 0 <= x < 65536.
Proof.
  intros Hi. eexists. split; [apply GetNum_times_lookup; exact Hi|].
  split; [reflexivity|]. apply Z.mod_pos_bound. lia.
Qed.

Lemma GetNum_counts_mod_65536_witness :
  exists x,
    (GetNum_times 3 65534).1 !! 1%nat = Some x
    /\ x = (65534 + Z.of_nat 1 + 1) mod 65536
    /\ 0 <= x < 65536.
Proof. apply (GetNum_counts_mod_65536 3 65534 1). lia. Defined.

(** X2. Two of the numbers returned by successive calls are equal exactly
    when their positions differ by a multiple of 65536: any 65536 calls in
    a row return pairwise distinct ids, and the call after them repeats
    the first. *)
Theorem GetNum_repeats_every_65536 (n : nat) (num : Z) (i j : nat) :
  (i < n)%nat -> (j < n)%nat ->
  ((GetNum_times n num).1 !! i = (GetNum_times n num).1 !! j
   <-> (Z.of_nat i - Z.of_nat j) mod 65536 = 0).
Proof.
  intros Hi Hj. rewrite !GetNum_times_lookup by assumption.
  split.
  - intros H. injection H as H. revert H.
    Z.to_euclidean_division_equations. lia.
  - intros H. f_equal. revert H.
    Z.to_euclidean_division_equations. lia.
Qed.

Lemma GetNum_repeats_every_65536_witness :
  (GetNum_times (Z.to_nat 65537) 0).1 !! 0%nat
  = (GetNum_times (Z.to_nat 65537) 0).1 !! (Z.to_nat 65536).
Proof.
  apply (GetNum_repeats_every_65536 (Z.to_nat 65537) 0 0 (Z.to_nat 65536));
    [lia | lia |].
  rewrite Z2Nat.id by lia. reflexivity.
Defined.

End CounterFacts.

(** ** Frames on the wire *)

Section WireFrameFacts.
Import Wire Network.
Local Open Scope Z_scope.

Lemma uint8_byte_to_Z (b : byte) : uint8 (byte_to_Z b) = b.
Proof.
  unfold uint8, byte_to_Z.
  pose proof (Byte.to_N_bounded b) as Hb.
  rewrite Z.mod_small by lia.
  rewrite N2Z.id, Byte.of_to_N. reflexivity.
Qed.

Lemma uint8_mod (z : Z) : uint8 (z mod 256) = uint8 z.
Proof. unfold uint8. rewrite Z.mod_mod by lia. reflexivity. Qed.

(** Two bytes read as a 16-bit field, and written back. *)
Lemma le16_value (b0 b1 : byte) :
  uint16 (byte_to_Z b0 + uint16 (Z.shiftl (byte_to_Z b1) 8))
  = byte_to_Z b0 + 256 * byte_to_Z b1.
Proof.
  pose proof (byte_to_Z_range b0). pose proof (byte_to_Z_range b1).
  unfold uint16. rewrite Z.shiftl_mul_pow2 by lia. change (2 ^ 8) with 256.
  rewrite (Z.mod_small (_ * 256)) by lia. rewrite Z.mod_small by lia. lia.
Qed.

Lemma le16_split (b0 b1 : byte) :
  uint8 (byte_to_Z b0 + 256 * byte_to_Z b1) = b0
  /\ uint8 (Z.shiftr (byte_to_Z b0 + 256 * byte_to_Z b1) 8) = b1.
Proof.
  pose proof (byte_to_Z_range b0). pose proof (byte_to_Z_range b1).
  split.
  - rewrite <- uint8_mod.
    replace ((byte_to_Z b0 + 256 * byte_to_Z b1) mod 256) with (byte_to_Z b0).
    + apply uint8_byte_to_Z.
    + Z.to_euclidean_division_equations. lia.
  - rewrite Z.shiftr_div_pow2 by lia. change (2 ^ 8) with 256.
    replace ((byte_to_Z b0 + 256 * byte_to_Z b1) / 256) with (byte_to_Z b1).
    + apply uint8_byte_to_Z.
    + Z.to_euclidean_division_equations. lia.
Qed.

Lemma ReadFull_inr (conn : list byte) (n : nat) (b rest : list byte) :
  ReadFull conn n = inr (b, rest) ->
  conn = b ++ rest /\ length b = n.
Proof.
  unfold ReadFull. destruct n as [|n].
  - intros H. injection H as <- <-. split; reflexivity.
  - destruct conn as [|c conn']; [discriminate|].
    destruct (length (c :: conn') <? S n)%nat eqn:E; [discriminate|].
    apply Nat.ltb_ge in E.
    cbn [length] in E.
    intros H. injection H as <- <-. split.
    + cbn [app]. f_equal. symmetry. apply firstn_skipn.
    + cbn [length]. f_equal. apply firstn_length_le. lia.
Qed.

Lemma ReadFull_app (b rest : list byte) :
  b <> [] -> ReadFull (b ++ rest) (length b) = inr (b, rest).
Proof.
  intros Hne. unfold ReadFull.
  destruct b as [|c b']; [congruence|].
  cbn [length app].
  destruct (S (length (b' ++ rest)) <? S (length b'))%nat eqn:E.
  { apply Nat.ltb_lt in E. rewrite length_app in E. lia. }
  change (c :: b' ++ rest) with ((c :: b') ++ rest).
  change (S (length b')) with (length (c :: b')).
  rewrite take_app_length, drop_app_length. reflexivity.
Qed.

(** What [pack] writes, in terms of the body it keeps. *)
Lemma pack_sent_body (id : Z) (kind : byte) (payload : list byte) :
  pack id kind payload =
  [uint8 (Z.of_nat (length (sent_body payload)));
   uint8 (Z.shiftr (Z.of_nat (length (sent_body payload))) 8);
   kind; uint8 id; uint8 (Z.shiftr id 8)] ++ sent_body payload.
Proof.
  unfold pack, sent_body.
  destruct (65535 <? Z.of_nat (length payload)); reflexivity.
Qed.

Lemma sent_body_length (payload : list byte) :
  Z.of_nat (length (sent_body payload)) <= 65535.
Proof.
  unfold sent_body.
  destruct (65535 <? Z.of_nat (length payload)) eqn:E.
  - cbn. lia.
  - apply Z.ltb_ge in E. exact E.
Qed.

(** [Reader] on an input that starts with a frame built by [pack]. *)
Lemma Reader_pack_app (s : Session) (id : Z) (kind : byte)
    (payload rest : list byte) :
  0 <= id < 65536 ->
  ch_closed (inData s) = false ->
  Reader (set_conn_in s (pack id kind payload ++ rest)) =
  Done (None,
        set_inData (set_conn_in s rest)
          (mkChan (ch_buf (inData s) ++ [mkData kind id (sent_body payload)])
                  false)).
Proof.
  intros Hid Hopen.
  pose proof (sent_body_length payload) as Hlen.
  assert (Hl : 0 <= Z.of_nat (length (sent_body payload)) < 65536) by lia.
  rewrite pack_sent_body. generalize dependent (sent_body payload).
  intros bd Hlen Hl.
  unfold Reader. cbn [conn_in set_conn_in ReadFull app length].
  unfold Nat.ltb. cbn [Nat.leb firstn skipn nth].
  rewrite (le16_read _ Hl), (le16_read _ Hid).
  change (drop 0 (bd ++ rest)) with (bd ++ rest).
  destruct bd as [|p ps].
  - cbn. unfold chan_send. rewrite Hopen. reflexivity.
  - destruct (0 <? Z.of_nat (length (p :: ps))) eqn:E0.
    2:{ apply Z.ltb_ge in E0. cbn [length] in E0. lia. }
    rewrite Nat2Z.id, ReadFull_app by discriminate.
    unfold chan_send. cbn. rewrite Hopen. reflexivity.
Qed.

(** A frame is never longer than 65540 bytes: [pack] writes the 5
    bytes of the header and then the body, or nothing when the body has
    more than 65535 bytes. *)
Lemma pack_length_bound (id : Z) (kind : byte) (payload : list byte) :
  Z.of_nat (length (pack id kind payload))
  = 5 + (if 65535 <? Z.of_nat (length payload) then 0
         else Z.of_nat (length payload))
  /\ 5 <= Z.of_nat (length (pack id kind payload)) <= 65540.
Proof.
  unfold pack.
  destruct (65535 <? Z.of_nat (length payload)) eqn:E.
  - cbn. lia.
  - apply Z.ltb_ge in E. cbn [length app]. lia.
Qed.

(** X3. What [Reader] decodes, [pack] encodes back: when [Reader] returns
    without error it has enqueued one packet, and the bytes it consumed
    are exactly the frame that [pack] builds from the id, kind and body of
    that packet. *)
Theorem Reader_then_pack (s s' : Session) :
  Reader s = Done (None, s') ->
  exists pkg,
    ch_buf (inData s') = ch_buf (inData s) ++ [pkg]
    /\ conn_in s = pack (head pkg) (dType pkg) (body pkg) ++ conn_in s'
    /\ 0 <= head pkg < 65536
    /\ Z.of_nat (length (body pkg)) <= 65535.
Proof.
  unfold Reader.
  destruct (ReadFull (conn_in s) 5) as [e|[b rest]] eqn:E5; [discriminate|].
  apply ReadFull_inr in E5 as [Hconn Hb].
  destruct b as [|l0 [|l1 [|k [|i0 [|i1 [|]]]]]]; try discriminate.
  cbn [nth]. rewrite !le16_value.
  pose proof (byte_to_Z_range l0). pose proof (byte_to_Z_range l1).
  pose proof (byte_to_Z_range i0). pose proof (byte_to_Z_range i1).
  destruct (le16_split l0 l1) as [Hl0 Hl1].
  destruct (le16_split i0 i1) as [Hi0 Hi1].
  destruct (0 <? byte_to_Z l0 + 256 * byte_to_Z l1) eqn:E0.
  - cbn [conn_in set_conn_in].
    destruct (ReadFull rest _) as [e|[bd rest']] eqn:Eb; [discriminate|].
    apply ReadFull_inr in Eb as [Hrest Hbd].
    unfold chan_send. cbn [inData set_conn_in].
    destruct (ch_closed (inData s)); [discriminate|].
    cbn [mbind Outcome_bind]. intros Hr. injection Hr as <-.
    eexists. split; [reflexivity|]. cbn [head dType body conn_in set_inData
      set_conn_in].
    assert (HL : Z.of_nat (length bd) = byte_to_Z l0 + 256 * byte_to_Z l1)
      by lia.
    split; [|split; lia].
    rewrite pack_fits by lia. rewrite HL, Hl0, Hl1, Hi0, Hi1.
    rewrite Hconn, Hrest. cbn [app]. reflexivity.
  - apply Z.ltb_ge in E0.
    unfold chan_send. cbn [inData set_conn_in].
    destruct (ch_closed (inData s)); [discriminate|].
    cbn [mbind Outcome_bind]. intros Hr. injection Hr as <-.
    eexists. split; [reflexivity|]. cbn [head dType body conn_in set_inData
      set_conn_in length].
    split; [|split; lia].
    rewrite pack_fits by (cbn; lia). cbn [length Z.of_nat].
    replace 0 with (byte_to_Z l0 + 256 * byte_to_Z l1) at 1 2 by lia.
    rewrite Hl0, Hl1, Hi0, Hi1. rewrite Hconn. reflexivity.
Qed.

Lemma Reader_then_pack_witness :
  exists pkg,
    ch_buf (inData (set_inData (set_conn_in Samples.new_session [x09])
                      (mkChan [mkData DATA 513 [x07]] false)))
    = ch_buf (inData (set_conn_in Samples.new_session
                        [x01; x00; x03; x01; x02; x07; x09])) ++ [pkg]
    /\ conn_in (set_conn_in Samples.new_session
                  [x01; x00; x03; x01; x02; x07; x09])
       = pack (head pkg) (dType pkg) (body pkg)
         ++ conn_in (set_inData (set_conn_in Samples.new_session [x09])
                       (mkChan [mkData DATA 513 [x07]] false))
    /\ 0 <= head pkg < 65536
    /\ Z.of_nat (length (body pkg)) <= 65535.
Proof.
  apply (Reader_then_pack
           (set_conn_in Samples.new_session
              [x01; x00; x03; x01; x02; x07; x09])).
  reflexivity.
Defined.

Lemma announced_cons (l0 l1 : byte) (rest : list byte) :
  announced (l0 :: l1 :: rest) = byte_to_Z l0 + 256 * byte_to_Z l1.
Proof. unfold announced. cbn [nth]. apply le16_value. Qed.

Lemma announced_range (conn : list byte) : 0 <= announced conn < 65536.
Proof. unfold announced, uint16. apply Z.mod_pos_bound. lia. Qed.

(** X4. [Reader] reports an error exactly when the input ends before the
    frame it announces does: with fewer than 5 bytes, or fewer than 5 plus
    the announced body length, it returns an error, consumes what there
    was and enqueues nothing; the error is the clean [io.EOF] when the
    input is empty or ends right after a header, [io.ErrUnexpectedEOF]
    otherwise.  With a whole frame to read and the inbound queue open it
    returns no error. *)
Theorem Reader_error_iff_truncated (s : Session) :
  let n := Z.of_nat (length (conn_in s)) in
  (n < 5 \/ n < 5 + announced (conn_in s) ->
   exists err,
     Reader s = Done (Some err, set_conn_in s [])
     /\ (err = EOF <-> n = 0 \/ n = 5))
  /\ (5 + announced (conn_in s) <= n ->
      ch_closed (inData s) = false ->
      exists s', Reader s = Done (None, s')).
Proof.
  intros n. subst n. unfold Reader.
  destruct (conn_in s) as [|l0 [|l1 [|k [|i0 [|i1 rest]]]]] eqn:Hconn.
  1-5: split;
    [ intros _; eexists; split; [cbn; reflexivity|];
      cbn [length]; split; intros Hx; try discriminate; try reflexivity; lia
    | pose proof (announced_range (conn_in s)); rewrite Hconn in *;
      cbn [length]; lia ].
  rewrite announced_cons.
  pose proof (byte_to_Z_range l0). pose proof (byte_to_Z_range l1).
  cbn [ReadFull length]. unfold Nat.ltb. cbn [Nat.leb firstn skipn nth].
  rewrite !le16_value. change (drop 0 rest) with rest.
  cbn [conn_in set_conn_in].
  set (L := byte_to_Z l0 + 256 * byte_to_Z l1) in *.
  split.
  - intros [Hn|Hn]; [lia|].
    destruct (0 <? L) eqn:E0; [|apply Z.ltb_ge in E0; lia].
    unfold ReadFull. destruct (Z.to_nat L) as [|m] eqn:Em; [lia|].
    destruct rest as [|r rest'].
    + eexists. split; [reflexivity|]. cbn [length]. split; [lia|reflexivity].
    + destruct (length (r :: rest') <? S m)%nat eqn:El.
      * eexists. split; [reflexivity|]. cbn [length].
        split; [discriminate|lia].
      * apply Nat.ltb_ge in El. cbn [length] in *. lia.
  - intros Hn Hopen. unfold chan_send. cbn [inData set_conn_in].
    rewrite Hopen.
    destruct (0 <? L) eqn:E0; [|eexists; reflexivity].
    unfold ReadFull. destruct (Z.to_nat L) as [|m] eqn:Em.
    { apply Z.ltb_lt in E0. lia. }
    destruct rest as [|r rest']; [cbn [length] in Hn; lia|].
    destruct (length (r :: rest') <? S m)%nat eqn:El.
    + apply Nat.ltb_lt in El. cbn [length] in *. lia.
    + eexists. reflexivity.
Qed.

Lemma Reader_error_iff_truncated_witness :
  (exists err,
     Reader (set_conn_in Samples.new_session [x02; x00; x03; x01; x00])
     = Done (Some err, set_conn_in Samples.new_session [])
     /\ (err = EOF <-> 5 = 0 \/ 5 = 5))
  /\ (exists s',
       Reader (set_conn_in Samples.new_session
                 [x02; x00; x03; x01; x00; x0a; x0b]) = Done (None, s')).
Proof.
  split.
  - apply (proj1 (Reader_error_iff_truncated
                    (set_conn_in Samples.new_session
                       [x02; x00; x03; x01; x00]))).
    right. cbn [conn_in set_conn_in]. rewrite announced_cons. cbn. lia.
  - apply (proj2 (Reader_error_iff_truncated
                    (set_conn_in Samples.new_session
                       [x02; x00; x03; x01; x00; x0a; x0b]))).
    + cbn [conn_in set_conn_in]. rewrite announced_cons. cbn. lia.
    + reflexivity.
Defined.

End WireFrameFacts.

(** ** The read pump and the write pump *)

Section PumpFacts.
Import Wire Network.
Local Open Scope Z_scope.

(** The three ways [Reader] can end. *)
Lemma Reader_cases (s : Session) :
  (exists e, Reader s = Done (Some e, set_conn_in s []))
  \/ (exists pkg rest,
        Reader s = Done (None,
                         set_inData (set_conn_in s rest)
                           (mkChan (ch_buf (inData s) ++ [pkg]) false))
        /\ (length rest + 5 <= length (conn_in s))%nat
        /\ ch_closed (inData s) = false)
  \/ (exists msg, Reader s = Panicked msg /\ ch_closed (inData s) = true).
Proof.
  unfold Reader.
  destruct (ReadFull (conn_in s) 5) as [e|[b rest]] eqn:E5.
  { left. eexists. reflexivity. }
  apply ReadFull_inr in E5 as [Hconn Hb].
  assert (Hlen : (length rest + 5 <= length (conn_in s))%nat).
  { rewrite Hconn, length_app. lia. }
  cbn [conn_in set_conn_in inData].
  match goal with |- context [if ?c then _ else _] => destruct c end.
  - destruct (ReadFull rest _) as [e|[bd rest']] eqn:Eb.
    { left. eexists. reflexivity. }
    apply ReadFull_inr in Eb as [Hrest Hbd].
    unfold chan_send. cbn [inData set_conn_in].
    destruct (ch_closed (inData s)) eqn:Hc.
    + right. right. eexists. split; reflexivity.
    + right. left. do 2 eexists. split; [reflexivity|]. split; [|reflexivity].
      rewrite Hrest, length_app in Hlen. lia.
  - unfold chan_send. cbn [inData set_conn_in].
    destruct (ch_closed (inData s)) eqn:Hc.
    + right. right. eexists. split; reflexivity.
    + right. left. do 2 eexists. split; [reflexivity|]. split; [exact Hlen|].
      reflexivity.
Qed.

(** The loop of the read pump ends within the fuel that [handleRead]
    gives it, and touches neither the state, nor the outbound queue, nor
    the close signal. *)
Lemma handleRead_loop_returns (fuel : nat) (s : Session) :
  (length (conn_in s) < fuel)%nat ->
  exists s' p,
    handleRead_loop fuel s = Some (s', p)
    /\ cClose s' = cClose s /\ outData s' = outData s
    /\ state s' = state s /\ fd s' = fd s
    /\ ch_closed (inData s') = ch_closed (inData s).
Proof.
  revert s. induction fuel as [|fuel IH]; intros s Hlen; [lia|].
  cbn [handleRead_loop].
  destruct (negb (state_eqb (state s) WORKING)).
  { do 2 eexists. split; [reflexivity|]. auto 6. }
  destruct (Reader_cases s)
    as [[e ->]|[(pkg & rest & -> & Hr & Hop)|(msg & -> & _)]].
  - do 2 eexists. split; [reflexivity|]. auto 6.
  - destruct (IH (set_inData (set_conn_in s rest)
                    (mkChan (ch_buf (inData s) ++ [pkg]) false)))
      as (s' & p & -> & H1 & H2 & H3 & H4 & H5).
    { cbn [conn_in set_inData set_conn_in]. lia. }
    do 2 eexists. split; [reflexivity|]. cbn in *. rewrite Hop. auto 6.
  - do 2 eexists. split; [reflexivity|]. auto 6.
Qed.

(** X5. The read pump always ends by closing the connection and
    signalling the close once: whatever the input and the state, on a
    session whose close channel is open [handleRead] returns, the
    connection is closed, exactly one value is sent on [cClose], and the
    state and the outbound queue are as before (the pump does not leave
    WORKING by itself). *)
Theorem handleRead_signals_close (s : Session) (c : Conn) :
  ch_closed (cClose s) = false ->
  exists s',
    handleRead s c = Some (Done (s', mkConn (written c) true))
    /\ ch_buf (cClose s') = ch_buf (cClose s) ++ [true]
    /\ ch_closed (cClose s') = false
    /\ state s' = state s
    /\ outData s' = outData s.
Proof.
  intros Hopen. unfold handleRead.
  destruct (handleRead_loop_returns (S (length (conn_in s))) s)
    as (s1 & p & -> & H1 & H2 & H3 & _ & H5); [lia|].
  unfold chan_send. rewrite H1, Hopen. cbn [mbind Outcome_bind].
  eexists. split; [reflexivity|]. cbn. auto 6.
Qed.

Lemma handleRead_signals_close_witness :
  exists s',
    handleRead (set_conn_in Samples.working_session [x01; x02; x03])
      (mkConn [] false)
    = Some (Done (s', mkConn [] true))
    /\ ch_buf (cClose s') = [] ++ [true]
    /\ ch_closed (cClose s') = false
    /\ state s' = WORKING
    /\ outData s' = outData Samples.working_session.
Proof.
  apply (handleRead_signals_close
           (set_conn_in Samples.working_session [x01; x02; x03])
           (mkConn [] false)).
  reflexivity.
Defined.

Lemma handleRead_loop_wire (pkgs : list Data) (fuel : nat) (s : Session) :
  Forall (fun d => 0 <= head d < 65536) pkgs ->
  state s = WORKING ->
  ch_closed (inData s) = false ->
  (length pkgs < fuel)%nat ->
  handleRead_loop fuel (set_conn_in s (wire pkgs)) =
  Some (set_inData (set_conn_in s [])
          (mkChan (ch_buf (inData s) ++ map received pkgs) false), false).
Proof.
  revert fuel s. induction pkgs as [|d pkgs IH]; intros fuel s Hids Hst Hopen Hf.
  - destruct fuel as [|fuel]; [cbn in Hf; lia|].
    cbn [handleRead_loop wire state set_conn_in].
    rewrite Hst. cbn [state_eqb state_num Z.eqb Pos.eqb negb].
    cbn. rewrite app_nil_r.
    destruct s as [? ? [buf cl] ? ? ?]. cbn in *. subst cl. reflexivity.
  - destruct fuel as [|fuel]; [cbn in Hf; lia|].
    inversion Hids as [|? ? Hd Hrest]; subst.
    cbn [handleRead_loop wire state set_conn_in].
    rewrite Hst. cbn [state_eqb state_num Z.eqb Pos.eqb negb].
    rewrite Reader_pack_app by assumption.
    change (set_inData (set_conn_in s (wire pkgs))
              (mkChan (ch_buf (inData s) ++ [mkData (dType d) (head d)
                                               (sent_body (body d))]) false))
      with (set_conn_in
              (set_inData s
                 (mkChan (ch_buf (inData s) ++ [received d]) false))
              (wire pkgs)).
    rewrite IH; [| assumption | exact Hst | reflexivity | cbn in Hf; lia].
    cbn [inData set_inData ch_buf map]. rewrite <- app_assoc. reflexivity.
Qed.

Lemma wire_length (pkgs : list Data) :
  (length pkgs <= length (wire pkgs))%nat.
Proof.
  induction pkgs as [|d pkgs IH]; [reflexivity|].
  cbn [wire length]. rewrite length_app.
  pose proof (pack_length_bound (head d) (dType d) (body d)) as [_ Hb]. lia.
Qed.

Lemma handleRead_on_wire (s : Session) (c : Conn) (pkgs : list Data) :
  Forall (fun d => 0 <= head d < 65536) pkgs ->
  state s = WORKING ->
  ch_closed (inData s) = false ->
  ch_closed (cClose s) = false ->
  handleRead (set_conn_in s (wire pkgs)) c =
  Some (Done (set_cClose
                (set_inData (set_conn_in s [])
                   (mkChan (ch_buf (inData s) ++ map received pkgs) false))
                (mkChan (ch_buf (cClose s) ++ [true]) false),
              mkConn (written c) true)).
Proof.
  intros Hids Hst Hin Hcl. unfold handleRead.
  cbn [conn_in set_conn_in].
  rewrite handleRead_loop_wire; try assumption.
  2:{ pose proof (wire_length pkgs). lia. }
  unfold chan_send. cbn [cClose set_inData set_conn_in]. rewrite Hcl.
  reflexivity.
Qed.

(** X6. The read pump decodes a stream of frames in order: on a WORKING
    session whose input is the frames of a sequence of packets (16-bit
    ids), [handleRead] puts these packets on the inbound queue in the same
    order, a body of more than 65535 bytes arriving empty, reads the input
    to its end, closes the connection and signals the close. *)
Theorem handleRead_decodes_stream (s : Session) (c : Conn)
    (pkgs : list Data) :
  Forall (fun d => 0 <= head d < 65536) pkgs ->
  state s = WORKING ->
  ch_closed (inData s) = false ->
  ch_closed (cClose s) = false ->
  exists s',
    handleRead (set_conn_in s (wire pkgs)) c
    = Some (Done (s', mkConn (written c) true))
    /\ ch_buf (inData s') = ch_buf (inData s) ++ map received pkgs
    /\ conn_in s' = []
    /\ ch_buf (cClose s') = ch_buf (cClose s) ++ [true].
Proof.
  intros Hids Hst Hin Hcl. eexists. split.
  - apply handleRead_on_wire; assumption.
  - cbn. auto.
Qed.

Lemma handleRead_decodes_stream_witness :
  exists s',
    handleRead
      (set_conn_in Samples.working_session
         (wire [mkData DATA 1 [x0a]; mkData HEARTBEAT 2 []]))
      (mkConn [] false)
    = Some (Done (s', mkConn [] true))
    /\ ch_buf (inData s')
       = [] ++ map received [mkData DATA 1 [x0a]; mkData HEARTBEAT 2 []]
    /\ conn_in s' = []
    /\ ch_buf (cClose s') = [] ++ [true].
Proof.
  apply (handleRead_decodes_stream Samples.working_session (mkConn [] false)
           [mkData DATA 1 [x0a]; mkData HEARTBEAT 2 []]).
  - repeat constructor; cbn; lia.
  - reflexivity.
  - reflexivity.
  - reflexivity.
Defined.

(** The loop of the write pump on a WORKING session. *)
Lemma handleWrite_loop_working (buf : list (list byte)) (fuel : nat)
    (s : Session) (c : Conn) :
  state s = WORKING ->
  ch_buf (outData s) = buf ->
  (length buf < fuel)%nat ->
  handleWrite_loop fuel s c =
  Some (if ch_closed (outData s) then Spinning else Blocked,
        set_outData s (mkChan [] (ch_closed (outData s))),
        if closed c then c else mkConn (written c ++ concat buf) false).
Proof.
  revert fuel s c. induction buf as [|pkg buf IH]; intros fuel s c Hst Hbuf Hf.
  - destruct fuel as [|fuel]; [cbn in Hf; lia|].
    cbn [handleWrite_loop]. rewrite Hst.
    cbn [state_eqb state_num Z.eqb Pos.eqb negb].
    unfold chan_recv. rewrite Hbuf. cbn [concat]. rewrite app_nil_r.
    destruct s as [? ? ? [ob ocl] ? ?]. cbn in *. subst ob.
    destruct c as [w cl]. cbn. destruct ocl, cl; reflexivity.
  - destruct fuel as [|fuel]; [cbn in Hf; lia|].
    cbn [handleWrite_loop]. rewrite Hst.
    cbn [state_eqb state_num Z.eqb Pos.eqb negb].
    unfold chan_recv. rewrite Hbuf.
    rewrite (IH fuel (set_outData s (mkChan buf (ch_closed (outData s))))
               (conn_Write c pkg)); [| exact Hst | reflexivity
                                    | cbn in Hf; lia].
    cbn [outData set_outData ch_closed]. f_equal. f_equal.
    unfold conn_Write. destruct (closed c) eqn:Hc.
    + rewrite Hc. reflexivity.
    + cbn [closed written concat]. rewrite <- app_assoc. reflexivity.
Qed.

(** X7. The write pump writes the queued frames in the order of the
    queue: on a WORKING session [handleWrite] empties the outbound queue
    and appends the frames, first in first out, to what was written to
    the connection (nothing is written once the connection is closed);
    then it waits on the queue.  On a session that is not WORKING it
    leaves at once, closes the connection, and the queued frames are never
    written. *)
Theorem handleWrite_fifo (s : Session) (c : Conn) :
  (state s = WORKING ->
   handleWrite s c =
   Some (if ch_closed (outData s) then Spinning else Blocked,
         set_outData s (mkChan [] (ch_closed (outData s))),
         if closed c then c
         else mkConn (written c ++ concat (ch_buf (outData s))) false))
  /\ (state s <> WORKING ->
      handleWrite s c = Some (Exited, s, mkConn (written c) true)).
Proof.
  split.
  - intros Hst. unfold handleWrite.
    apply handleWrite_loop_working; [exact Hst | reflexivity | lia].
  - intros Hst. unfold handleWrite. cbn [handleWrite_loop].
    destruct (state_eqb (state s) WORKING) eqn:E.
    + unfold state_eqb in E. apply Z.eqb_eq in E.
      destruct (state s); cbn in E; try discriminate. congruence.
    + reflexivity.
Qed.

Lemma handleWrite_fifo_witness :
  handleWrite
    (set_outData Samples.working_session (mkChan [[x01]; [x02; x03]] false))
    (mkConn [x00] false)
  = Some (Blocked,
          set_outData Samples.working_session (mkChan [] false),
          mkConn [x00; x01; x02; x03] false)
  /\ handleWrite
       (Close (set_outData Samples.working_session
                 (mkChan [[x01]; [x02; x03]] false)))
       (mkConn [x00] false)
     = Some (Exited,
             Close (set_outData Samples.working_session
                      (mkChan [[x01]; [x02; x03]] false)),
             mkConn [x00] true).
Proof.
  split.
  - apply (proj1 (handleWrite_fifo
                    (set_outData Samples.working_session
                       (mkChan [[x01]; [x02; x03]] false))
                    (mkConn [x00] false))).
    reflexivity.
  - apply (proj2 (handleWrite_fifo
                    (Close (set_outData Samples.working_session
                              (mkChan [[x01]; [x02; x03]] false)))
                    (mkConn [x00] false))).
    cbn. discriminate.
Defined.

Lemma doWrite_all_working (pkgs : list Data) (s : Session) :
  state s = WORKING ->
  ch_closed (outData s) = false ->
  doWrite_all s pkgs =
  Done (set_outData s
          (mkChan (ch_buf (outData s)
                   ++ map (fun d => pack (head d) (dType d) (body d)) pkgs)
                  false)).
Proof.
  revert s. induction pkgs as [|d pkgs IH]; intros s Hst Hopen.
  - cbn. rewrite app_nil_r.
    destruct s as [? ? ? [ob ocl] ? ?]. cbn in *. subst ocl. reflexivity.
  - cbn [doWrite_all]. rewrite doWrite_working by assumption.
    cbn [mbind Outcome_bind]. rewrite IH by (assumption || reflexivity).
    cbn [outData set_outData ch_buf map]. rewrite <- app_assoc. reflexivity.
Qed.

Lemma concat_map_pack (pkgs : list Data) :
  concat (map (fun d => pack (head d) (dType d) (body d)) pkgs) = wire pkgs.
Proof.
  induction pkgs as [|d pkgs IH]; [reflexivity|].
  cbn [map concat wire]. rewrite IH. reflexivity.
Qed.

(** X8. From [doWrite] on one side to the inbound queue on the other:
    packets written with [doWrite] on a WORKING session are put on the
    wire by the write pump, and the read pump of a WORKING session reading
    these bytes enqueues the same packets (id, kind, body) in the same
    order; only a body of more than 65535 bytes arrives empty. *)
Theorem doWrite_reaches_peer (s r : Session) (c : Conn)
    (pkgs : list Data) :
  Forall (fun d => 0 <= head d < 65536) pkgs ->
  state s = WORKING -> outData s = chan_make ->
  state r = WORKING -> ch_closed (inData r) = false ->
  ch_closed (cClose r) = false ->
  exists s1 s2 bytes r',
    doWrite_all s pkgs = Done s1
    /\ handleWrite s1 (mkConn [] false)
       = Some (Blocked, s2, mkConn bytes false)
    /\ handleRead (set_conn_in r bytes) c
       = Some (Done (r', mkConn (written c) true))
    /\ ch_buf (inData r') = ch_buf (inData r) ++ map received pkgs.
Proof.
  intros Hids Hs Hout Hr Hin Hcl.
  do 4 eexists. split; [|split; [|split]].
  - apply doWrite_all_working; [exact Hs | rewrite Hout; reflexivity].
  - unfold handleWrite.
    erewrite handleWrite_loop_working; [| exact Hs | reflexivity | lia].
    cbn [outData set_outData ch_closed ch_buf closed written].
    rewrite Hout. cbn [ch_buf chan_make app]. rewrite concat_map_pack.
    reflexivity.
  - apply handleRead_on_wire; assumption.
  - reflexivity.
Qed.

Lemma doWrite_reaches_peer_witness :
  exists s1 s2 bytes r',
    doWrite_all Samples.working_session
      [mkData DATA 1 [x0a]; mkData HEARTBEAT 2 []] = Done s1
    /\ handleWrite s1 (mkConn [] false)
       = Some (Blocked, s2, mkConn bytes false)
    /\ handleRead (set_conn_in Samples.working_session bytes)
         (mkConn [] false)
       = Some (Done (r', mkConn (written (mkConn [] false)) true))
    /\ ch_buf (inData r')
       = ch_buf (inData Samples.working_session)
         ++ map received [mkData DATA 1 [x0a]; mkData HEARTBEAT 2 []].
Proof.
  apply (doWrite_reaches_peer Samples.working_session
           Samples.working_session (mkConn [] false)
           [mkData DATA 1 [x0a]; mkData HEARTBEAT 2 []]).
  - repeat constructor; cbn; lia.
  - reflexivity.
  - reflexivity.
  - reflexivity.
  - reflexivity.
  - reflexivity.
Defined.

(** X9. Frames sent after the peer has gone are accepted and lost: when
    the read pump has ended (it closes the connection but leaves the state
    WORKING), [doWrite] still enqueues a frame, the write pump takes it
    off the queue, and nothing is written to the closed connection. *)
Theorem write_after_disconnect_lost (s : Session) (c : Conn) (id : Z)
    (kind : byte) (payload : list byte) :
  state s = WORKING ->
  ch_closed (cClose s) = false ->
  outData s = chan_make ->
  exists s1 s2 s3,
    handleRead s c = Some (Done (s1, mkConn (written c) true))
    /\ doWrite s1 id kind payload = Done s2
    /\ ch_buf (outData s2) = [pack id kind payload]
    /\ handleWrite s2 (mkConn (written c) true)
       = Some (Blocked, s3, mkConn (written c) true)
    /\ ch_buf (outData s3) = [].
Proof.
  intros Hst Hcl Hout. unfold handleRead.
  destruct (handleRead_loop_returns (S (length (conn_in s))) s)
    as (s1 & p & -> & H1 & H2 & H3 & _ & _); [lia|].
  unfold chan_send. rewrite H1, Hcl. cbn [mbind Outcome_bind].
  do 3 eexists. split; [reflexivity|]. split.
  - apply doWrite_working.
    + cbn. congruence.
    + cbn. rewrite H2, Hout. reflexivity.
  - cbn [outData set_outData set_cClose ch_buf]. rewrite H2, Hout.
    split; [reflexivity|]. unfold handleWrite.
    erewrite handleWrite_loop_working;
      [| cbn; congruence | reflexivity | cbn; lia].
    cbn. split; reflexivity.
Qed.

Lemma write_after_disconnect_lost_witness :
  exists s1 s2 s3,
    handleRead Samples.working_session (mkConn [x2a] false)
    = Some (Done (s1, mkConn [x2a] true))
    /\ doWrite s1 5 DATA [x01] = Done s2
    /\ ch_buf (outData s2) = [pack 5 DATA [x01]]
    /\ handleWrite s2 (mkConn [x2a] true)
       = Some (Blocked, s3, mkConn [x2a] true)
    /\ ch_buf (outData s3) = [].
Proof.
  apply (write_after_disconnect_lost Samples.working_session
           (mkConn [x2a] false) 5 DATA [x01]); reflexivity.
Defined.

(** X10. The end of a session on the server: when the read pump has
    ended, the dispatch loop receives the close signal, calls the
    handler's [Close] with the id of the session, releases the session and
    stops; the session is then CLOSED with its three channels closed, and
    every later [doWrite] on it is dropped. *)
Theorem read_pump_end_releases_session (s : Session) (c : Conn) :
  ch_closed (inData s) = false ->
  ch_closed (outData s) = false ->
  cClose s = chan_make ->
  exists s1 s2,
    handleRead s c = Some (Done (s1, mkConn (written c) true))
    /\ processInData_pass s1 CaseClose
       = Some ([CallClose (fd s)], Done (s2, false))
    /\ state s2 = CLOSED
    /\ ch_closed (inData s2) = true /\ ch_closed (outData s2) = true
    /\ ch_closed (cClose s2) = true
    /\ (forall id kind payload, doWrite s2 id kind payload = Done s2).
Proof.
  intros Hin Hout Hcl. unfold handleRead.
  destruct (handleRead_loop_returns (S (length (conn_in s))) s)
    as (s1 & p & -> & H1 & H2 & H3 & H4 & H5); [lia|].
  unfold chan_send. rewrite H1, Hcl. cbn [ch_closed chan_make mbind Outcome_bind].
  do 2 eexists. split; [reflexivity|].
  unfold processInData_pass, chan_recv, TcpConn_Close, Release, chan_close.
  cbn [cClose set_cClose ch_buf app inData outData fd ch_closed chan_make
       set_inData set_outData].
  rewrite H5, Hin, H2, Hout, H4. cbn [mbind Outcome_bind].
  split; [reflexivity|]. cbn. repeat (split; [reflexivity|]).
  intros id kind payload. reflexivity.
Qed.

Lemma read_pump_end_releases_session_witness :
  exists s1 s2,
    handleRead Samples.working_session (mkConn [] false)
    = Some (Done (s1, mkConn [] true))
    /\ processInData_pass s1 CaseClose
       = Some ([CallClose (fd Samples.working_session)], Done (s2, false))
    /\ state s2 = CLOSED
    /\ ch_closed (inData s2) = true /\ ch_closed (outData s2) = true
    /\ ch_closed (cClose s2) = true
    /\ (forall id kind payload, doWrite s2 id kind payload = Done s2).
Proof.
  apply (read_pump_end_releases_session Samples.working_session
           (mkConn [] false)); reflexivity.
Defined.

End PumpFacts.

(** ** RPC server: registration and dispatch *)

Section RegistryFacts.
Import Json Reflect RpcServer.
Local Open Scope Z_scope.

Lemma method_table_snoc (ms : list Method) (m : Method) :
  method_table (ms ++ [m])
  = <[Name m := mkMethod (Func m) (In m)]> (method_table ms).
Proof. unfold method_table. rewrite foldl_app. reflexivity. Qed.

Lemma method_table_lookup_None (ms : list Method) (n : string) :
  n ∉ map Name ms -> method_table ms !! n = None.
Proof.
  induction ms as [|m ms IH] using rev_ind; intros Hn.
  - apply lookup_empty.
  - rewrite method_table_snoc. rewrite map_app in Hn.
    rewrite lookup_insert_ne.
    + apply IH. intros Hin. apply Hn. apply elem_of_app. left. exact Hin.
    + intros Heq. apply Hn. apply elem_of_app. right. cbn.
      rewrite Heq. left.
Qed.

Lemma method_table_lookup (ms : list Method) (m : Method) :
  NoDup (map Name ms) ->
  m ∈ ms ->
  method_table ms !! Name m = Some (mkMethod (Func m) (In m)).
Proof.
  induction ms as [|m' ms IH] using rev_ind; intros Hnd Hin.
  - inversion Hin.
  - rewrite method_table_snoc. rewrite map_app in Hnd.
    apply NoDup_app in Hnd as (Hnd1 & Hdisj & _).
    apply elem_of_app in Hin as [Hin|Hin].
    + rewrite lookup_insert_ne; [apply IH; assumption|].
      intros Heq. apply (Hdisj (Name m)).
      * apply list_elem_of_fmap. exists m. split; [reflexivity|exact Hin].
      * cbn. rewrite Heq. left.
    + apply list_elem_of_singleton in Hin. subst m'.
      apply lookup_insert_eq.
Qed.

(** X11. After [Register], the service is found under the type name of the
    receiver and each of its methods under its own name, with the
    parameter types reflection gave; a name that is not a method of the
    receiver is not found; the other services and the sessions are
    untouched. *)
Theorem Register_lookup (this : Server) (rcvr : Receiver) :
  NoDup (map Name (Methods rcvr)) ->
  exists svc,
    serviceMap (Register this rcvr) !! TypeName rcvr = Some svc
    /\ (forall m, m ∈ Methods rcvr ->
        methods svc !! Name m = Some (mkMethod (Func m) (In m)))
    /\ (forall n, n ∉ map Name (Methods rcvr) -> methods svc !! n = None)
    /\ (forall other, other <> TypeName rcvr ->
        serviceMap (Register this rcvr) !! other = serviceMap this !! other)
    /\ sessions (Register this rcvr) = sessions this.
Proof.
  intros Hnd. eexists. split; [apply lookup_insert_eq|].
  split; [|split; [|split]].
  - intros m Hm. apply method_table_lookup; assumption.
  - intros n Hn. apply method_table_lookup_None. exact Hn.
  - intros other Hne. cbn. apply lookup_insert_ne. congruence.
  - reflexivity.
Qed.

Lemma Register_lookup_witness :
  exists svc,
    serviceMap (Register (mkServer ∅ ∅) Samples.Math_receiver)
      !! TypeName Samples.Math_receiver = Some svc
    /\ (forall m, m ∈ Methods Samples.Math_receiver ->
        methods svc !! Name m = Some (mkMethod (Func m) (In m)))
    /\ (forall n, n ∉ map Name (Methods Samples.Math_receiver) ->
        methods svc !! n = None)
    /\ (forall other, other <> TypeName Samples.Math_receiver ->
        serviceMap (Register (mkServer ∅ ∅) Samples.Math_receiver) !! other
        = serviceMap (mkServer ∅ ∅) !! other)
    /\ sessions (Register (mkServer ∅ ∅) Samples.Math_receiver)
       = sessions (mkServer ∅ ∅).
Proof.
  apply (Register_lookup (mkServer ∅ ∅) Samples.Math_receiver).
  cbn. apply NoDup_cons. split; [|apply NoDup_singleton].
  intros Hin. apply list_elem_of_singleton in Hin. discriminate.
Defined.

(** X12. The last registration under a service name wins: registering a
    second receiver whose type has the same name replaces the first
    service, method table included. *)
Theorem Register_replaces (this : Server) (r1 r2 : Receiver) :
  TypeName r1 = TypeName r2 ->
  Register (Register this r1) r2 = Register this r2.
Proof.
  intros Hn. unfold Register. cbn [serviceMap sessions].
  rewrite Hn, insert_insert_eq. reflexivity.
Qed.

Lemma Register_replaces_witness :
  Register (Register (mkServer ∅ ∅) (mkReceiver "Math" [])) Samples.Math_receiver
  = Register (mkServer ∅ ∅) Samples.Math_receiver.
Proof.
  apply (Register_replaces (mkServer ∅ ∅) (mkReceiver "Math" [])
           Samples.Math_receiver).
  reflexivity.
Defined.

End RegistryFacts.

Section DispatchFacts.
Import Json Reflect RpcServer.
Local Open Scope Z_scope.

Variable json_Unmarshal : Unmarshal.
Variable json_Marshal : Marshal.

(** The scan for the last dot either finds one at or after its start
    index, or the string has no dot and the scan returns what it was
    given. *)
Lemma last_dot_from_cases (s : string) (j found : Z) :
  j <= last_dot_from j s found
  \/ (forall j' found', last_dot_from j' s found' = found').
Proof.
  revert j found. induction s as [|c r IH]; intros j found.
  - right. reflexivity.
  - cbn [last_dot_from]. destruct (Ascii.eqb c ".") eqn:E.
    + left. destruct (IH (j + 1) j) as [H|H]; [lia|]. rewrite H. lia.
    + destruct (IH (j + 1) found) as [H|H]; [left; lia|].
      right. intros j' found'. apply H.
Qed.

Lemma last_dot_from_no_dot (s : string) :
  LastIndex_dot s < 0 ->
  forall j found, last_dot_from j s found = found.
Proof.
  intros Hno. unfold LastIndex_dot in Hno.
  destruct (last_dot_from_cases s 0 (-1)) as [H|H]; [lia|exact H].
Qed.

Lemma last_dot_from_app (a b : string) (i found : Z) :
  last_dot_from i (a +:+ b) found
  = last_dot_from (i + Z.of_nat (String.length a)) b
      (last_dot_from i a found).
Proof.
  revert i found. induction a as [|c a IH]; intros i found.
  - cbn. f_equal. lia.
  - change (String c a +:+ b) with (String c (a +:+ b)).
    cbn [last_dot_from String.length]. rewrite IH. f_equal. lia.
Qed.

Lemma substring_0_app (a b : string) :
  substring 0 (String.length a) (a +:+ b) = a.
Proof.
  induction a as [|c a IH].
  - destruct b; reflexivity.
  - change (String c a +:+ b) with (String c (a +:+ b)).
    simpl. rewrite IH. reflexivity.
Qed.

Lemma substring_0_all (m : string) : substring 0 (String.length m) m = m.
Proof.
  induction m as [|c m IH]; simpl; [reflexivity|]. rewrite IH. reflexivity.
Qed.

Lemma substring_skip_app (a b : string) (n : nat) :
  substring (String.length a) n (a +:+ b) = substring 0 n b.
Proof.
  induction a as [|c a IH]; [reflexivity|].
  change (String c a +:+ b) with (String c (a +:+ b)). simpl. apply IH.
Qed.

Lemma length_append (a b : string) :
  String.length (a +:+ b) = (String.length a + String.length b)%nat.
Proof.
  induction a as [|c a IH]; [reflexivity|].
  change (String c a +:+ b) with (String c (a +:+ b)). simpl.
  rewrite IH. reflexivity.
Qed.

Lemma append_dot_assoc (svc m : string) :
  svc +:+ String "." m = (svc +:+ ".") +:+ m.
Proof.
  induction svc as [|c svc IH]; [reflexivity|].
  change (String c svc +:+ String "." m)
    with (String c (svc +:+ String "." m)).
  rewrite IH. reflexivity.
Qed.

(** The split of ["Service.Method"] at its last dot. *)
Lemma split_last_dot (svc m : string) :
  LastIndex_dot m < 0 ->
  LastIndex_dot (svc +:+ String "." m) = Z.of_nat (String.length svc)
  /\ slice_to (svc +:+ String "." m) (LastIndex_dot (svc +:+ String "." m))
     = svc
  /\ slice_from (svc +:+ String "." m)
       (LastIndex_dot (svc +:+ String "." m) + 1) = m.
Proof.
  intros Hno.
  assert (Hdot : LastIndex_dot (svc +:+ String "." m)
                 = Z.of_nat (String.length svc)).
  { unfold LastIndex_dot. rewrite last_dot_from_app.
    cbn [last_dot_from Ascii.eqb Bool.eqb]. cbn.
    rewrite last_dot_from_no_dot by exact Hno. reflexivity. }
  rewrite Hdot. split; [reflexivity|]. split.
  - unfold slice_to. rewrite Nat2Z.id. apply substring_0_app.
  - unfold slice_from.
    replace (Z.to_nat (Z.of_nat (String.length svc) + 1))
      with (String.length (svc +:+ ".")) by (rewrite length_append; cbn; lia).
    rewrite (append_dot_assoc svc m).
    rewrite substring_skip_app, length_append.
    replace (String.length (svc +:+ ".") + String.length m
             - String.length (svc +:+ "."))%nat
      with (String.length m) by lia.
    apply substring_0_all.
Qed.

(** X13. The method reference is split at its last dot: for a reference
    made of a service name, a dot and a method name without dot,
    [Message] looks the service up under all that precedes the last dot
    (dots included) and the method under what follows it. *)
Theorem method_reference_split (svc m : string) :
  LastIndex_dot m < 0 ->
  0 <= LastIndex_dot (svc +:+ String "." m)
  /\ slice_to (svc +:+ String "." m) (LastIndex_dot (svc +:+ String "." m))
     = svc
  /\ slice_from (svc +:+ String "." m)
       (LastIndex_dot (svc +:+ String "." m) + 1) = m.
Proof.
  intros Hno. destruct (split_last_dot svc m Hno) as (H1 & H2 & H3).
  split; [lia|]. split; assumption.
Qed.

Lemma method_reference_split_witness :
  0 <= LastIndex_dot ("a.b" +:+ String "." "Add")
  /\ slice_to ("a.b" +:+ String "." "Add")
       (LastIndex_dot ("a.b" +:+ String "." "Add")) = "a.b"%string
  /\ slice_from ("a.b" +:+ String "." "Add")
       (LastIndex_dot ("a.b" +:+ String "." "Add") + 1) = "Add"%string.
Proof.
  apply (method_reference_split "a.b" "Add"). cbn. lia.
Defined.

(** The successful path of [Message], once the method is found. *)
Lemma Message_found (this : Server) (fd sessionID : Z) (body : list byte)
    (s : Network.Session) (info : string) (rest : list JValue)
    (sInfo : Service) (mInfo : methodType) :
  sessions this !! fd = Some s ->
  json_Unmarshal body = Some (JStr info :: rest) ->
  0 <= LastIndex_dot info ->
  serviceMap this !! slice_to info (LastIndex_dot info) = Some sInfo ->
  methods sInfo !! slice_from info (LastIndex_dot info + 1) = Some mInfo ->
  RpcServer.Message json_Unmarshal json_Marshal this fd sessionID body =
  callArgs ← convert_args (args mInfo) (JStr info :: rest) 0;
  ret ← RunFunc mInfo callArgs;
  match ret with
  | [] => reply this fd s sessionID []
  | _ =>
    match json_Marshal ret with
    | None => Done this
    | Some retBody => reply this fd s sessionID retBody
    end
  end.
Proof.
  intros Hs Hb Hdot Hsvc Hm. unfold RpcServer.Message.
  rewrite Hs, Hb.
  destruct (LastIndex_dot info <? 0) eqn:E; [apply Z.ltb_lt in E; lia|].
  rewrite Hsvc, Hm. reflexivity.
Qed.

Lemma Message_success (this : Server) (fd sessionID : Z)
    (body : list byte) (s : Network.Session) (info : string)
    (rest : list JValue) (sInfo : Service) (mInfo : methodType)
    (callArgs : list RValue) (ret : list JValue) (retBody : list byte) :
  sessions this !! fd = Some s ->
  Network.state s = Network.WORKING ->
  ch_closed (Network.outData s) = false ->
  json_Unmarshal body = Some (JStr info :: rest) ->
  0 <= LastIndex_dot info ->
  serviceMap this !! slice_to info (LastIndex_dot info) = Some sInfo ->
  methods sInfo !! slice_from info (LastIndex_dot info + 1) = Some mInfo ->
  convert_args (args mInfo) (JStr info :: rest) 0 = Done callArgs ->
  method mInfo callArgs = Done ret ->
  (ret = [] /\ retBody = [] \/ ret <> [] /\ json_Marshal ret = Some retBody) ->
  RpcServer.Message json_Unmarshal json_Marshal this fd sessionID body =
  Done (mkServer (serviceMap this)
          (<[fd := Network.set_outData s
                     (mkChan (ch_buf (Network.outData s)
                              ++ [Network.pack sessionID Network.DATA retBody])
                             false)]> (sessions this))).
Proof.
  intros Hs Hst Hopen Hb Hdot Hsvc Hm Hconv Hcall Hret.
  rewrite (Message_found this fd sessionID body s info rest sInfo mInfo)
    by assumption.
  rewrite Hconv. cbn [mbind Outcome_bind]. unfold RunFunc. rewrite Hcall.
  cbn [mbind Outcome_bind].
  assert (Hreply : reply this fd s sessionID retBody =
    Done (mkServer (serviceMap this)
            (<[fd := Network.set_outData s
                       (mkChan (ch_buf (Network.outData s)
                                ++ [Network.pack sessionID Network.DATA
                                      retBody]) false)]> (sessions this)))).
  { unfold reply, Network.Write.
    rewrite doWrite_working by assumption. reflexivity. }
  destruct Hret as [[-> ->]|[Hne Hmar]].
  - exact Hreply.
  - destruct ret as [|r ret']; [congruence|]. rewrite Hmar. exact Hreply.
Qed.

(** X14. A call that succeeds is answered on the session it came from,
    under its own correlation id: when the method is found, its arguments
    convert and it returns, [Message] appends to the outbound queue of
    that session one DATA frame with the correlation id of the call, whose
    body is the encoded results, or the empty body when the method
    returns nothing; the registry and the other sessions are unchanged. *)
Theorem Message_replies (this : Server) (fd sessionID : Z)
    (body : list byte) (s : Network.Session) (info : string)
    (rest : list JValue) (sInfo : Service) (mInfo : methodType)
    (callArgs : list RValue) (ret : list JValue) (retBody : list byte) :
  sessions this !! fd = Some s ->
  Network.state s = Network.WORKING ->
  ch_closed (Network.outData s) = false ->
  json_Unmarshal body = Some (JStr info :: rest) ->
  0 <= LastIndex_dot info ->
  serviceMap this !! slice_to info (LastIndex_dot info) = Some sInfo ->
  methods sInfo !! slice_from info (LastIndex_dot info + 1) = Some mInfo ->
  convert_args (args mInfo) (JStr info :: rest) 0 = Done callArgs ->
  method mInfo callArgs = Done ret ->
  (ret = [] /\ retBody = [] \/ ret <> [] /\ json_Marshal ret = Some retBody) ->
  RpcServer.Message json_Unmarshal json_Marshal this fd sessionID body =
  Done (mkServer (serviceMap this)
          (<[fd := Network.set_outData s
                     (mkChan (ch_buf (Network.outData s)
                              ++ [Network.pack sessionID Network.DATA retBody])
                             false)]> (sessions this))).
Proof. apply Message_success. Qed.

Lemma convert_args_short (tys : list GoType) (args : list JValue) (i : nat) :
  (S i <= length args)%nat ->
  (length args < S i + length tys)%nat ->
  exists msg, convert_args tys args i = Panicked msg.
Proof.
  revert i. induction tys as [|t tys IH]; intros i Hlo Hhi.
  - cbn in Hhi. lia.
  - cbn [convert_args].
    destruct (args !! S i) as [a|] eqn:Ea; [|eexists; reflexivity].
    destruct (Convert a t) as [v|]; [|eexists; reflexivity].
    apply lookup_lt_Some in Ea.
    destruct (IH (S i)) as [msg ->]; [lia | cbn [length] in Hhi; lia|].
    eexists. reflexivity.
Qed.

(** X15. A call with fewer arguments than the method has parameters
    panics: [Message] neither answers nor drops the frame (the loop that
    converts the arguments reads past the end of the decoded array, or
    stops earlier on an argument that does not convert). *)
Theorem Message_too_few_arguments_panics (this : Server)
    (fd sessionID : Z) (body : list byte) (s : Network.Session)
    (info : string) (rest : list JValue) (sInfo : Service)
    (mInfo : methodType) :
  sessions this !! fd = Some s ->
  json_Unmarshal body = Some (JStr info :: rest) ->
  0 <= LastIndex_dot info ->
  serviceMap this !! slice_to info (LastIndex_dot info) = Some sInfo ->
  methods sInfo !! slice_from info (LastIndex_dot info + 1) = Some mInfo ->
  (length rest < length (args mInfo))%nat ->
  exists msg,
    RpcServer.Message json_Unmarshal json_Marshal this fd sessionID body
    = Panicked msg.
Proof.
  intros Hs Hb Hdot Hsvc Hm Hshort.
  rewrite (Message_found this fd sessionID body s info rest sInfo mInfo)
    by assumption.
  destruct (convert_args_short (args mInfo) (JStr info :: rest) 0)
    as [msg ->]; [cbn; lia | cbn; lia |].
  eexists. reflexivity.
Qed.

Lemma convert_args_extra (tys : list GoType) (args extra : list JValue)
    (i : nat) :
  (S i + length tys <= length args)%nat ->
  convert_args tys (args ++ extra) i = convert_args tys args i.
Proof.
  revert i. induction tys as [|t tys IH]; intros i Hlen; [reflexivity|].
  cbn [convert_args length] in *.
  rewrite lookup_app_l by lia.
  destruct (args !! S i) as [a|]; [|reflexivity].
  destruct (Convert a t) as [v|]; [|reflexivity].
  rewrite IH by lia. reflexivity.
Qed.

(** X16. Arguments beyond the parameters of the method are ignored: two
    envelopes that name the same method and differ only by further
    elements after the arguments the method takes are handled alike. *)
Theorem Message_ignores_extra_arguments (this : Server) (fd sessionID : Z)
    (body1 body2 : list byte) (info : string) (rest extra : list JValue) :
  json_Unmarshal body1 = Some (JStr info :: rest) ->
  json_Unmarshal body2 = Some (JStr info :: rest ++ extra) ->
  (forall sInfo mInfo,
     serviceMap this !! slice_to info (LastIndex_dot info) = Some sInfo ->
     methods sInfo !! slice_from info (LastIndex_dot info + 1) = Some mInfo ->
     (length (args mInfo) <= length rest)%nat) ->
  RpcServer.Message json_Unmarshal json_Marshal this fd sessionID body2
  = RpcServer.Message json_Unmarshal json_Marshal this fd sessionID body1.
Proof.
  intros Hb1 Hb2 Hlen. unfold RpcServer.Message.
  destruct (sessions this !! fd) as [s|]; [|reflexivity].
  rewrite Hb1, Hb2.
  destruct (LastIndex_dot info <? 0); [reflexivity|].
  destruct (serviceMap this !! _) as [sInfo|] eqn:Hsvc; [|reflexivity].
  destruct (methods sInfo !! _) as [mInfo|] eqn:Hm; [|reflexivity].
  specialize (Hlen sInfo mInfo eq_refl Hm).
  change (JStr info :: rest ++ extra) with ((JStr info :: rest) ++ extra).
  rewrite convert_args_extra by (cbn [length]; lia).
  reflexivity.
Qed.

(** X17. Registration makes a method callable: on a server where a
    receiver was registered and a session connected, the envelope that
    names the type of the receiver, a dot and one of its methods reaches
    that method with its converted arguments, and the results are sent
    back on that session under the correlation id of the call. *)
Theorem Register_then_call (server0 : Server) (rcvr : Receiver)
    (m : Method) (fd sessionID : Z) (s : Network.Session)
    (body : list byte) (rest : list JValue) (callArgs : list RValue)
    (ret : list JValue) (retBody : list byte) :
  NoDup (map Name (Methods rcvr)) ->
  m ∈ Methods rcvr ->
  LastIndex_dot (Name m) < 0 ->
  Network.state s = Network.WORKING ->
  ch_closed (Network.outData s) = false ->
  json_Unmarshal body
  = Some (JStr (TypeName rcvr +:+ String "." (Name m)) :: rest) ->
  convert_args (In m)
    (JStr (TypeName rcvr +:+ String "." (Name m)) :: rest) 0
  = Done callArgs ->
  Func m callArgs = Done ret ->
  (ret = [] /\ retBody = [] \/ ret <> [] /\ json_Marshal ret = Some retBody) ->
  exists srv,
    RpcServer.Message json_Unmarshal json_Marshal
      (Connect (Register server0 rcvr) fd s) fd sessionID body = Done srv
    /\ Network.outData <$> (sessions srv !! fd)
       = Some (mkChan (ch_buf (Network.outData s)
                       ++ [Network.pack sessionID Network.DATA retBody])
                      false)
    /\ serviceMap srv = serviceMap (Register server0 rcvr).
Proof.
  intros Hnd Hm Hno Hst Hopen Hb Hconv Hcall Hret.
  destruct (split_last_dot (TypeName rcvr) (Name m) Hno) as (Hd & Hsvc & Hmeth).
  eexists. split.
  - eapply (Message_success _ fd sessionID body s _ rest
              (mkService (TypeName rcvr) (method_table (Methods rcvr)))
              (mkMethod (Func m) (In m)) callArgs ret retBody).
    + cbn. apply lookup_insert_eq.
    + exact Hst.
    + exact Hopen.
    + exact Hb.
    + rewrite Hd. lia.
    + rewrite Hsvc. cbn. apply lookup_insert_eq.
    + rewrite Hmeth. cbn. apply method_table_lookup; assumption.
    + exact Hconv.
    + exact Hcall.
    + exact Hret.
  - cbn [sessions serviceMap]. rewrite lookup_insert_eq. split; reflexivity.
Qed.

End DispatchFacts.

Section DispatchExamples.
Import Json Reflect RpcServer.
Local Open Scope Z_scope.

Lemma Message_replies_witness :
  RpcServer.Message unmarshal_subset marshal_subset Samples.math_server
    1 9 Samples.good_call =
  Done (mkServer (serviceMap Samples.math_server)
          (<[1 := Network.set_outData Samples.working_session
                    (mkChan ([] ++ [Network.pack 9 Network.DATA
                                      (bytes_of_string "[7]")]) false)]>
             (sessions Samples.math_server))).
Proof.
  apply (Message_replies unmarshal_subset marshal_subset Samples.math_server
           1 9 Samples.good_call Samples.working_session "Math.Add"
           [JNum 3; JNum 4] Samples.Math_service
           (mkMethod Samples.Math_Add [TInt; TInt])
           [mkRValue TInt (JNum 3); mkRValue TInt (JNum 4)] [JNum 7]
           (bytes_of_string "[7]")); try reflexivity.
  - cbn. lia.
  - right. split; [discriminate|reflexivity].
Defined.

Lemma Message_too_few_arguments_panics_witness :
  exists msg,
    RpcServer.Message unmarshal_subset marshal_subset Samples.math_server
      1 9 Samples.short_call = Panicked msg.
Proof.
  apply (Message_too_few_arguments_panics unmarshal_subset marshal_subset
           Samples.math_server 1 9 Samples.short_call
           Samples.working_session "Math.Add" [JNum 3] Samples.Math_service
           (mkMethod Samples.Math_Add [TInt; TInt])); try reflexivity.
  - cbn. lia.
  - cbn. lia.
Defined.

Lemma Message_ignores_extra_arguments_witness :
  RpcServer.Message unmarshal_subset marshal_subset Samples.math_server
    1 9 Samples.long_call
  = RpcServer.Message unmarshal_subset marshal_subset Samples.math_server
      1 9 Samples.good_call.
Proof.
  apply (Message_ignores_extra_arguments unmarshal_subset marshal_subset
           Samples.math_server 1 9 Samples.good_call Samples.long_call
           "Math.Add" [JNum 3; JNum 4] [JBool true; JNull]);
    try reflexivity.
  intros sInfo mInfo Hsvc Hm.
  assert (Hs : serviceMap Samples.math_server
                 !! slice_to "Math.Add" (LastIndex_dot "Math.Add")
               = Some Samples.Math_service) by reflexivity.
  rewrite Hs in Hsvc. injection Hsvc as <-.
  assert (Ha : methods Samples.Math_service
                 !! slice_from "Math.Add" (LastIndex_dot "Math.Add" + 1)
               = Some (mkMethod Samples.Math_Add [TInt; TInt]))
    by reflexivity.
  rewrite Ha in Hm. injection Hm as <-. cbn. lia.
Defined.

Lemma Register_then_call_witness :
  exists srv,
    RpcServer.Message unmarshal_subset marshal_subset
      Samples.registered_server 1 9 Samples.ping_call = Done srv
    /\ Network.outData <$> (sessions srv !! 1)
       = Some (mkChan ([] ++ [Network.pack 9 Network.DATA []]) false)
    /\ serviceMap srv
       = serviceMap (Register (mkServer ∅ ∅) Samples.Math_receiver).
Proof.
  apply (Register_then_call unmarshal_subset marshal_subset
           (mkServer ∅ ∅) Samples.Math_receiver
           (mkReflectMethod "Ping" [] (fun _ => Done []))
           1 9 Samples.working_session Samples.ping_call [] [] [] []);
    try reflexivity.
  - cbn. apply NoDup_cons. split; [|apply NoDup_singleton].
    intros Hin. apply list_elem_of_singleton in Hin. discriminate.
  - cbn. right. left.
  - left. split; reflexivity.
Defined.

End DispatchExamples.

(** ** RPC client: closing, answered calls, sends *)

Section ClientCloseFacts.
Import Json RpcClient.
Local Open Scope Z_scope.

(** The loop of [Close] over a list of entries of the table without
    repeated id: it returns; the listed ids leave the table and their
    waiters are closed; nothing else changes. *)
Lemma close_waiters_spec (entries : list (Z * nat)) (this : Client) :
  NoDup entries.*1 ->
  (forall id w, (id, w) ∈ entries -> callRet this !! id = Some w) ->
  (forall id1 id2 w,
     callRet this !! id1 = Some w -> callRet this !! id2 = Some w ->
     id1 = id2) ->
  (forall id w, callRet this !! id = Some w ->
     ch_closed (chan_at this w) = false) ->
  exists this',
    close_waiters entries this = Done this'
    /\ (forall id, id ∈ entries.*1 -> callRet this' !! id = None)
    /\ (forall id, id ∉ entries.*1 ->
        callRet this' !! id = callRet this !! id)
    /\ (forall id w, (id, w) ∈ entries ->
        chan_at this' w = mkChan (ch_buf (chan_at this w)) true)
    /\ (forall w, w ∉ entries.*2 -> chan_at this' w = chan_at this w)
    /\ next_chan this' = next_chan this
    /\ msgCounter this' = msgCounter this
    /\ session this' = session this.
Proof.
  revert this. induction entries as [|[id w] rest IH];
    intros this Hnd Hin Hinj Hopen.
  - exists this. cbn. split; [reflexivity|].
    split; [intros ? H; inversion H|].
    split; [reflexivity|]. split; [intros ? ? H; inversion H|].
    repeat split; reflexivity.
  - cbn [fmap list_fmap fst] in Hnd. apply NoDup_cons in Hnd as [Hid Hnd].
    assert (Hw : callRet this !! id = Some w) by (apply Hin; left).
    cbn [close_waiters]. unfold chan_close.
    replace (chan_at (set_callRet this (delete id (callRet this))) w)
      with (chan_at this w) by reflexivity.
    rewrite (Hopen _ _ Hw). cbn [mbind Outcome_bind].
    set (this1 := set_chan (set_callRet this (delete id (callRet this))) w
                    (mkChan (ch_buf (chan_at this w)) true)).
    assert (Hrest_ne : forall id' w', (id', w') ∈ rest -> id' <> id).
    { intros id' w' Hmem ->. apply Hid.
      apply list_elem_of_fmap. exists (id, w'). split; [reflexivity|exact Hmem]. }
    assert (Hw_rest : w ∉ rest.*2).
    { intros Hmem. apply list_elem_of_fmap in Hmem as [[id' w'] [Heq Hmem]].
      cbn in Heq. subst w'.
      apply (Hrest_ne id' w Hmem). eapply Hinj; [|exact Hw].
      apply Hin. right. exact Hmem. }
    destruct (IH this1) as (this' & Hrun & Ha & Hb & Hc & Hd & He & Hf & Hg).
    + exact Hnd.
    + intros id' w' Hmem. subst this1. cbn [callRet set_chan set_callRet].
      rewrite lookup_delete_ne by (intros <-; eapply Hrest_ne; eauto).
      apply Hin. right. exact Hmem.
    + intros id1 id2 w' H1 H2. subst this1.
      cbn [callRet set_chan set_callRet] in H1, H2.
      apply lookup_delete_Some in H1 as [_ H1].
      apply lookup_delete_Some in H2 as [_ H2]. eapply Hinj; eassumption.
    + intros id' w' H1. subst this1. cbn [callRet set_chan set_callRet] in H1.
      apply lookup_delete_Some in H1 as [Hne H1].
      assert (w' <> w) by (intros ->; apply Hne; eapply Hinj; eassumption).
      unfold chan_at. cbn [chans set_chan set_callRet].
      rewrite lookup_insert_ne by congruence. apply (Hopen _ _ H1).
    + exists this'. split; [exact Hrun|].
      split; [|split; [|split; [|split]]].
      * intros id0 Hmem. cbn [fmap list_fmap fst] in Hmem.
        apply elem_of_cons in Hmem as [->|Hmem]; [|apply Ha; exact Hmem].
        rewrite Hb by exact Hid. subst this1.
        cbn [callRet set_chan set_callRet]. apply lookup_delete_eq.
      * intros id0 Hmem. cbn [fmap list_fmap fst] in Hmem.
        apply not_elem_of_cons in Hmem as [Hne Hmem].
        rewrite Hb by exact Hmem. subst this1.
        cbn [callRet set_chan set_callRet]. apply lookup_delete_ne. congruence.
      * intros id0 w0 Hmem. apply elem_of_cons in Hmem as [Heq|Hmem].
        -- injection Heq as -> ->. rewrite Hd by exact Hw_rest.
           subst this1. unfold chan_at at 1. cbn [chans set_chan set_callRet].
           rewrite lookup_insert_eq. reflexivity.
        -- rewrite (Hc _ _ Hmem). f_equal.
           assert (w0 <> w).
           { intros ->. apply Hw_rest. apply list_elem_of_fmap.
             exists (id0, w). split; [reflexivity|exact Hmem]. }
           subst this1. unfold chan_at. cbn [chans set_chan set_callRet].
           rewrite lookup_insert_ne by congruence. reflexivity.
      * intros w0 Hmem. cbn [fmap list_fmap snd] in Hmem.
        apply not_elem_of_cons in Hmem as [Hne Hmem].
        rewrite Hd by exact Hmem. subst this1.
        unfold chan_at. cbn [chans set_chan set_callRet].
        rewrite lookup_insert_ne by congruence. reflexivity.
      * subst this1. cbn in *. auto.
Qed.

(** What [Close] does to a well-formed table. *)
Lemma Close_spec (this : Client) :
  well_formed this ->
  exists this',
    Close this = Done this'
    /\ callRet this' = ∅
    /\ (forall id w, callRet this !! id = Some w ->
        chan_at this' w = mkChan (ch_buf (chan_at this w)) true)
    /\ (forall w, (forall id, callRet this !! id <> Some w) ->
        chan_at this' w = chan_at this w)
    /\ next_chan this' = next_chan this
    /\ msgCounter this' = msgCounter this
    /\ session this' = session this.
Proof.
  intros (Hlt & Hinj & Hfresh). unfold Close.
  destruct (close_waiters_spec (map_to_list (callRet this)) this)
    as (this' & Hrun & Ha & Hb & Hc & Hd & He & Hf & Hg).
  - apply NoDup_fst_map_to_list.
  - intros id w Hmem. apply elem_of_map_to_list in Hmem. exact Hmem.
  - exact Hinj.
  - intros id w Hl. apply (Hlt _ _ Hl).
  - exists this'. split; [exact Hrun|]. split; [|split; [|split]].
    + apply map_eq. intros id. rewrite lookup_empty.
      destruct (callRet this !! id) as [w|] eqn:El.
      * apply Ha. apply list_elem_of_fmap. exists (id, w).
        split; [reflexivity|]. apply elem_of_map_to_list. exact El.
      * rewrite Hb; [exact El|].
        intros Hmem. apply list_elem_of_fmap in Hmem as [[id' w] [Heq Hmem]].
        cbn in Heq. subst id'. apply elem_of_map_to_list in Hmem. congruence.
    + intros id w Hl. apply (Hc id). apply elem_of_map_to_list. exact Hl.
    + intros w Hw. apply Hd.
      intros Hmem. apply list_elem_of_fmap in Hmem as [[id w'] [Heq Hmem]].
      cbn in Heq. subst w'. apply elem_of_map_to_list in Hmem.
      apply (Hw id). exact Hmem.
    + auto.
Qed.

(** X18. [Close] releases every pending call: on a client with a
    well-formed table it returns, the table is empty, the waiter of every
    call that was pending is closed (what it held is kept), and no other
    channel, nor the session, nor the counter is touched. *)
Theorem Close_releases_all_waiters (this : Client) :
  well_formed this ->
  exists this',
    Close this = Done this'
    /\ callRet this' = ∅
    /\ (forall id w, callRet this !! id = Some w ->
        chan_at this' w = mkChan (ch_buf (chan_at this w)) true)
    /\ (forall w, (forall id, callRet this !! id <> Some w) ->
        chan_at this' w = chan_at this w)
    /\ msgCounter this' = msgCounter this
    /\ session this' = session this.
Proof.
  intros Hwf.
  destruct (Close_spec this Hwf) as (this' & H1 & H2 & H3 & H4 & _ & H6 & H7).
  exists this'. auto 10.
Qed.

Lemma Close_releases_all_waiters_witness :
  exists this',
    Close Samples.pending_client = Done this'
    /\ callRet this' = ∅
    /\ (forall id w, callRet Samples.pending_client !! id = Some w ->
        chan_at this' w
        = mkChan (ch_buf (chan_at Samples.pending_client w)) true)
    /\ (forall w, (forall id, callRet Samples.pending_client !! id <> Some w) ->
        chan_at this' w = chan_at Samples.pending_client w)
    /\ msgCounter this' = msgCounter Samples.pending_client
    /\ session this' = session Samples.pending_client.
Proof.
  apply (Close_releases_all_waiters Samples.pending_client).
  split; [|split].
  - intros id w Hl. cbn in Hl.
    apply lookup_singleton_Some in Hl as [_ <-]. split; [cbn; lia|reflexivity].
  - intros id1 id2 w H1 H2. cbn in H1, H2.
    apply lookup_singleton_Some in H1 as [<- _].
    apply lookup_singleton_Some in H2 as [<- _]. reflexivity.
  - intros w _. apply lookup_empty.
Defined.

End ClientCloseFacts.

Section ClientCallFacts.
Import Json RpcClient.
Local Open Scope Z_scope.

Variable json_Unmarshal : Unmarshal.
Variable json_Marshal : Marshal.

(** The loop of [Close], when it returns: the table only shrinks, and a
    channel that was closed before is not touched (closing it again would
    have panicked). *)
Lemma close_waiters_shrinks (entries : list (Z * nat)) (this this' : Client) :
  close_waiters entries this = Done this' ->
  forall id, callRet this !! id = None -> callRet this' !! id = None.
Proof.
  revert this. induction entries as [|[id1 w1] rest IH]; intros this Hrun id Hn.
  - cbn in Hrun. injection Hrun as <-. exact Hn.
  - cbn [close_waiters] in Hrun.
    destruct (chan_close _) as [c|msg]; [|discriminate].
    cbn [mbind Outcome_bind] in Hrun. apply (IH _ Hrun).
    cbn [callRet set_chan set_callRet]. apply lookup_delete_None. auto.
Qed.

Lemma close_waiters_closed_stay (entries : list (Z * nat))
    (this this' : Client) :
  close_waiters entries this = Done this' ->
  forall w, ch_closed (chan_at this w) = true ->
  chan_at this' w = chan_at this w.
Proof.
  revert this. induction entries as [|[id1 w1] rest IH]; intros this Hrun w Hc.
  - cbn in Hrun. injection Hrun as <-. reflexivity.
  - cbn [close_waiters] in Hrun. unfold chan_close in Hrun.
    replace (chan_at (set_callRet this (delete id1 (callRet this))) w1)
      with (chan_at this w1) in Hrun by reflexivity.
    destruct (ch_closed (chan_at this w1)) eqn:E1; [discriminate|].
    cbn [mbind Outcome_bind] in Hrun.
    assert (Hne : w <> w1) by congruence.
    rewrite (IH _ Hrun w).
    + unfold chan_at. cbn [chans set_chan set_callRet].
      rewrite lookup_insert_ne by congruence. reflexivity.
    + unfold chan_at. cbn [chans set_chan set_callRet].
      rewrite lookup_insert_ne by congruence. exact Hc.
Qed.

Lemma close_waiters_Done (entries : list (Z * nat)) (this this' : Client)
    (id : Z) (w : nat) :
  close_waiters entries this = Done this' ->
  (id, w) ∈ entries ->
  callRet this' !! id = None
  /\ chan_at this' w = mkChan (ch_buf (chan_at this w)) true.
Proof.
  revert this. induction entries as [|[id1 w1] rest IH]; intros this Hrun Hin.
  - apply elem_of_nil in Hin. contradiction.
  - cbn [close_waiters] in Hrun. unfold chan_close in Hrun.
    replace (chan_at (set_callRet this (delete id1 (callRet this))) w1)
      with (chan_at this w1) in Hrun by reflexivity.
    destruct (ch_closed (chan_at this w1)) eqn:E1; [discriminate|].
    cbn [mbind Outcome_bind] in Hrun.
    set (this1 := set_chan (set_callRet this (delete id1 (callRet this))) w1
                    (mkChan (ch_buf (chan_at this w1)) true)) in *.
    assert (Hw1 : chan_at this1 w1 = mkChan (ch_buf (chan_at this w1)) true).
    { subst this1. unfold chan_at at 1. cbn [chans set_chan set_callRet].
      rewrite lookup_insert_eq. reflexivity. }
    apply elem_of_cons in Hin as [Heq|Hin].
    + injection Heq as -> ->. split.
      * apply (close_waiters_shrinks _ _ _ Hrun). subst this1.
        cbn [callRet set_chan set_callRet]. apply lookup_delete_eq.
      * rewrite (close_waiters_closed_stay _ _ _ Hrun w1);
          rewrite Hw1; reflexivity.
    + destruct (IH _ Hrun Hin) as [A B]. split; [exact A|].
      rewrite B. f_equal. destruct (decide (w = w1)) as [->|Hne].
      * rewrite Hw1. reflexivity.
      * subst this1. unfold chan_at. cbn [chans set_chan set_callRet].
        rewrite lookup_insert_ne by congruence. reflexivity.
Qed.

(** When [Close] returns, every call that was pending has left the table
    and its waiter is closed. *)
Lemma Close_Done (this this' : Client) (id : Z) (w : nat) :
  Close this = Done this' ->
  callRet this !! id = Some w ->
  callRet this' !! id = None
  /\ chan_at this' w = mkChan (ch_buf (chan_at this w)) true.
Proof.
  intros Hrun Hl. apply (close_waiters_Done _ _ _ _ _ Hrun).
  apply elem_of_map_to_list. exact Hl.
Qed.

(** The state in which a registered call waits, and what the steps of
    the other goroutines keep of it. *)
Lemma Call_waits (this : Client) (v : list JValue) (fd : Z)
    (events : list Event) (body : list byte) (s : Network.Session) :
  well_formed this ->
  session this = Some s ->
  Network.state s <> Network.WORKING
  \/ ch_closed (Network.outData s) = false ->
  json_Marshal v = Some body ->
  (forall id b, EvFrame id b ∈ events ->
     id <> Wire.uint16 (msgCounter this + 1) \/ json_Unmarshal b = None) ->
  (forall id w, EvFinish id w ∈ events ->
     id <> Wire.uint16 (msgCounter this + 1) /\ w <> next_chan this) ->
  EvClose ∉ events ->
  exists this1,
    Call_request json_Marshal this v =
      Done (Some (Wire.uint16 (msgCounter this + 1), next_chan this), this1)
    /\ forall this2,
         react json_Unmarshal this1 fd events = Done this2 ->
         callRet this2 !! Wire.uint16 (msgCounter this + 1)
         = Some (next_chan this)
         /\ chan_at this2 (next_chan this) = chan_make
         /\ next_chan this ∈ receivers this2.
Proof.
  intros Hwf Hs Hok Hbody Hfr Hfi Hcl.
  destruct (Call_request_registers json_Marshal this v body s Hs Hok Hbody)
    as (s' & _ & Hreq).
  set (id := Wire.uint16 (msgCounter this + 1)) in *.
  set (w := next_chan this) in *.
  eexists. split; [exact Hreq|]. intros this2 Hrun.
  pose proof (register_well_formed this id (Some s')
                ({[w]} ∪ receivers this) (senders this) Hwf) as Hwf1.
  fold w in Hwf1. destruct Hwf1 as (_ & Hinj1 & _).
  destruct (react_keeps json_Unmarshal events _ this2 fd id w Hinj1)
    as (H2 & Hch & Hrecv & _); try assumption.
  { apply lookup_insert_eq. }
  split; [exact H2|]. split.
  - rewrite Hch. unfold chan_at. cbn [chans].
    destruct Hwf as (_ & _ & Hfresh).
    rewrite (Hfresh w) by (subst w; lia). reflexivity.
  - apply Hrecv. cbn [receivers]. apply elem_of_union. left.
    apply elem_of_singleton. reflexivity.
Qed.

Lemma Call_first_response (this : Client) (v : list JValue)
    (fd : Z) (before : list Event) (body rbody : list byte)
    (args : list JValue) (s : Network.Session) :
  well_formed this ->
  session this = Some s ->
  Network.state s <> Network.WORKING
  \/ ch_closed (Network.outData s) = false ->
  json_Marshal v = Some body ->
  (forall id b, EvFrame id b ∈ before ->
     id <> Wire.uint16 (msgCounter this + 1) \/ json_Unmarshal b = None) ->
  (forall id w, EvFinish id w ∈ before ->
     id <> Wire.uint16 (msgCounter this + 1) /\ w <> next_chan this) ->
  EvClose ∉ before ->
  json_Unmarshal rbody = Some args ->
  exists this1,
    Call_request json_Marshal this v =
      Done (Some (Wire.uint16 (msgCounter this + 1), next_chan this), this1)
    /\ forall this2,
         react json_Unmarshal this1 fd before = Done this2 ->
         exists this',
           Call json_Unmarshal json_Marshal this v fd
             (before ++ [EvFrame (Wire.uint16 (msgCounter this + 1)) rbody])
           = Done (args, this')
           /\ callRet this' !! Wire.uint16 (msgCounter this + 1)
              = Some (next_chan this)
           /\ chan_at this' (next_chan this) = chan_make
           /\ (next_chan this ∉ receivers this')
           /\ session this' = session this2
           /\ exists this'',
                Message_rest this' (Wire.uint16 (msgCounter this + 1))
                  (next_chan this) = Done this''
                /\ callRet this'' !! Wire.uint16 (msgCounter this + 1) = None
                /\ chan_at this'' (next_chan this) = mkChan [] true.
Proof.
  intros Hwf Hs Hok Hbody Hfr Hfi Hcl Hr.
  destruct (Call_waits this v fd before body s Hwf Hs Hok Hbody Hfr Hfi Hcl)
    as (this1 & Hreq & Hkeep).
  set (id := Wire.uint16 (msgCounter this + 1)) in *.
  set (w := next_chan this) in *.
  exists this1. split; [exact Hreq|]. intros this2 Hrun.
  destruct (Hkeep this2 Hrun) as (H2 & Hch & Hrecv).
  unfold Call. rewrite Hreq. cbn [mbind Outcome_bind].
  rewrite react_app, Hrun. cbn [mbind Outcome_bind react].
  unfold Message_send. rewrite H2, Hr.
  rewrite send_receiving by (rewrite ?Hch; auto).
  cbn [mbind Outcome_bind fst]. rewrite Hch. cbn [ch_buf chan_make app].
  unfold Call_select.
  match goal with
  | |- context [chan_recv ?c] =>
    replace c with (mkChan [args] false)
      by (unfold chan_at; cbn [chans set_receivers set_chan];
          rewrite lookup_insert_eq; reflexivity)
  end.
  cbn [chan_recv ch_buf ch_closed].
  eexists. split; [reflexivity|].
  split; [exact H2|]. split.
  { unfold leave, chan_at. cbn [chans set_receivers set_chan].
    rewrite lookup_insert_eq. reflexivity. }
  split.
  { unfold leave. cbn [receivers set_receivers set_chan].
    rewrite !elem_of_difference, elem_of_singleton. tauto. }
  split; [reflexivity|].
  unfold Message_rest, chan_close, leave.
  match goal with
  | |- context [ch_closed ?c] =>
    replace c with (mkChan (@nil (list JValue)) false)
      by (unfold chan_at; cbn [chans set_callRet set_receivers set_chan];
          rewrite lookup_insert_eq; reflexivity)
  end.
  cbn [ch_closed ch_buf mbind Outcome_bind].
  eexists. split; [reflexivity|]. split.
  - cbn [callRet set_chan set_callRet]. apply lookup_delete_eq.
  - apply chan_at_set_chan_eq.
Qed.

(** X19. A call is resolved by the first goroutine of [Message] that
    reaches its send with the correlation id of the call and a body that
    decodes: whatever the other goroutines do before without delivering to
    the call, closing the connection or panicking, [Call] returns the
    decoded elements of that frame.  When the value is handed over the
    entry is still in the table and the waiter open: they go when the
    goroutine that delivered runs on, which then deletes the entry and
    closes the waiter. *)
Theorem Call_returns_first_response (this : Client) (v : list JValue)
    (fd : Z) (before : list Event) (body rbody : list byte)
    (args : list JValue) (s : Network.Session) :
  well_formed this ->
  session this = Some s ->
  Network.state s <> Network.WORKING
  \/ ch_closed (Network.outData s) = false ->
  json_Marshal v = Some body ->
  (forall id b, EvFrame id b ∈ before ->
     id <> Wire.uint16 (msgCounter this + 1) \/ json_Unmarshal b = None) ->
  (forall id w, EvFinish id w ∈ before ->
     id <> Wire.uint16 (msgCounter this + 1) /\ w <> next_chan this) ->
  EvClose ∉ before ->
  json_Unmarshal rbody = Some args ->
  exists this1,
    Call_request json_Marshal this v =
      Done (Some (Wire.uint16 (msgCounter this + 1), next_chan this), this1)
    /\ forall this2,
         react json_Unmarshal this1 fd before = Done this2 ->
         exists this',
           Call json_Unmarshal json_Marshal this v fd
             (before ++ [EvFrame (Wire.uint16 (msgCounter this + 1)) rbody])
           = Done (args, this')
           /\ callRet this' !! Wire.uint16 (msgCounter this + 1)
              = Some (next_chan this)
           /\ chan_at this' (next_chan this) = chan_make
           /\ (next_chan this ∉ receivers this')
           /\ exists this'',
                Message_rest this' (Wire.uint16 (msgCounter this + 1))
                  (next_chan this) = Done this''
                /\ callRet this'' !! Wire.uint16 (msgCounter this + 1) = None
                /\ chan_at this'' (next_chan this) = mkChan [] true.
Proof.
  intros Hwf Hs Hok Hbody Hfr Hfi Hcl Hr.
  destruct (Call_first_response this v fd before body rbody args s
              Hwf Hs Hok Hbody Hfr Hfi Hcl Hr) as (this1 & Hreq & Hrun).
  exists this1. split; [exact Hreq|]. intros this2 H2.
  destruct (Hrun this2 H2) as (this' & A & B & C & D & _ & E).
  exists this'. auto.
Qed.

(** X20. A call that is pending when the connection closes is released:
    when nothing was delivered to it before and no goroutine panics,
    [Close] deletes its entry and closes its waiter, and [Call] takes the
    receive case on the closed waiter and returns nil, without waiting for
    the timer; its entry is not in the table when it returns. *)
Theorem Call_released_by_close (this : Client) (v : list JValue) (fd : Z)
    (before : list Event) (body : list byte) (s : Network.Session) :
  well_formed this ->
  session this = Some s ->
  Network.state s <> Network.WORKING
  \/ ch_closed (Network.outData s) = false ->
  json_Marshal v = Some body ->
  (forall id b, EvFrame id b ∈ before ->
     id <> Wire.uint16 (msgCounter this + 1) \/ json_Unmarshal b = None) ->
  (forall id w, EvFinish id w ∈ before ->
     id <> Wire.uint16 (msgCounter this + 1) /\ w <> next_chan this) ->
  EvClose ∉ before ->
  exists this1,
    Call_request json_Marshal this v =
      Done (Some (Wire.uint16 (msgCounter this + 1), next_chan this), this1)
    /\ forall this2,
         react json_Unmarshal this1 fd (before ++ [EvClose]) = Done this2 ->
         exists this',
           Call json_Unmarshal json_Marshal this v fd (before ++ [EvClose])
           = Done ([], this')
           /\ chan_recv (chan_at this2 (next_chan this)) = RecvClosed
           /\ callRet this' !! Wire.uint16 (msgCounter this + 1) = None
           /\ chan_at this' (next_chan this) = mkChan [] true.
Proof.
  intros Hwf Hs Hok Hbody Hfr Hfi Hcl.
  destruct (Call_waits this v fd before body s Hwf Hs Hok Hbody Hfr Hfi Hcl)
    as (this1 & Hreq & Hkeep).
  set (id := Wire.uint16 (msgCounter this + 1)) in *.
  set (w := next_chan this) in *.
  exists this1. split; [exact Hreq|]. intros this2 Hrun.
  unfold Call. rewrite Hreq. cbn [mbind Outcome_bind]. rewrite Hrun.
  cbn [mbind Outcome_bind].
  rewrite react_app in Hrun.
  destruct (react json_Unmarshal this1 fd before) as [thisB|msg] eqn:HB;
    [|discriminate].
  cbn [mbind Outcome_bind react] in Hrun.
  destruct (Close thisB) as [thisC|msg] eqn:HC; [|discriminate].
  cbn [mbind Outcome_bind] in Hrun.
  destruct (wake_senders thisC) as [thisD|msg] eqn:HD; [|discriminate].
  apply wake_senders_Done in HD. subst thisD.
  cbn [mbind Outcome_bind] in Hrun. injection Hrun as <-.
  destruct (Hkeep thisB eq_refl) as (H2 & Hch & _).
  destruct (Close_Done thisB thisC id w HC H2) as [Hgone Hclosed].
  rewrite Hch in Hclosed. cbn [ch_buf chan_make] in Hclosed.
  unfold Call_select. rewrite Hclosed. cbn [chan_recv ch_buf ch_closed].
  eexists. split; [reflexivity|]. split; [reflexivity|].
  split; [exact Hgone|exact Hclosed].
Qed.

Lemma close_waiters_senders (entries : list (Z * nat)) (this this' : Client) :
  close_waiters entries this = Done this' -> senders this' = senders this.
Proof.
  revert this. induction entries as [|[id1 w1] rest IH]; intros this Hrun.
  - cbn in Hrun. injection Hrun as <-. reflexivity.
  - cbn [close_waiters] in Hrun.
    destruct (chan_close _) as [c|msg]; [|discriminate].
    cbn [mbind Outcome_bind] in Hrun. rewrite (IH _ Hrun). reflexivity.
Qed.

(** X30. A response that comes after its call has timed out is never
    taken: the entry of the call is still in the table, nobody receives
    from its waiter, and the goroutine of [Message] stays parked at its
    send, the entry and the waiter left as they were.  When the
    connection closes after that, [Close] closes the waiter under the
    parked goroutine, which panics. *)
Theorem late_response_parks (this : Client) (fd sessionID : Z)
    (body : list byte) (w : nat) (args : list JValue) :
  well_formed this ->
  callRet this !! sessionID = Some w ->
  json_Unmarshal body = Some args ->
  w ∉ receivers this ->
  RpcClient.Message json_Unmarshal this fd sessionID body
  = Done (set_senders this (senders this ++ [(w, args)]))
  /\ react json_Unmarshal this fd [EvFrame sessionID body]
     = Done (set_senders this (senders this ++ [(w, args)]))
  /\ react json_Unmarshal this fd [EvFrame sessionID body; EvClose]
     = Panicked "send on closed channel".
Proof.
  intros Hwf Hw Hb Hrecv.
  pose proof Hwf as (Hlt & _ & _). destruct (Hlt _ _ Hw) as [_ Hopen].
  split; [apply Message_parked; assumption|].
  assert (Hsend : Message_send json_Unmarshal this fd sessionID body
                  = Done (set_senders this (senders this ++ [(w, args)]),
                          false)).
  { unfold Message_send. rewrite Hw, Hb. apply send_parked; assumption. }
  split.
  - cbn [react]. rewrite Hsend. reflexivity.
  - cbn [react]. rewrite Hsend. cbn [mbind Outcome_bind fst].
    set (this1 := set_senders this (senders this ++ [(w, args)])).
    assert (Hwf1 : well_formed this1) by exact Hwf.
    destruct (Close_spec this1 Hwf1) as (this2 & Hc & _ & Hcl & _).
    rewrite Hc. cbn [mbind Outcome_bind].
    unfold wake_senders.
    replace (existsb _ (senders this2)) with true; [reflexivity|].
    symmetry. apply existsb_exists. exists (w, args). split.
    + unfold Close in Hc. rewrite (close_waiters_senders _ _ _ Hc).
      subst this1. cbn [senders set_senders]. apply in_or_app. right. left.
      reflexivity.
    + cbn [fst]. rewrite (Hcl sessionID w Hw). reflexivity.
Qed.

(** X21. [Send] is fire and forget: on a connected WORKING session it
    draws the next id of the counter, enqueues one DATA frame with that id
    and the encoded arguments, and registers nothing (the table and the
    waiters are untouched), so that a response to it is ignored unless a
    call is pending under the same id. *)
Theorem Send_registers_nothing (this : Client) (v : list JValue)
    (body : list byte) (s : Network.Session) :
  session this = Some s ->
  Network.state s = Network.WORKING ->
  ch_closed (Network.outData s) = false ->
  json_Marshal v = Some body ->
  exists this',
    Send json_Marshal this v = Done this'
    /\ callRet this' = callRet this
    /\ chans this' = chans this
    /\ next_chan this' = next_chan this
    /\ msgCounter this' = Wire.uint16 (msgCounter this + 1)
    /\ session this' =
       Some (Network.set_outData s
               (mkChan (ch_buf (Network.outData s)
                        ++ [Network.pack (Wire.uint16 (msgCounter this + 1))
                              Network.DATA body]) false))
    /\ (callRet this !! Wire.uint16 (msgCounter this + 1) = None ->
        forall fd rbody,
          RpcClient.Message json_Unmarshal this' fd
            (Wire.uint16 (msgCounter this + 1)) rbody = Done this').
Proof.
  intros Hs Hst Hopen Hbody. unfold Send, WriteData, GetSessionID.
  rewrite Hbody. cbn [session]. rewrite Hs.
  rewrite doWrite_working by assumption. cbn [mbind Outcome_bind snd].
  eexists. split; [reflexivity|]. cbn [callRet chans next_chan msgCounter
    session]. repeat (split; [reflexivity|]).
  intros Hnone fd rbody. unfold RpcClient.Message. cbn [callRet].
  rewrite Hnone. reflexivity.
Qed.

End ClientCallFacts.

Section ClientCallExamples.
Import Json RpcClient.
Local Open Scope Z_scope.

Lemma idle_client_well_formed : well_formed Samples.idle_client.
Proof.
  split; [|split].
  - intros id w H. cbn in H. rewrite lookup_empty in H. discriminate.
  - intros id1 id2 w H. cbn in H. rewrite lookup_empty in H. discriminate.
  - intros w _. apply lookup_empty.
Defined.

(** The client in which a call on [Samples.idle_client] waits. *)
Lemma idle_client_request :
  Call_request marshal_subset Samples.idle_client
    [JStr "Math.Add"; JNum 3; JNum 4]
  = Done (Some (1, 0%nat),
          mkClient {[ 1 := 0%nat ]} ∅ 1 1
            (Some (Network.set_outData Samples.working_session
                     (mkChan [Network.pack 1 Network.DATA Samples.good_call]
                        false)))
            ({[0%nat]} ∪ ∅) []).
Proof. reflexivity. Defined.

Lemma Call_returns_first_response_witness :
  exists this',
    Call unmarshal_subset marshal_subset Samples.idle_client
      [JStr "Math.Add"; JNum 3; JNum 4] 1
      ([EvFrame 1 Samples.not_json; EvFrame 9 (bytes_of_string "[8]")]
       ++ [EvFrame (Wire.uint16 (msgCounter Samples.idle_client + 1))
             (bytes_of_string "[7]")])
    = Done ([JNum 7], this')
    /\ callRet this' !! Wire.uint16 (msgCounter Samples.idle_client + 1)
       = Some (next_chan Samples.idle_client)
    /\ chan_at this' (next_chan Samples.idle_client) = chan_make
    /\ (next_chan Samples.idle_client ∉ receivers this')
    /\ exists this'',
         Message_rest this' (Wire.uint16 (msgCounter Samples.idle_client + 1))
           (next_chan Samples.idle_client) = Done this''
         /\ callRet this''
              !! Wire.uint16 (msgCounter Samples.idle_client + 1) = None
         /\ chan_at this'' (next_chan Samples.idle_client) = mkChan [] true.
Proof.
  destruct (Call_returns_first_response unmarshal_subset marshal_subset
              Samples.idle_client [JStr "Math.Add"; JNum 3; JNum 4] 1
              [EvFrame 1 Samples.not_json; EvFrame 9 (bytes_of_string "[8]")]
              Samples.good_call (bytes_of_string "[7]") [JNum 7]
              Samples.working_session) as (this1 & Hreq & Hrun).
  - exact idle_client_well_formed.
  - reflexivity.
  - right. reflexivity.
  - reflexivity.
  - intros id b Hin. repeat (apply elem_of_cons in Hin as [Heq|Hin]);
      try (apply elem_of_nil in Hin; contradiction).
    + injection Heq as -> ->. right. reflexivity.
    + injection Heq as -> ->. left. discriminate.
  - intros id w Hin. repeat (apply elem_of_cons in Hin as [Heq|Hin]);
      try discriminate. apply elem_of_nil in Hin. contradiction.
  - intros Hin. repeat (apply elem_of_cons in Hin as [Heq|Hin]);
      try discriminate. apply elem_of_nil in Hin. contradiction.
  - reflexivity.
  - rewrite idle_client_request in Hreq. injection Hreq as <-.
    eapply Hrun. reflexivity.
Defined.

Lemma Call_released_by_close_witness :
  exists this',
    Call unmarshal_subset marshal_subset Samples.idle_client
      [JStr "Math.Add"; JNum 3; JNum 4] 1
      ([EvFrame 1 Samples.not_json] ++ [EvClose])
    = Done ([], this')
    /\ callRet this' !! Wire.uint16 (msgCounter Samples.idle_client + 1)
       = None
    /\ chan_at this' (next_chan Samples.idle_client) = mkChan [] true.
Proof.
  destruct (Call_released_by_close unmarshal_subset marshal_subset
              Samples.idle_client [JStr "Math.Add"; JNum 3; JNum 4] 1
              [EvFrame 1 Samples.not_json]
              Samples.good_call Samples.working_session)
    as (this1 & Hreq & Hrun).
  - exact idle_client_well_formed.
  - reflexivity.
  - right. reflexivity.
  - reflexivity.
  - intros id b Hin. apply list_elem_of_singleton in Hin.
    injection Hin as -> ->. right. reflexivity.
  - intros id w Hin. apply list_elem_of_singleton in Hin. discriminate.
  - intros Hin. apply list_elem_of_singleton in Hin. discriminate.
  - rewrite idle_client_request in Hreq. injection Hreq as <-.
    edestruct Hrun as (this' & A & _ & B & C); [reflexivity|].
    exists this'. auto.
Defined.

Lemma late_response_parks_witness :
  RpcClient.Message unmarshal_subset Samples.timed_out_client 1 7
    (bytes_of_string "[7]")
  = Done (set_senders Samples.timed_out_client
            (senders Samples.timed_out_client ++ [(0%nat, [JNum 7])]))
  /\ react unmarshal_subset Samples.timed_out_client 1
       [EvFrame 7 (bytes_of_string "[7]")]
     = Done (set_senders Samples.timed_out_client
               (senders Samples.timed_out_client ++ [(0%nat, [JNum 7])]))
  /\ react unmarshal_subset Samples.timed_out_client 1
       [EvFrame 7 (bytes_of_string "[7]"); EvClose]
     = Panicked "send on closed channel".
Proof.
  apply (late_response_parks unmarshal_subset Samples.timed_out_client 1 7
           (bytes_of_string "[7]") 0 [JNum 7]).
  - split; [|split].
    + intros id w Hl. cbn in Hl.
      apply lookup_singleton_Some in Hl as [_ <-].
      split; [cbn; lia|reflexivity].
    + intros id1 id2 w H1 H2. cbn in H1, H2.
      apply lookup_singleton_Some in H1 as [<- _].
      apply lookup_singleton_Some in H2 as [<- _]. reflexivity.
    + intros w _. apply lookup_empty.
  - reflexivity.
  - reflexivity.
  - cbn. apply not_elem_of_empty.
Defined.

Lemma Send_registers_nothing_witness :
  exists this',
    Send marshal_subset Samples.pending_client [JStr "Math.Ping"]
    = Done this'
    /\ callRet this' = callRet Samples.pending_client
    /\ chans this' = chans Samples.pending_client
    /\ next_chan this' = next_chan Samples.pending_client
    /\ msgCounter this'
       = Wire.uint16 (msgCounter Samples.pending_client + 1)
    /\ session this' =
       Some (Network.set_outData Samples.working_session
               (mkChan (ch_buf (Network.outData Samples.working_session)
                        ++ [Network.pack
                              (Wire.uint16
                                 (msgCounter Samples.pending_client + 1))
                              Network.DATA Samples.ping_call]) false))
    /\ (callRet Samples.pending_client
         !! Wire.uint16 (msgCounter Samples.pending_client + 1) = None ->
        forall fd rbody,
          RpcClient.Message unmarshal_subset this' fd
            (Wire.uint16 (msgCounter Samples.pending_client + 1)) rbody
          = Done this').
Proof.
  apply (Send_registers_nothing unmarshal_subset marshal_subset
           Samples.pending_client [JStr "Math.Ping"] Samples.ping_call
           Samples.working_session); reflexivity.
Defined.

End ClientCallExamples.

(** ** The client side of a connection, and package [cluster] *)

Section TeardownFacts.
Import Json RpcClient.
Local Open Scope Z_scope.



End TeardownFacts.

Section ClusterFacts.
Import Json RpcClient.
Local Open Scope Z_scope.

Variable json_Unmarshal : Unmarshal.
Variable json_Marshal : Marshal.

(** X23. [cluster.Connect] connects a server name once: a second
    [Connect] under the same name, whatever its address, changes nothing,
    and the clients of the other names are never touched. *)
Theorem Connect_once_per_name (cClient : gmap string Client)
    (serverName : string) (conn1 conn2 : option (list byte)) (n1 n2 : Z) :
  Cluster.Connect (Cluster.Connect cClient serverName conn1 n1)
    serverName conn2 n2
  = Cluster.Connect cClient serverName conn1 n1
  /\ is_Some (Cluster.Connect cClient serverName conn1 n1 !! serverName)
  /\ (forall other, other <> serverName ->
      Cluster.Connect cClient serverName conn1 n1 !! other
      = cClient !! other).
Proof.
  unfold Cluster.Connect.
  destruct (cClient !! serverName) as [c|] eqn:E.
  - rewrite E. split; [reflexivity|]. split; [eauto|]. reflexivity.
  - rewrite lookup_insert_eq. split; [reflexivity|]. split; [eauto|].
    intros other Hne. apply lookup_insert_ne. congruence.
Qed.

(** X24. A server name that was never connected makes [cluster.Call]
    panic with the message that names it.  A failed dial is not reported by
    [cluster.Connect]: the client is recorded without session, and the
    first [cluster.Call] under that name panics on the nil session. *)
Theorem cluster_Call_without_connection (cClient : gmap string Client)
    (serverName : string) (v : list JValue) (fd : Z)
    (events : list Event) (body : list byte) (n : Z) :
  cClient !! serverName = None ->
  json_Marshal v = Some body ->
  Cluster.Call json_Unmarshal json_Marshal cClient serverName v fd events
  = Panicked ("cannot find server:" +:+ serverName)
  /\ Cluster.Call json_Unmarshal json_Marshal
       (Cluster.Connect cClient serverName None n) serverName v fd events
     = Panicked "invalid memory address or nil pointer dereference".
Proof.
  intros Hnone Hbody. split.
  - unfold Cluster.Call. rewrite Hnone. reflexivity.
  - unfold Cluster.Call, Cluster.Connect. rewrite Hnone, lookup_insert_eq.
    unfold Call, Call_request, GetSessionID, make_chan, Dial.
    cbn [snd]. rewrite Hbody. reflexivity.
Qed.

(** The heartbeat loop draws its ids from the counter of the client and
    touches nothing else of it. *)
Lemma heartbeat_passes_counter (k : nat) (t : TcpSide) (this : Client) :
  isOpen t = true ->
  0 <= msgCounter this < 65536 ->
  (heartbeat_passes k t this).2
  = mkClient (callRet this) (chans this) (next_chan this)
      (Wire.uint16 (msgCounter this + Z.of_nat k)) (session this)
      (receivers this) (senders this).
Proof.
  intros Ht. revert this. induction k as [|k IH]; intros this Hc.
  - cbn [heartbeat_passes snd]. unfold Wire.uint16.
    rewrite Z.add_0_r, Z.mod_small by exact Hc. destruct this; reflexivity.
  - cbn [heartbeat_passes]. unfold heartbeat_pass, GetSessionID.
    rewrite Ht.
    match goal with
    | |- context [heartbeat_passes k t ?c] =>
      specialize (IH c); destruct (heartbeat_passes k t c) as [more this']
    end.
    cbn [snd msgCounter callRet chans next_chan session receivers senders]
      in *.
    rewrite IH by (unfold Wire.uint16; apply Z.mod_pos_bound; lia).
    f_equal. unfold Wire.uint16.
    rewrite Zplus_mod_idemp_l. f_equal. lia.
Qed.

(** X25. The first call on a freshly connected server.  A dial that
    succeeds attaches the session and starts the heartbeat loop, which
    draws its ids from the counter that numbers the calls.  After [k]
    passes of that loop the first [cluster.Call] sends its request under
    correlation id [k + 1] (modulo 65536), and the frame with this id, when
    it decodes, resolves it.  A frame with id 1 resolves it only when no
    heartbeat came first: otherwise it is ignored and the call ends in a
    timeout. *)
Theorem cluster_first_call (cClient : gmap string Client)
    (serverName : string) (input : list byte) (n : Z) (v : list JValue)
    (fd : Z) (body rbody : list byte) (args : list JValue) (k : nat) :
  cClient !! serverName = None ->
  json_Marshal v = Some body ->
  json_Unmarshal rbody = Some args ->
  let id := Wire.uint16 (Z.of_nat k + 1) in
  exists client,
    Dial NewClient (Some input) n = ([ProcessInData; Heartbeat], client)
    /\ Cluster.Connect cClient serverName (Some input) n !! serverName
       = Some client
    /\ (exists cClient' client',
          Cluster.Call json_Unmarshal json_Marshal
            (<[serverName := (heartbeat_passes k NewTcpClient client).2]>
               (Cluster.Connect cClient serverName (Some input) n))
            serverName v fd [EvFrame id rbody]
          = Done (args, cClient')
          /\ cClient' !! serverName = Some client'
          /\ (Network.outData <$> session client')
             = Some (mkChan [Network.pack id Network.DATA body] false))
    /\ (id <> 1 ->
        exists cClient' client',
          Cluster.Call json_Unmarshal json_Marshal
            (<[serverName := (heartbeat_passes k NewTcpClient client).2]>
               (Cluster.Connect cClient serverName (Some input) n))
            serverName v fd [EvFrame 1 rbody]
          = Done ([], cClient')
          /\ cClient' !! serverName = Some client'
          /\ callRet client' !! id = Some 0%nat).
Proof.
  intros Hnone Hbody Hr id.
  eexists. split; [reflexivity|]. split.
  { unfold Cluster.Connect. rewrite Hnone, lookup_insert_eq. reflexivity. }
  assert (Hk : (heartbeat_passes k NewTcpClient
                  (Connect NewClient (Network.NewSession n input))).2
               = mkClient ∅ ∅ 0 (Wire.uint16 (Z.of_nat k))
                   (Some (Network.NewSession n input)) ∅ []).
  { rewrite heartbeat_passes_counter by (reflexivity || (cbn; lia)).
    reflexivity. }
  assert (Hid : Wire.uint16 (Wire.uint16 (Z.of_nat k) + 1) = id).
  { unfold id, Wire.uint16. rewrite Zplus_mod_idemp_l. reflexivity. }
  assert (Hreq : Call_request json_Marshal
                   (mkClient ∅ ∅ 0 (Wire.uint16 (Z.of_nat k))
                      (Some (Network.NewSession n input)) ∅ []) v
                 = Done (Some (id, 0%nat),
                         mkClient (<[id := 0%nat]> ∅) ∅ 1 id
                           (Some (Network.set_outData
                                    (Network.NewSession n input)
                                    (mkChan [Network.pack id Network.DATA body]
                                       false)))
                           ({[0%nat]} ∪ ∅) [])).
  { unfold Call_request, GetSessionID, make_chan.
    cbn [callRet chans next_chan msgCounter session receivers senders].
    rewrite Hbody, Hid. unfold RpcClient.Write.
    cbn [session set_callRet callRet chans next_chan msgCounter receivers
         senders].
    unfold Network.Write.
    rewrite (doWrite_working (Network.NewSession n input) id Network.DATA body)
      by reflexivity.
    reflexivity. }
  cbn [Dial snd]. rewrite Hk. split.
  - unfold Cluster.Call. rewrite lookup_insert_eq.
    unfold Call. rewrite Hreq. cbn [mbind Outcome_bind react].
    unfold Message_send. cbn [callRet]. rewrite lookup_insert_eq, Hr.
    rewrite send_receiving by (try reflexivity; cbn; set_solver).
    cbn [mbind Outcome_bind fst]. unfold Call_select.
    match goal with
    | |- context [chan_recv ?c] =>
      replace c with (mkChan [args] false)
        by (unfold chan_at; cbn [chans set_receivers set_chan];
            rewrite lookup_insert_eq; reflexivity)
    end.
    cbn [chan_recv ch_buf ch_closed mbind Outcome_bind fst snd].
    do 2 eexists. split; [reflexivity|].
    split; [apply lookup_insert_eq|]. reflexivity.
  - intros Hne.
    unfold Cluster.Call. rewrite lookup_insert_eq.
    unfold Call. rewrite Hreq. cbn [mbind Outcome_bind react].
    unfold Message_send. cbn [callRet].
    rewrite lookup_insert_ne by congruence. rewrite lookup_empty.
    cbn [mbind Outcome_bind fst]. unfold Call_select.
    replace (chan_recv _) with (@RecvEmpty (list JValue)) by reflexivity.
    cbn [mbind Outcome_bind fst snd].
    do 2 eexists. split; [reflexivity|].
    split; [apply lookup_insert_eq|].
    unfold leave. cbn [callRet set_receivers]. apply lookup_insert_eq.
Qed.

End ClusterFacts.

Section ClusterExamples.
Import Json RpcClient.
Local Open Scope Z_scope.

Lemma cluster_Call_without_connection_witness :
  Cluster.Call unmarshal_subset marshal_subset ∅ "game"
    [JStr "Math.Ping"] 1 []
  = Panicked ("cannot find server:" +:+ "game")
  /\ Cluster.Call unmarshal_subset marshal_subset
       (Cluster.Connect ∅ "game" None 1) "game" [JStr "Math.Ping"] 1 []
     = Panicked "invalid memory address or nil pointer dereference".
Proof.
  apply (cluster_Call_without_connection unmarshal_subset marshal_subset
           ∅ "game" [JStr "Math.Ping"] 1 [] Samples.ping_call 1).
  - apply lookup_empty.
  - reflexivity.
Defined.

Lemma cluster_first_call_witness :
  exists client,
    Dial NewClient (Some []) 1 = ([ProcessInData; Heartbeat], client)
    /\ Cluster.Connect ∅ "game" (Some []) 1 !! "game"%string = Some client
    /\ (exists cClient' client',
          Cluster.Call unmarshal_subset marshal_subset
            (<["game"%string := (heartbeat_passes 2 NewTcpClient client).2]>
               (Cluster.Connect ∅ "game" (Some []) 1))
            "game" [JStr "Math.Add"; JNum 3; JNum 4] 1
            [EvFrame 3 (bytes_of_string "[7]")]
          = Done ([JNum 7], cClient')
          /\ cClient' !! "game"%string = Some client'
          /\ (Network.outData <$> session client')
             = Some (mkChan [Network.pack 3 Network.DATA Samples.good_call]
                       false))
    /\ (3 <> 1 ->
        exists cClient' client',
          Cluster.Call unmarshal_subset marshal_subset
            (<["game"%string := (heartbeat_passes 2 NewTcpClient client).2]>
               (Cluster.Connect ∅ "game" (Some []) 1))
            "game" [JStr "Math.Add"; JNum 3; JNum 4] 1
            [EvFrame 1 (bytes_of_string "[7]")]
          = Done ([], cClient')
          /\ cClient' !! "game"%string = Some client'
          /\ callRet client' !! 3 = Some 0%nat).
Proof.
  apply (cluster_first_call unmarshal_subset marshal_subset ∅ "game" [] 1
           [JStr "Math.Add"; JNum 3; JNum 4] 1 Samples.good_call
           (bytes_of_string "[7]") [JNum 7] 2).
  - apply lookup_empty.
  - reflexivity.
  - reflexivity.
Defined.

End ClusterExamples.

(** ** Across the wire: dispatch, heartbeat and the way back of a call *)

Section ExchangeFacts.
Import Json Reflect Wire Network.
Local Open Scope Z_scope.

Variable json_Unmarshal : Unmarshal.
Variable json_Marshal : Marshal.

(** X26. What a pass of the server's dispatch loop starts is decided by
    the packet it takes off the inbound queue: it starts a write only for
    a HEARTBEAT packet on a WORKING session, and then the acknowledgement
    with the id of that packet and no body; it hands a packet to the
    message handler only if it is a DATA packet, with the id of the
    session and the id and body of the packet, whatever the state. *)
Theorem dispatch_pass_starts (s : Session) (c : SelectCase)
    (spawns : list Spawn) (r : Outcome (Session * bool)) :
  processInData_pass s c = Some (spawns, r) ->
  (forall h k d, GoDoWrite h k d ∈ spawns ->
     k = HEARTBEAT_RET /\ d = [] /\ state s = WORKING
     /\ exists data rest,
          ch_buf (inData s) = data :: rest
          /\ dType data = HEARTBEAT /\ head data = h)
  /\ (forall f h b, GoMsgHandle f h b ∈ spawns ->
      f = fd s
      /\ exists data rest,
           ch_buf (inData s) = data :: rest
           /\ dType data = DATA /\ head data = h /\ body data = b).
Proof.
  intros Hpass. destruct c.
  - unfold processInData_pass, chan_recv in Hpass.
    destruct (ch_buf (inData s)) as [|data rest] eqn:Hbuf.
    { destruct (ch_closed (inData s)); [|discriminate].
      injection Hpass as <- <-. split; intros ? ? ? H; inversion H. }
    cbn [state set_inData fd] in Hpass.
    destruct (Byte.eqb (dType data) HEARTBEAT) eqn:Ehb.
    + apply byte_dec_bl in Ehb.
      destruct (state_eqb (state s) WORKING) eqn:Est.
      * apply state_eqb_eq in Est. cbn [negb] in Hpass.
        injection Hpass as <- <-. split.
        -- intros h k d H. apply elem_of_cons in H as [H|H].
           ++ injection H as -> -> ->. repeat (split; [reflexivity || exact Est|]).
              exists data, rest. auto.
           ++ apply list_elem_of_singleton in H. discriminate.
        -- intros f h b H. apply elem_of_cons in H as [H|H]; [discriminate|].
           apply list_elem_of_singleton in H. discriminate.
      * cbn [negb] in Hpass. injection Hpass as <- <-.
        split; intros ? ? ? H; inversion H.
    + destruct (Byte.eqb (dType data) DATA) eqn:Ed.
      * apply byte_dec_bl in Ed. injection Hpass as <- <-. split.
        -- intros h k d H. apply list_elem_of_singleton in H. discriminate.
        -- intros f h b H. apply list_elem_of_singleton in H.
           injection H as -> -> ->. split; [reflexivity|].
           exists data, rest. auto.
      * injection Hpass as <- <-. split; intros ? ? ? H; inversion H.
  - unfold processInData_pass, TcpConn_Close in Hpass.
    destruct (chan_recv (cClose s)); try discriminate;
      injection Hpass as <- <-;
      (split; intros ? ? ? H; apply list_elem_of_singleton in H;
       discriminate).
Qed.

Lemma dispatch_pass_starts_witness :
  (forall h k d,
     GoDoWrite h k d ∈ [GoDoWrite 300 HEARTBEAT_RET []; GoHeartbeat 1 300] ->
     k = HEARTBEAT_RET /\ d = []
     /\ state Samples.heartbeat_session = WORKING
     /\ exists data rest,
          ch_buf (inData Samples.heartbeat_session) = data :: rest
          /\ dType data = HEARTBEAT /\ head data = h)
  /\ (forall f h b,
      GoMsgHandle f h b ∈ [GoDoWrite 300 HEARTBEAT_RET []; GoHeartbeat 1 300] ->
      f = fd Samples.heartbeat_session
      /\ exists data rest,
           ch_buf (inData Samples.heartbeat_session) = data :: rest
           /\ dType data = DATA /\ head data = h /\ body data = b).
Proof.
  apply (dispatch_pass_starts Samples.heartbeat_session CaseInData
           [GoDoWrite 300 HEARTBEAT_RET []; GoHeartbeat 1 300]
           (Done (Samples.working_session, true))).
  reflexivity.
Defined.

(** One frame through the write pump of a WORKING session whose queue
    held nothing else. *)
Lemma handleWrite_one (s : Session) (frame : list byte) :
  state s = WORKING ->
  outData s = mkChan [frame] false ->
  handleWrite s (mkConn [] false)
  = Some (Blocked, set_outData s (mkChan [] false), mkConn frame false).
Proof.
  intros Hst Hout. unfold handleWrite.
  erewrite handleWrite_loop_working; [| exact Hst | reflexivity | lia].
  rewrite Hout. cbn. rewrite app_nil_r. reflexivity.
Qed.

(** X27. A heartbeat is echoed with its id: the server reads the frame
    of a HEARTBEAT packet, its dispatch loop starts the write of the
    acknowledgement, the write pump puts one frame on the wire, and the
    client that reads this frame finds a HEARTBEAT_RET packet with the id
    of the heartbeat and no body. *)
Theorem heartbeat_echo (srv cl : Session) (id : Z) :
  0 <= id < 65536 ->
  state srv = WORKING ->
  inData srv = chan_make -> outData srv = chan_make ->
  ch_closed (inData cl) = false ->
  exists s1 s2 s3 s4 bytes cl',
    Reader (set_conn_in srv (pack id HEARTBEAT [])) = Done (None, s1)
    /\ processInData_pass s1 CaseInData
       = Some ([GoDoWrite id HEARTBEAT_RET []; GoHeartbeat (fd srv) id],
               Done (s2, true))
    /\ doWrite s2 id HEARTBEAT_RET [] = Done s3
    /\ handleWrite s3 (mkConn [] false)
       = Some (Blocked, s4, mkConn bytes false)
    /\ Reader (set_conn_in cl bytes) = Done (None, cl')
    /\ ch_buf (inData cl')
       = ch_buf (inData cl) ++ [mkData HEARTBEAT_RET id []].
Proof.
  intros Hid Hst Hin Hout Hcl.
  do 6 eexists. split; [|split; [|split; [|split; [|split]]]].
  - rewrite <- (app_nil_r (pack id HEARTBEAT [])).
    apply Reader_pack_app; [exact Hid | rewrite Hin; reflexivity].
  - unfold processInData_pass, chan_recv.
    cbn [inData set_inData set_conn_in ch_buf]. rewrite Hin.
    cbn [ch_buf chan_make app dType head Byte.eqb state set_inData
         set_conn_in fd sent_body]. rewrite Hst. reflexivity.
  - apply doWrite_working; [exact Hst | cbn; rewrite Hout; reflexivity].
  - apply handleWrite_one; [exact Hst|].
    cbn [outData set_outData set_inData set_conn_in]. rewrite Hout.
    reflexivity.
  - rewrite <- (app_nil_r (pack id HEARTBEAT_RET [])).
    apply Reader_pack_app; assumption.
  - reflexivity.
Qed.

Lemma heartbeat_echo_witness :
  exists s1 s2 s3 s4 bytes cl',
    Reader (set_conn_in Samples.working_session (pack 300 HEARTBEAT []))
    = Done (None, s1)
    /\ processInData_pass s1 CaseInData
       = Some ([GoDoWrite 300 HEARTBEAT_RET [];
                GoHeartbeat (fd Samples.working_session) 300],
               Done (s2, true))
    /\ doWrite s2 300 HEARTBEAT_RET [] = Done s3
    /\ handleWrite s3 (mkConn [] false)
       = Some (Blocked, s4, mkConn bytes false)
    /\ Reader (set_conn_in Samples.new_session bytes) = Done (None, cl')
    /\ ch_buf (inData cl')
       = ch_buf (inData Samples.new_session)
         ++ [mkData HEARTBEAT_RET 300 []].
Proof.
  apply (heartbeat_echo Samples.working_session Samples.new_session 300);
    try reflexivity.
  lia.
Defined.

(** The reply of a successful call, on the wire and read by the peer. *)
Lemma reply_on_the_wire (this : RpcServer.Server) (fd sessionID : Z)
    (body : list byte) (s : Session) (info : string) (rest : list JValue)
    (sInfo : RpcServer.Service) (mInfo : RpcServer.methodType)
    (callArgs : list RValue) (ret : list JValue) (retBody : list byte)
    (cs : Session) :
  RpcServer.sessions this !! fd = Some s ->
  state s = WORKING ->
  outData s = chan_make ->
  json_Unmarshal body = Some (JStr info :: rest) ->
  0 <= RpcServer.LastIndex_dot info ->
  RpcServer.serviceMap this
    !! RpcServer.slice_to info (RpcServer.LastIndex_dot info) = Some sInfo ->
  RpcServer.methods sInfo
    !! RpcServer.slice_from info (RpcServer.LastIndex_dot info + 1)
  = Some mInfo ->
  RpcServer.convert_args (RpcServer.args mInfo) (JStr info :: rest) 0
  = Done callArgs ->
  RpcServer.method mInfo callArgs = Done ret ->
  (ret = [] /\ retBody = [] \/ ret <> [] /\ json_Marshal ret = Some retBody) ->
  0 <= sessionID < 65536 ->
  ch_closed (inData cs) = false ->
  exists srv' s' s'' bytes cs',
    RpcServer.Message json_Unmarshal json_Marshal this fd sessionID body
    = Done srv'
    /\ RpcServer.sessions srv' !! fd = Some s'
    /\ handleWrite s' (mkConn [] false)
       = Some (Blocked, s'', mkConn bytes false)
    /\ Reader (set_conn_in cs bytes) = Done (None, cs')
    /\ ch_buf (inData cs')
       = ch_buf (inData cs) ++ [mkData DATA sessionID (sent_body retBody)].
Proof.
  intros Hs Hst Hout Hb Hdot Hsvc Hm Hconv Hcall Hret Hid Hcs.
  do 5 eexists. split; [|split; [|split; [|split]]].
  - eapply Message_success; try eassumption. rewrite Hout. reflexivity.
  - cbn [RpcServer.sessions]. apply lookup_insert_eq.
  - apply handleWrite_one; [exact Hst|].
    cbn [outData set_outData]. rewrite Hout. reflexivity.
  - rewrite <- (app_nil_r (pack sessionID DATA retBody)).
    apply Reader_pack_app; assumption.
  - reflexivity.
Qed.

(** X28. The way back of a call: the reply that [Server.Message] queues
    goes through the write pump, is read by the client as a DATA packet
    with the correlation id of the call and the encoded results (of at
    most 65535 bytes), and [Client.Message], given this packet while the
    call registered under that id still receives from its waiter, delivers
    the decoded results to that waiter, removes its entry and closes the
    waiter. *)
Theorem reply_resolves_call (this : RpcServer.Server) (fd sessionID : Z)
    (body : list byte) (s : Session) (info : string) (rest : list JValue)
    (sInfo : RpcServer.Service) (mInfo : RpcServer.methodType)
    (callArgs : list RValue) (ret ret' : list JValue) (retBody : list byte)
    (cs : Session) (client : RpcClient.Client) (cfd : Z) (w : nat) :
  RpcServer.sessions this !! fd = Some s ->
  state s = WORKING ->
  outData s = chan_make ->
  json_Unmarshal body = Some (JStr info :: rest) ->
  0 <= RpcServer.LastIndex_dot info ->
  RpcServer.serviceMap this
    !! RpcServer.slice_to info (RpcServer.LastIndex_dot info) = Some sInfo ->
  RpcServer.methods sInfo
    !! RpcServer.slice_from info (RpcServer.LastIndex_dot info + 1)
  = Some mInfo ->
  RpcServer.convert_args (RpcServer.args mInfo) (JStr info :: rest) 0
  = Done callArgs ->
  RpcServer.method mInfo callArgs = Done ret ->
  ret <> [] ->
  json_Marshal ret = Some retBody ->
  Z.of_nat (length retBody) <= 65535 ->
  json_Unmarshal retBody = Some ret' ->
  0 <= sessionID < 65536 ->
  ch_closed (inData cs) = false ->
  RpcClient.callRet client !! sessionID = Some w ->
  ch_closed (RpcClient.chan_at client w) = false ->
  w ∈ RpcClient.receivers client ->
  exists srv' s' s'' bytes cs' pkg client',
    RpcServer.Message json_Unmarshal json_Marshal this fd sessionID body
    = Done srv'
    /\ RpcServer.sessions srv' !! fd = Some s'
    /\ handleWrite s' (mkConn [] false)
       = Some (Blocked, s'', mkConn bytes false)
    /\ Reader (set_conn_in cs bytes) = Done (None, cs')
    /\ ch_buf (inData cs') = ch_buf (inData cs) ++ [pkg]
    /\ dType pkg = DATA /\ head pkg = sessionID
    /\ RpcClient.Message json_Unmarshal client cfd (Network.head pkg) (Network.body pkg)
       = Done client'
    /\ RpcClient.chan_at client' w
       = mkChan (ch_buf (RpcClient.chan_at client w) ++ [ret']) true
    /\ RpcClient.callRet client'
       = delete sessionID (RpcClient.callRet client).
Proof.
  intros Hs Hst Hout Hb Hdot Hsvc Hm Hconv Hcall Hne Hmar Hlen Hr Hid Hcs
    Hw Hopen Hrecv.
  destruct (reply_on_the_wire this fd sessionID body s info rest sInfo mInfo
              callArgs ret retBody cs)
    as (srv' & s' & s'' & bytes & cs' & H1 & H2 & H3 & H4 & H5);
    try assumption.
  { right. split; assumption. }
  assert (Hsent : sent_body retBody = retBody).
  { unfold sent_body. destruct (65535 <? Z.of_nat (length retBody)) eqn:E;
      [apply Z.ltb_lt in E; lia | reflexivity]. }
  rewrite Hsent in H5.
  exists srv', s', s'', bytes, cs', (mkData DATA sessionID retBody).
  eexists. repeat (split; [eassumption || reflexivity|]).
  cbn [Network.head Network.body]. split; [|split].
  - apply Message_matched; eassumption.
  - apply chan_at_set_chan_eq.
  - reflexivity.
Qed.

(** X29. A reply with an empty body resolves no call.  When the method
    returns nothing, or its encoded results exceed 65535 bytes, the frame
    that [Server.Message] queues carries an empty body; the client reads
    it as a DATA packet without body, and since the empty input is not a
    JSON document [Client.Message] drops it: the client, its pending call
    included, is left as it was. *)
Theorem empty_reply_resolves_nothing (this : RpcServer.Server)
    (fd sessionID : Z) (body : list byte) (s : Session) (info : string)
    (rest : list JValue) (sInfo : RpcServer.Service)
    (mInfo : RpcServer.methodType) (callArgs : list RValue)
    (ret : list JValue) (retBody : list byte) (cs : Session) :
  RpcServer.sessions this !! fd = Some s ->
  state s = WORKING ->
  outData s = chan_make ->
  json_Unmarshal body = Some (JStr info :: rest) ->
  0 <= RpcServer.LastIndex_dot info ->
  RpcServer.serviceMap this
    !! RpcServer.slice_to info (RpcServer.LastIndex_dot info) = Some sInfo ->
  RpcServer.methods sInfo
    !! RpcServer.slice_from info (RpcServer.LastIndex_dot info + 1)
  = Some mInfo ->
  RpcServer.convert_args (RpcServer.args mInfo) (JStr info :: rest) 0
  = Done callArgs ->
  RpcServer.method mInfo callArgs = Done ret ->
  (ret = [] /\ retBody = []
   \/ ret <> [] /\ json_Marshal ret = Some retBody
      /\ 65535 < Z.of_nat (length retBody)) ->
  json_Unmarshal [] = None ->
  0 <= sessionID < 65536 ->
  ch_closed (inData cs) = false ->
  exists srv' s' s'' bytes cs',
    RpcServer.Message json_Unmarshal json_Marshal this fd sessionID body
    = Done srv'
    /\ RpcServer.sessions srv' !! fd = Some s'
    /\ handleWrite s' (mkConn [] false)
       = Some (Blocked, s'', mkConn bytes false)
    /\ Reader (set_conn_in cs bytes) = Done (None, cs')
    /\ ch_buf (inData cs') = ch_buf (inData cs) ++ [mkData DATA sessionID []]
    /\ (forall client cfd,
        RpcClient.Message json_Unmarshal client cfd sessionID []
        = Done client).
Proof.
  intros Hs Hst Hout Hb Hdot Hsvc Hm Hconv Hcall Hret Hempty Hid Hcs.
  destruct (reply_on_the_wire this fd sessionID body s info rest sInfo mInfo
              callArgs ret retBody cs)
    as (srv' & s' & s'' & bytes & cs' & H1 & H2 & H3 & H4 & H5);
    try assumption.
  { destruct Hret as [[-> ->]|(Hne & Hmar & _)]; [left|right]; auto. }
  assert (Hsent : sent_body retBody = []).
  { destruct Hret as [[_ ->]|(_ & _ & Hbig)]; [reflexivity|].
    unfold sent_body. apply Z.ltb_lt in Hbig. rewrite Hbig. reflexivity. }
  rewrite Hsent in H5.
  exists srv', s', s'', bytes, cs'.
  repeat (split; [assumption|]).
  intros client cfd. unfold RpcClient.Message.
  destruct (RpcClient.callRet client !! sessionID); [|reflexivity].
  rewrite Hempty. reflexivity.
Qed.

End ExchangeFacts.

Section ExchangeExamples.
Import Json Reflect Wire Network.
Local Open Scope Z_scope.

Lemma reply_resolves_call_witness :
  exists srv' s' s'' bytes cs' pkg client',
    RpcServer.Message unmarshal_subset marshal_subset Samples.math_server
      1 7 Samples.good_call = Done srv'
    /\ RpcServer.sessions srv' !! 1 = Some s'
    /\ handleWrite s' (mkConn [] false)
       = Some (Blocked, s'', mkConn bytes false)
    /\ Reader (set_conn_in Samples.working_session bytes) = Done (None, cs')
    /\ ch_buf (inData cs') = ch_buf (inData Samples.working_session) ++ [pkg]
    /\ dType pkg = DATA /\ head pkg = 7
    /\ RpcClient.Message unmarshal_subset Samples.pending_client 1
         (head pkg) (body pkg) = Done client'
    /\ RpcClient.chan_at client' 0
       = mkChan (ch_buf (RpcClient.chan_at Samples.pending_client 0)
                 ++ [[JNum 7]]) true
    /\ RpcClient.callRet client'
       = delete 7 (RpcClient.callRet Samples.pending_client).
Proof.
  apply (reply_resolves_call unmarshal_subset marshal_subset
           Samples.math_server 1 7 Samples.good_call Samples.working_session
           "Math.Add" [JNum 3; JNum 4] Samples.Math_service
           (RpcServer.mkMethod Samples.Math_Add [TInt; TInt])
           [mkRValue TInt (JNum 3); mkRValue TInt (JNum 4)] [JNum 7]
           [JNum 7] (bytes_of_string "[7]") Samples.working_session
           Samples.pending_client 1 0); try reflexivity.
  - cbn. lia.
  - discriminate.
  - cbn. lia.
  - lia.
Defined.

Lemma empty_reply_resolves_nothing_witness :
  exists srv' s' s'' bytes cs',
    RpcServer.Message unmarshal_subset marshal_subset
      Samples.registered_server 1 7 Samples.ping_call = Done srv'
    /\ RpcServer.sessions srv' !! 1 = Some s'
    /\ handleWrite s' (mkConn [] false)
       = Some (Blocked, s'', mkConn bytes false)
    /\ Reader (set_conn_in Samples.working_session bytes) = Done (None, cs')
    /\ ch_buf (inData cs')
       = ch_buf (inData Samples.working_session) ++ [mkData DATA 7 []]
    /\ (forall client cfd,
        RpcClient.Message unmarshal_subset client cfd 7 [] = Done client).
Proof.
  apply (empty_reply_resolves_nothing unmarshal_subset marshal_subset
           Samples.registered_server 1 7 Samples.ping_call
           Samples.working_session "Math.Ping" []
           (RpcServer.mkService "Math"
              (RpcServer.method_table
                 (RpcServer.Methods Samples.Math_receiver)))
           (RpcServer.mkMethod (fun _ => Done []) []) [] [] []
           Samples.working_session); try reflexivity.
  - cbn. lia.
  - left. split; reflexivity.
  - lia.
Defined.

End ExchangeExamples.
